(** * QuizFlow client: the quiz screen, the results screen and the history views

    A shallow embedding of [frontend/src/pages/Quiz.jsx], of the helpers of
    [frontend/src/pages/Results.jsx] and of the history loaders of the
    dashboard and of [frontend/src/pages/History.jsx].

    The quiz screen is a React function component.  Its behaviour is modelled
    as a deterministic transition system over a [World]: the component state
    (the seven [useState] cells), the two browser timers it owns, the HTTP
    requests it has issued and that are still awaiting a response, and a log
    of the calls it made to the outside (API calls, navigation, alerts,
    console).  Time is a millisecond clock that the environment advances;
    responses and clicks are events that arrive between two milliseconds.

    Conventions of the model:
    - an [async] function is cut at its [await]s: the part before the
      [await] issues the request, the part after it runs when the event of
      the response arrives;
    - the state updates an event makes are batched into one render, after
      which the effects whose dependencies changed run;
    - the numbers of the screen are whole: [estimated_time_minutes] is
      taken as a whole number of minutes, so that [timeRemaining] holds whole
      seconds; what the countdown does on a number that is not whole is
      stated apart ([countdown_branch]);
    - the [sessionId] of the route does not change while the screen is
      mounted;
    - when the interval and the timeout come due in the same millisecond the
      interval callback runs first. *)

From Stdlib Require Import ZArith NArith QArith Lia Lqa Ascii.
From stdpp Require Import gmap strings list sorting pretty.

Close Scope Q_scope.
Local Open Scope Z_scope.

(** ** JavaScript values used by the screens *)

(** [a || d] on an optional string: [undefined], [null] and the empty string
    are falsy. *)
Definition js_or_str (a : option string) (d : string) : string :=
  match a with
  | Some s => if decide (s = "") then d else s
  | None => d
  end.

(** [a || d] on an optional number: [undefined], [null] and [0] are falsy.
    Numbers are integers in this model. *)
Definition js_or_num (a : option Z) (d : Z) : Z :=
  match a with
  | Some n => if n =? 0 then d else n
  | None => d
  end.

(** Truthiness of the [error] state cell ([null] or a string). *)
Definition js_truthy_str (a : option string) : bool :=
  match a with
  | Some s => if decide (s = "") then false else true
  | None => false
  end.

(** ** Data model *)

(** The values of [quizStatus]: ['loading'] is the client's initial value, the
    other four are the statuses served by [/quiz-status]. *)
Inductive Status := loading | generating | ready | completed | failed.

#[global] Instance Status_eq_dec : EqDecision Status.
Proof. solve_decision. Defined.

Inductive QuestionType := multiple_choice | true_false | short_answer.

Record Question := {
  id : string;
  type : QuestionType;
  question : string;
  difficulty : string;
  options : option (list string);
}.

Record Metadata := {
  subject : string;
  estimated_time_minutes : option Z;
}.

Record QuizPayload := {
  quiz_metadata : option Metadata;
  questions : option (list Question);
}.

(** The body of a [GET /quiz/{id}] response, [{quiz: {...}}]. *)
Record QuizData := {
  quiz : option QuizPayload;
}.

(** What axios rejects with: [error.response?.data?.detail] and
    [error.message]. *)
Record RequestError := {
  detail : option string;
  message : string;
}.

(** The seven [useState] cells of [Quiz]. *)
Record State := {
  quizStatus : Status;
  quizData : option QuizData;
  currentQuestionIndex : Z;
  answers : gmap string string;
  timeRemaining : option Z;
  isSubmitting : bool;
  error : option string;
}.

Definition initial_state : State :=
  {| quizStatus := loading;
     quizData := None;
     currentQuestionIndex := 0;
     answers := ∅;
     timeRemaining := None;
     isSubmitting := false;
     error := None |}.

Definition setQuizStatus (v : Status) (s : State) : State :=
  {| quizStatus := v; quizData := quizData s;
     currentQuestionIndex := currentQuestionIndex s; answers := answers s;
     timeRemaining := timeRemaining s; isSubmitting := isSubmitting s;
     error := error s |}.

Definition setQuizData (v : option QuizData) (s : State) : State :=
  {| quizStatus := quizStatus s; quizData := v;
     currentQuestionIndex := currentQuestionIndex s; answers := answers s;
     timeRemaining := timeRemaining s; isSubmitting := isSubmitting s;
     error := error s |}.

Definition setCurrentQuestionIndex (v : Z) (s : State) : State :=
  {| quizStatus := quizStatus s; quizData := quizData s;
     currentQuestionIndex := v; answers := answers s;
     timeRemaining := timeRemaining s; isSubmitting := isSubmitting s;
     error := error s |}.

(** [setAnswers] is only ever called with an updater function. *)
Definition setAnswers (f : gmap string string → gmap string string)
    (s : State) : State :=
  {| quizStatus := quizStatus s; quizData := quizData s;
     currentQuestionIndex := currentQuestionIndex s; answers := f (answers s);
     timeRemaining := timeRemaining s; isSubmitting := isSubmitting s;
     error := error s |}.

Definition setTimeRemaining (v : option Z) (s : State) : State :=
  {| quizStatus := quizStatus s; quizData := quizData s;
     currentQuestionIndex := currentQuestionIndex s; answers := answers s;
     timeRemaining := v; isSubmitting := isSubmitting s;
     error := error s |}.

Definition setIsSubmitting (v : bool) (s : State) : State :=
  {| quizStatus := quizStatus s; quizData := quizData s;
     currentQuestionIndex := currentQuestionIndex s; answers := answers s;
     timeRemaining := timeRemaining s; isSubmitting := v;
     error := error s |}.

Definition setError (v : option string) (s : State) : State :=
  {| quizStatus := quizStatus s; quizData := quizData s;
     currentQuestionIndex := currentQuestionIndex s; answers := answers s;
     timeRemaining := timeRemaining s; isSubmitting := isSubmitting s;
     error := v |}.

(** ** Pure handlers of [Quiz.jsx] *)

(** [setAnswers(prev => ({ ...prev, [questionId]: answer }))]: the updater. *)
Definition handleAnswerChange (questionId answer : string)
    (prev : gmap string string) : gmap string string :=
  <[questionId := answer]> prev.

(** [questions.length] as a JavaScript number. *)
Definition js_length {A} (l : list A) : Z := Z.of_nat (length l).

(** [if (currentQuestionIndex < questions.length - 1)
       setCurrentQuestionIndex(currentQuestionIndex + 1)] *)
Definition handleNextQuestion (qs : list Question) (i : Z) : Z :=
  if i <? js_length qs - 1 then i + 1 else i.

(** [if (currentQuestionIndex > 0)
       setCurrentQuestionIndex(currentQuestionIndex - 1)] *)
Definition handlePreviousQuestion (i : Z) : Z :=
  if 0 <? i then i - 1 else i.

(** The seed computed by the [quizData] effect:
    [(quiz_metadata.estimated_time_minutes || 20) * 60]. *)
Definition seed_seconds (m : Metadata) : Z :=
  js_or_num (estimated_time_minutes m) 20 * 60.

(** [quizData?.quiz?.quiz_metadata] *)
Definition metadata_of (d : option QuizData) : option Metadata :=
  match d with
  | Some {| quiz := Some p |} => quiz_metadata p
  | _ => None
  end.

(** [quizData?.quiz?.questions] *)
Definition questions_of (d : option QuizData) : option (list Question) :=
  match d with
  | Some {| quiz := Some p |} => questions p
  | _ => None
  end.

(** [questions[i]] for a JavaScript number [i]. *)
Definition js_index {A} (l : list A) (i : Z) : option A :=
  if i <? 0 then None else l !! Z.to_nat i.

(** ** What the component renders *)

Inductive Screen :=
| GeneratingScreen                 (* spinner, "Quiz Generation in Progress" *)
| ErrorScreen (msg : string)       (* "Something went wrong" *)
| LoadingQuestionsScreen           (* "Loading quiz questions..." *)
| QuizScreen (q : Question)        (* the current question and the buttons *)
| RenderThrows.                    (* a TypeError while rendering *)

(** The four return branches of [Quiz], in source order.  The last branch
    reads [quizData.quiz.quiz_metadata.subject] and [currentQuestion.id]; it
    throws when the metadata or the indexed question is missing. *)
Definition render (s : State) : Screen :=
  if decide (quizStatus s = loading ∨ quizStatus s = generating) then
    GeneratingScreen
  else if js_truthy_str (error s) || bool_decide (quizStatus s = failed) then
    ErrorScreen (js_or_str (error s) "Quiz generation failed.")
  else
    match questions_of (quizData s) with
    | None => LoadingQuestionsScreen
    | Some qs =>
        match js_index qs (currentQuestionIndex s), metadata_of (quizData s) with
        | Some q, Some _ => QuizScreen q
        | _, _ => RenderThrows
        end
    end.

Definition render_throws (s : State) : bool :=
  match render s with RenderThrows => true | _ => false end.

(** ** The component in its environment *)

(** The [await] a request is suspended at: the first or the second one of
    [checkQuizStatus], or the one of [handleSubmitQuiz]. *)
Inductive Await := AwaitStatus | AwaitQuiz | AwaitSubmit.

(** Calls the component makes to the outside, in [utils/api.js] terms. *)
Inductive Call :=
| CallGetQuizStatus (rid : nat)          (* quizAPI.getQuizStatus(sessionId) *)
| CallGetQuiz (rid : nat)                (* quizAPI.getQuiz(sessionId) *)
| CallSubmitAnswers (rid : nat) (a : gmap string string)
                                         (* quizAPI.submitAnswers(sessionId, answers) *)
| CallNavigateResults                    (* navigate(`/results/${sessionId}`) *)
| CallAlert (msg : string)
| CallConsoleError (msg : string)
| CallConsoleLog (msg : string).

Record World := {
  st : State;                  (* the component state *)
  mounted : bool;              (* the screen is on the page *)
  now : Z;                     (* the clock, in milliseconds *)
  interval : option Z;         (* due time of the polling interval, if set *)
  timer : option (Z * Z);      (* due time of the pending countdown timeout
                                  and the [timeRemaining] its closure holds *)
  next_rid : nat;              (* identifier of the next request *)
  pending : gmap nat Await;    (* requests without a response yet *)
  log : list Call;             (* calls made so far, most recent first *)
}.

Definition upd_st (f : State → State) (w : World) : World :=
  {| st := f (st w); mounted := mounted w; now := now w;
     interval := interval w; timer := timer w; next_rid := next_rid w;
     pending := pending w; log := log w |}.

Definition set_now (t : Z) (w : World) : World :=
  {| st := st w; mounted := mounted w; now := t;
     interval := interval w; timer := timer w; next_rid := next_rid w;
     pending := pending w; log := log w |}.

Definition set_interval (v : option Z) (w : World) : World :=
  {| st := st w; mounted := mounted w; now := now w;
     interval := v; timer := timer w; next_rid := next_rid w;
     pending := pending w; log := log w |}.

Definition set_timer (v : option (Z * Z)) (w : World) : World :=
  {| st := st w; mounted := mounted w; now := now w;
     interval := interval w; timer := v; next_rid := next_rid w;
     pending := pending w; log := log w |}.

Definition emit (c : Call) (w : World) : World :=
  {| st := st w; mounted := mounted w; now := now w;
     interval := interval w; timer := timer w; next_rid := next_rid w;
     pending := pending w; log := c :: log w |}.

(** Issue a request and suspend at [a] until its response arrives. *)
Definition request (a : Await) (c : nat → Call) (w : World) : World :=
  {| st := st w; mounted := mounted w; now := now w;
     interval := interval w; timer := timer w; next_rid := S (next_rid w);
     pending := <[next_rid w := a]> (pending w);
     log := c (next_rid w) :: log w |}.

(** A response arrived: the request is no longer pending. *)
Definition settle (rid : nat) (w : World) : World :=
  {| st := st w; mounted := mounted w; now := now w;
     interval := interval w; timer := timer w; next_rid := next_rid w;
     pending := delete rid (pending w); log := log w |}.

(** Unmounting runs the cleanups of the effects: [clearInterval(interval)]
    and [clearTimeout(timer)]. *)
Definition unmount (w : World) : World :=
  {| st := st w; mounted := false; now := now w;
     interval := None; timer := None; next_rid := next_rid w;
     pending := pending w; log := log w |}.

(** A state setter called on an unmounted component does nothing. *)
Definition set_state (f : State → State) (w : World) : World :=
  if mounted w then upd_st f w else w.

(** The render that follows a batch of state updates.  An exception thrown
    while rendering is caught by no error boundary ([App.jsx] has none), so
    React unmounts the tree. *)
Definition commit (w : World) : World :=
  if mounted w && render_throws (st w) then unmount w else w.

(** The polling period passed to [setInterval] and the countdown period
    passed to [setTimeout], in milliseconds. *)
Definition POLL_MS : Z := 3000.
Definition COUNTDOWN_MS : Z := 1000.

(** [handleSubmitQuiz], up to its [await]. *)
Definition handleSubmitQuiz (w : World) : World :=
  request AwaitSubmit (λ rid, CallSubmitAnswers rid (answers (st w)))
    (set_state (setIsSubmitting true) w).

(** [handleSubmitQuiz] after a successful response: [navigate] leaves the
    quiz route, which unmounts the screen. *)
Definition handleSubmitQuiz_then (w : World) : World :=
  unmount (emit CallNavigateResults w).

(** The [catch] block of [handleSubmitQuiz]. *)
Definition handleSubmitQuiz_catch (w : World) : World :=
  set_state (setIsSubmitting false)
    (emit (CallAlert "Failed to submit quiz. Please try again.")
       (emit (CallConsoleError "Error submitting quiz:") w)).

(** The body of the effect on [timeRemaining], run after a render in which
    [timeRemaining] changed.  The screen holds whole seconds;
    [countdown_branch] is the same test on any number. *)
Definition countdown_effect (w : World) : World :=
  match timeRemaining (st w) with
  | Some t =>
      if 0 <? t then set_timer (Some (now w + COUNTDOWN_MS, t)) w
      else if t =? 0 then handleSubmitQuiz w
      else w
  | None => w
  end.

(** [setTimeRemaining(v)] followed by the effect on [timeRemaining].  Setting
    the value the cell already holds causes no effect run; otherwise the
    cleanup of the previous run ([clearTimeout]) precedes the new run. *)
Definition update_timeRemaining (v : Z) (w : World) : World :=
  if negb (mounted w) then w
  else if decide (timeRemaining (st w) = Some v) then w
  else countdown_effect (set_timer None (upd_st (setTimeRemaining (Some v)) w)).

(** The body of the effect on [quizData]. *)
Definition seed_effect (w : World) : World :=
  match metadata_of (quizData (st w)) with
  | Some m => update_timeRemaining (seed_seconds m) w
  | None => w
  end.

(** [checkQuizStatus], up to its first [await]. *)
Definition checkQuizStatus (w : World) : World :=
  request AwaitStatus CallGetQuizStatus w.

(** [checkQuizStatus] between its two [await]s, given [statusResponse.data]. *)
Definition checkQuizStatus_status (status : Status)
    (error_message : option string) (w : World) : World :=
  let w1 := set_state (setQuizStatus status) w in
  match status with
  | ready => commit (request AwaitQuiz CallGetQuiz w1)
  | failed =>
      commit (set_state
        (setError (Some ("Quiz generation failed: " +:+
                         js_or_str error_message "Unknown error"))) w1)
  | _ => commit w1
  end.

(** [checkQuizStatus] after its second [await], given [quizResponse.data].
    Each response is a fresh object, so the effect on [quizData] runs. *)
Definition checkQuizStatus_quiz (d : QuizData) (w : World) : World :=
  let w1 := commit (emit (CallConsoleLog "Quiz loaded successfully")
                      (set_state (setQuizData (Some d)) w)) in
  if mounted w1 then seed_effect w1 else w1.

(** The [catch] block of [checkQuizStatus]. *)
Definition checkQuizStatus_catch (e : RequestError) (w : World) : World :=
  commit (set_state
    (setError (Some ("Failed to load quiz: " +:+
                     js_or_str (detail e) (message e))))
    (emit (CallConsoleError "Error checking quiz status:") w)).

(** Mounting at time [t0]: the first effect calls [checkQuizStatus] at once
    and sets the interval; the two other effects find [null]. *)
Definition mount (t0 : Z) : World :=
  set_interval (Some (t0 + POLL_MS))
    (checkQuizStatus
       {| st := initial_state; mounted := true; now := t0;
          interval := None; timer := None; next_rid := 0;
          pending := ∅; log := [] |}).

(** One millisecond passes.  A due interval calls [checkQuizStatus] and stays
    set for the next period; a due timeout runs
    [setTimeRemaining(timeRemaining - 1)] on the value its closure holds. *)
Definition fire_interval (w : World) : World :=
  match interval w with
  | Some due =>
      if due =? now w
      then set_interval (Some (due + POLL_MS)) (checkQuizStatus w)
      else w
  | None => w
  end.

Definition fire_timer (w : World) : World :=
  match timer w with
  | Some (due, t) =>
      if due =? now w
      then update_timeRemaining (t - 1) (set_timer None w)
      else w
  | None => w
  end.

Definition tick (w : World) : World :=
  fire_timer (fire_interval (set_now (now w + 1) w)).

(** The question on display, when the quiz itself is rendered. *)
Definition current_question (w : World) : option Question :=
  if mounted w then
    match render (st w) with QuizScreen q => Some q | _ => None end
  else None.

Definition questions_shown (w : World) : list Question :=
  default [] (questions_of (quizData (st w))).

(** [isLastQuestion] *)
Definition isLastQuestion (w : World) : bool :=
  currentQuestionIndex (st w) =? js_length (questions_shown w) - 1.

Inductive Event :=
| EvWait (ms : N)                        (* time passes *)
| EvStatusOk (rid : nat) (status : Status) (error_message : option string)
| EvStatusErr (rid : nat) (e : RequestError)
| EvQuizOk (rid : nat) (d : QuizData)
| EvQuizErr (rid : nat) (e : RequestError)
| EvSubmitOk (rid : nat)
| EvSubmitErr (rid : nat) (e : RequestError)
| EvAnswer (a : string)                  (* the user picks or types an answer *)
| EvNext                                 (* click on "Next" *)
| EvPrevious                             (* click on "Previous" *)
| EvSubmit                               (* click on "Submit Quiz" *)
| EvLeave.                               (* navigation away from the screen *)

Definition step (w : World) (e : Event) : World :=
  match e with
  | EvWait ms => N.iter ms tick w
  | EvStatusOk rid status em =>
      match pending w !! rid with
      | Some AwaitStatus => checkQuizStatus_status status em (settle rid w)
      | _ => w
      end
  | EvQuizOk rid d =>
      match pending w !! rid with
      | Some AwaitQuiz => checkQuizStatus_quiz d (settle rid w)
      | _ => w
      end
  | EvStatusErr rid err =>
      match pending w !! rid with
      | Some AwaitStatus => checkQuizStatus_catch err (settle rid w)
      | _ => w
      end
  | EvQuizErr rid err =>
      match pending w !! rid with
      | Some AwaitQuiz => checkQuizStatus_catch err (settle rid w)
      | _ => w
      end
  | EvSubmitOk rid =>
      match pending w !! rid with
      | Some AwaitSubmit => handleSubmitQuiz_then (settle rid w)
      | _ => w
      end
  | EvSubmitErr rid err =>
      match pending w !! rid with
      | Some AwaitSubmit => handleSubmitQuiz_catch (settle rid w)
      | _ => w
      end
  | EvAnswer a =>
      match current_question w with
      | Some q => upd_st (setAnswers (handleAnswerChange (id q) a)) w
      | None => w
      end
  | EvNext =>
      match current_question w with
      | Some _ =>
          commit (upd_st (λ s, setCurrentQuestionIndex
            (handleNextQuestion (questions_shown w) (currentQuestionIndex s)) s) w)
      | None => w
      end
  | EvPrevious =>
      match current_question w with
      | Some _ =>
          commit (upd_st (λ s, setCurrentQuestionIndex
            (handlePreviousQuestion (currentQuestionIndex s)) s) w)
      | None => w
      end
  | EvSubmit =>
      match current_question w with
      | Some _ =>
          if isLastQuestion w && negb (isSubmitting (st w))
          then handleSubmitQuiz w else w
      | None => w
      end
  | EvLeave => unmount w
  end.

Definition run (w : World) (es : list Event) : World := foldl step w es.

(** Counting calls in the log. *)
Definition is_status_call (c : Call) : bool :=
  match c with CallGetQuizStatus _ => true | _ => false end.
Definition is_quiz_call (c : Call) : bool :=
  match c with CallGetQuiz _ => true | _ => false end.
Definition is_submit_call (c : Call) : bool :=
  match c with CallSubmitAnswers _ _ => true | _ => false end.

Fixpoint count (p : Call → bool) (l : list Call) : Z :=
  match l with
  | [] => 0
  | c :: l => (if p c then 1 else 0) + count p l
  end.

Definition status_polls (w : World) : Z := count is_status_call (log w).
Definition quiz_fetches (w : World) : Z := count is_quiz_call (log w).
Definition submissions (w : World) : Z := count is_submit_call (log w).

(** Clicks on the two navigation buttons, for a fixed question list. *)
Inductive Nav := Next | Previous.

Definition navigate_by (qs : list Question) (i : Z) (n : Nav) : Z :=
  match n with
  | Next => handleNextQuestion qs i
  | Previous => handlePreviousQuestion i
  end.

(** The indices of [questions]. *)
Definition in_range (qs : list Question) (i : Z) : Prop :=
  0 ≤ i ≤ js_length qs - 1.

(** ** The results screen ([Results.jsx]) *)

(** [getScoreMessage(percentage)].  The percentage is an exact rational
    here. *)
Definition getScoreMessage (percentage : Q) : string :=
  if Qle_bool 90 percentage then "Outstanding! You've mastered this subject! 🎉"
  else if Qle_bool 80 percentage then "Great job! You have a solid understanding! 👏"
  else if Qle_bool 70 percentage then "Good work! Keep practicing to improve! 👍"
  else if Qle_bool 60 percentage then "Not bad! Review the topics you missed. 📚"
  else "Keep studying! Practice makes perfect! 💪".

(** The keys of the [colors] table of [getGradeColor]. *)
Inductive Grade := A | B | C | D | F.

(** Modelled from the spec: the Grading Engine lives in the backend, which is
    not part of the client sources; only the shape of its result
    ([overall_score.points_earned], [.total_points], [.percentage],
    [.grade]) is read by [Results.jsx].  The spec gives
    [percentage = points_earned / total_points * 100] and the letter from the
    thresholds A >= 90, B >= 80, C >= 70, D >= 60, F otherwise. *)
Definition percentage_of (points_earned total_points : Z) : Q :=
  (inject_Z points_earned / inject_Z total_points * 100)%Q.

Definition grade_of (percentage : Q) : Grade :=
  if Qle_bool 90 percentage then A
  else if Qle_bool 80 percentage then B
  else if Qle_bool 70 percentage then C
  else if Qle_bool 60 percentage then D
  else F.

Record OverallScore := {
  points_earned : Z;
  total_points : Z;
  percentage : Q;
  grade : Grade;
}.

Definition overall_score (earned total : Z) : OverallScore :=
  {| points_earned := earned;
     total_points := total;
     percentage := percentage_of earned total;
     grade := grade_of (percentage_of earned total) |}.

(** ** The history views ([Dashboard] and [History.jsx]) *)

Module HistoryView.

(** An item of [response.data.sessions]. *)
Record Session := {
  session_id : string;
  subject : string;
  status : Status;
  created_at : Z;
}.

(** Modelled from the spec: the [GET /history] endpoint is served by the
    backend, which is not part of the client sources.  The spec has it
    return all sessions ordered by creation time, most recent first. *)
Fixpoint insert_recent (s : Session) (l : list Session) : list Session :=
  match l with
  | [] => [s]
  | x :: l' =>
      if created_at x <=? created_at s then s :: l
      else x :: insert_recent s l'
  end.

Definition history_query (store : list Session) : list Session :=
  foldr insert_recent [] store.

(** [loadDashboardData]: [setRecentSessions(sessions.slice(0, 5))], and
    [setRecentSessions([])] when the request fails. *)
Definition loadDashboardData (response : option (list Session))
    : list Session :=
  match response with
  | Some sessions => take 5 sessions
  | None => []
  end.

(** [loadHistory]: [setSessions(response.data.sessions)]; the initial
    [[]] stays when the request fails. *)
Definition loadHistory (response : option (list Session)) : list Session :=
  match response with
  | Some sessions => sessions
  | None => []
  end.

(** Most recent first. *)
Definition recent_first (l : list Session) : Prop :=
  Sorted (λ a b, created_at b ≤ created_at a) l.

End HistoryView.

(** ** Statements of the specification, in its own words

    These are the properties the specification asks of the poller and of the
    countdown; they are compared with the behaviour of the component below. *)

(** "it is cancelled when ... a terminal status is observed" and "on seeing
    [ready] it ... stops polling further": once [s] is the observed status,
    later events issue no status poll while the screen stays mounted. *)
Definition polling_ceases_on (s : Status) : Prop :=
  ∀ t0 es es',
    quizStatus (st (run (mount t0) es)) = s →
    mounted (run (mount t0) (es ++ es')) = true →
    status_polls (run (mount t0) (es ++ es')) = status_polls (run (mount t0) es).

(** "exactly one follow-up fetch of the full quiz". *)
Definition single_quiz_fetch : Prop :=
  ∀ t0 es, quiz_fetches (run (mount t0) es) ≤ 1.

(** "the implementation must discard a response if a later request has
    already completed": [r1] was issued before [r2], the response of [r2]
    arrives first, then the one of [r1], and the screen still shows what
    [r2] brought. *)
Definition stale_response_discarded : Prop :=
  ∀ t0 es r1 r2 s1 s2 em1 em2,
    let w := run (mount t0) es in
    (r1 < r2)%nat →
    pending w !! r1 = Some AwaitStatus →
    pending w !! r2 = Some AwaitStatus →
    mounted w = true →
    quizStatus (st (run w [EvStatusOk r2 s2 em2; EvStatusOk r1 s1 em1])) = s2.

(** The lifecycle order of the displayed status: ['loading'] first, then
    [generating < ready < completed], or [failed] out of [generating]. *)
Definition status_le (a b : Status) : bool :=
  match a, b with
  | loading, _ => true
  | generating, (generating | ready | completed | failed) => true
  | ready, (ready | completed) => true
  | completed, completed => true
  | failed, failed => true
  | _, _ => false
  end.

(** "the status rendered by the quiz screen never regresses". *)
Definition status_never_regresses : Prop :=
  ∀ t0 es e,
    let w := run (mount t0) es in
    status_le (quizStatus (st w)) (quizStatus (st (step w e))) = true.

(** "seeded from estimated_time_minutes * 60 seconds (default 20 minutes when
    metadata omits it)". *)
Definition claimed_seed (m : Metadata) : Z :=
  match estimated_time_minutes m with
  | Some n => n * 60
  | None => 20 * 60
  end.

(** The countdown is seeded with [claimed_seed] when the quiz arrives. *)
Definition seeded_as_specified : Prop :=
  ∀ w rid d m,
    mounted w = true → pending w !! rid = Some AwaitQuiz →
    metadata_of (Some d) = Some m →
    let w' := step w (EvQuizOk rid d) in
    mounted w' = true →
    timeRemaining (st w') = Some (claimed_seed m).

(** "transient request errors during polling are logged" and not shown: a
    failed status request leaves the screen off the error branch unless the
    stored status is [failed]. *)
Definition poll_error_not_rendered : Prop :=
  ∀ t0 es rid e,
    let w := run (mount t0) es in
    pending w !! rid = Some AwaitStatus →
    let w' := step w (EvStatusErr rid e) in
    quizStatus (st w') ≠ failed →
    ∀ msg, render (st w') ≠ ErrorScreen msg.

(** ** Sample data *)

Definition q1 : Question :=
  {| id := "q1"; type := true_false; question := "2 is a prime number.";
     difficulty := "easy"; options := None |}.

Definition q2 : Question :=
  {| id := "q2"; type := multiple_choice; question := "What is 7 * 8?";
     difficulty := "medium"; options := Some ["54"; "56"; "58"; "64"] |}.

Definition q3 : Question :=
  {| id := "q3"; type := short_answer; question := "State the Pythagorean theorem.";
     difficulty := "hard"; options := None |}.

Definition quiz_with (minutes : option Z) (qs : list Question) : QuizData :=
  {| quiz := Some {| quiz_metadata :=
                       Some {| subject := "Mathematics";
                               estimated_time_minutes := minutes |};
                     questions := Some qs |} |}.

(** A one-minute quiz with a single question. *)
Definition one_minute_quiz : QuizData := quiz_with (Some 1) [q1].

Definition network_error : RequestError :=
  {| detail := None; message := "Network Error" |}.

(** The first poll is answered [ready] and the quiz is served. *)
Definition quiz_loaded : list Event :=
  [EvStatusOk 0 ready None; EvQuizOk 1 one_minute_quiz].

(** The quiz is loaded and the user clicks "Submit Quiz" half a second before
    the countdown ends; polls get no response in the meantime and neither
    does the submission. *)
Definition manual_submit_in_flight : list Event :=
  quiz_loaded ++ [EvWait 59500; EvSubmit].

(** The quiz is loaded and nobody touches the screen for a minute; polls get
    no response in the meantime. *)
Definition idle_minute : list Event :=
  [EvStatusOk 0 ready None; EvQuizOk 1 one_minute_quiz; EvWait 60000].

(** The quiz is loaded; the next poll is answered [ready] again. *)
Definition ready_twice : list Event :=
  quiz_loaded ++ [EvWait 3000; EvStatusOk 2 ready None].

(** [n] polling periods during which the server answers each poll at once
    with [ready] and then serves the quiz again; [rid] is the identifier of
    the first of these polls. *)
Fixpoint responsive_periods (n rid : nat) : list Event :=
  match n with
  | O => []
  | S n =>
      EvWait 3000 :: EvStatusOk rid ready None ::
      EvQuizOk (S rid) one_minute_quiz :: responsive_periods n (S (S rid))
  end.

(** ** Invariants of the screen *)

(** The polling invariant of a screen mounted at [t0]: while mounted, the
    interval is set and due at the end of the current period, and one status
    request has been issued at the start of every period so far; once
    unmounted, both timers are cleared. *)
Definition poll_inv (t0 : Z) (w : World) : Prop :=
  if mounted w then
    interval w = Some (t0 + POLL_MS * status_polls w) ∧
    t0 + POLL_MS * (status_polls w - 1) ≤ now w < t0 + POLL_MS * status_polls w
  else interval w = None ∧ timer w = None.

(** The countdown invariant: a pending timeout belongs to a mounted screen,
    its closure holds the current, positive, [timeRemaining], and it comes
    due within the next second; without a pending timeout, the countdown of
    a mounted screen is not positive. *)
Definition countdown_inv (w : World) : Prop :=
  match timer w with
  | Some (due, t) =>
      mounted w = true ∧ timeRemaining (st w) = Some t ∧ 0 < t ∧
      now w < due ≤ now w + COUNTDOWN_MS
  | None => mounted w = true → ∀ t, timeRemaining (st w) = Some t → t ≤ 0
  end.

(** A transition during which no time passes and no status request is
    issued: it leaves the interval alone, or unmounts. *)
Definition quiet (w w' : World) : Prop :=
  now w' = now w ∧ status_polls w' = status_polls w ∧
  ((mounted w' = mounted w ∧ interval w' = interval w ∧
    (mounted w = false → timer w' = timer w)) ∨
   (mounted w' = false ∧ interval w' = None ∧ timer w' = None)).

(** No countdown timeout comes due up to time [d]. *)
Definition timer_idle_until (w : World) (d : Z) : Prop :=
  match timer w with
  | Some (due, _) => d < due
  | None => True
  end.

(** A screen whose countdown has just been set to the positive value [t]:
    it is mounted and the timeout of the effect is a full second away. *)
Definition counting_from (t : Z) (w : World) : Prop :=
  mounted w = true ∧ timeRemaining (st w) = Some t ∧
  timer w = Some (now w + COUNTDOWN_MS, t) ∧ 0 < t.

(** What the passing of time leaves alone: the screen stays mounted or
    unmounted, and the status, the quiz, the question on display, the
    answers, the error and the quiz fetches are untouched. *)
Definition same_screen (w w' : World) : Prop :=
  mounted w' = mounted w ∧
  quizStatus (st w') = quizStatus (st w) ∧
  quizData (st w') = quizData (st w) ∧
  currentQuestionIndex (st w') = currentQuestionIndex (st w) ∧
  answers (st w') = answers (st w) ∧
  error (st w') = error (st w) ∧
  quiz_fetches w' = quiz_fetches w.

(** Request identifiers are handed out in increasing order: every pending
    request was issued before the next identifier. *)
Definition rids_ok (w : World) : Prop :=
  ∀ rid a, pending w !! rid = Some a → (rid < next_rid w)%nat.

(** The time that passes during a sequence of events, in milliseconds. *)
Definition elapsed (es : list Event) : Z :=
  foldr (λ e ms, match e with EvWait d => Z.of_N d + ms | _ => ms end) 0 es.

(** The event is not a quiz response. *)
Definition not_quiz_response (e : Event) : Prop :=
  match e with
  | EvQuizOk _ _ => False
  | _ => True
  end.

(** A transition that leaves the countdown alone, unless it unmounts the
    screen. *)
Definition keeps_countdown (w w' : World) : Prop :=
  mounted w' = true →
  mounted w = true ∧ now w' = now w ∧ timer w' = timer w ∧
  timeRemaining (st w') = timeRemaining (st w).

(** The countdown of a screen on which [timeRemaining] was [t] during the
    second that began at time [d]: on the mounted screen it has lost one for
    every full second since [d], its timeout is due at the end of the current
    second, and at zero no timeout is left. *)
Definition counted_since (d t : Z) (w : World) : Prop :=
  mounted w = true →
  ∃ r, timeRemaining (st w) = Some r ∧ 0 ≤ r ≤ t ∧
       (0 < r →
          timer w = Some (d + COUNTDOWN_MS * (t - r + 1), r) ∧
          d + COUNTDOWN_MS * (t - r) ≤ now w < d + COUNTDOWN_MS * (t - r + 1)) ∧
       (r = 0 → timer w = None ∧ d + COUNTDOWN_MS * t ≤ now w).

(** ** Further invariants of the quiz screen *)

(** While the mounted screen shows "Submitting...", a submission is awaiting
    its response. *)
Definition submit_inv (w : World) : Prop :=
  mounted w = true → isSubmitting (st w) = true →
  ∃ rid, pending w !! rid = Some AwaitSubmit.

(** No status response said [ready] so far: the quiz was neither fetched nor
    stored, and no quiz request is pending. *)
Definition no_quiz_inv (w : World) : Prop :=
  quiz_fetches w = 0 ∧ quizData (st w) = None ∧
  ∀ rid, pending w !! rid ≠ Some AwaitQuiz.

(** The event is not a status response that says [ready]. *)
Definition not_ready_response (e : Event) : Prop :=
  match e with
  | EvStatusOk _ ready _ => False
  | _ => True
  end.

(** Every quiz response of the session carries the quiz [d]. *)
Definition serves (d : QuizData) (e : Event) : Prop :=
  match e with
  | EvQuizOk _ d' => d' = d
  | _ => True
  end.

(** The event neither leaves the screen nor completes a submission. *)
Definition stays (e : Event) : Prop :=
  match e with
  | EvLeave | EvSubmitOk _ => False
  | _ => True
  end.

(** The screen of a session whose quiz has the questions [qs]: it is
    mounted, it holds that quiz or none yet, and the question index is an
    index of [qs]. *)
Definition stable_inv (d : QuizData) (qs : list Question) (w : World) : Prop :=
  mounted w = true ∧ in_range qs (currentQuestionIndex (st w)) ∧
  (quizData (st w) = None ∨ quizData (st w) = Some d).

(** ** The clock of the quiz screen *)

(** [k] copies of [c] in front of [s]. *)
Fixpoint fill (k : nat) (c : Ascii.ascii) (s : string) : string :=
  match k with
  | O => s
  | S k => String c (fill k c s)
  end.

(** [s.padStart(n, c)] for a filler of one character. *)
Definition padStart (n : nat) (c : Ascii.ascii) (s : string) : string :=
  fill (n - String.length s) c s.

(** [Number.MAX_SAFE_INTEGER], [2^53 - 1]: JavaScript's numbers hold every
    integer up to it, and on the non-negative ones the division by 60 followed
    by [Math.floor], the remainder and [toString] are those of the integers
    ([toString] writes plain decimal digits below [1e21]). *)
Definition MAX_SAFE_INTEGER : Z := 2 ^ 53 - 1.

(** [formatTime(seconds)] on a whole number of seconds:
    [Math.floor(seconds / 60)], [seconds % 60] (the remainder has the sign of
    [seconds]) and the decimal [toString] of integers.  The embedding covers
    the integers up to [MAX_SAFE_INTEGER] in absolute value; beyond them, and
    on numbers that are not whole, JavaScript prints other strings
    (an exponent, a fraction). *)
Definition formatTime (seconds : Z) : string :=
  let mins := seconds / 60 in
  let secs := Z.rem seconds 60 in
  pretty mins +:+ ":" +:+ padStart 2 "0"%char (pretty secs).

(** ** The history page ([History.jsx]) *)

Module HistoryPage.

Import HistoryView.

(** The string of a status, as [/history] sends it. *)
Definition status_name (s : Status) : string :=
  match s with
  | loading => "loading"
  | generating => "generating"
  | ready => "ready"
  | completed => "completed"
  | failed => "failed"
  end.

(** [filteredSessions]:
    [sessions.filter(session => filter === 'all' ? true : session.status === filter)] *)
Definition filteredSessions (sessions : list Session) (filter : string)
    : list Session :=
  List.filter
    (λ session,
       if decide (filter = "all") then true
       else bool_decide (status_name (status session) = filter))
    sessions.

(** [getFilterCounts]: the [reduce] over the sessions, then
    [counts.all = sessions.length]. *)
Definition getFilterCounts (sessions : list Session) : gmap string Z :=
  let counts :=
    foldl (λ (acc : gmap string Z) session,
             <[status_name (status session) :=
                 js_or_num (acc !! status_name (status session)) 0 + 1]> acc)
          ∅ sessions in
  <["all" := js_length sessions]> counts.

(** The number on a filter button and in the summary:
    [filterCounts[key] || 0]. *)
Definition shown_count (sessions : list Session) (key : string) : Z :=
  js_or_num (getFilterCounts sessions !! key) 0.

(** What a request of the page is waiting for.  The continuation of
    [handleDeleteSession] holds the [sessionId] and the [sessions] of the
    render in which "Delete" was clicked. *)
Inductive Await :=
| AwaitHistory
| AwaitDelete (sessionId : string) (sessions : list Session).

Inductive Call :=
| CallGetHistory (rid : nat)                   (* quizFlowAPI.getHistory() *)
| CallDeleteSession (rid : nat) (sessionId : string)
                                               (* quizFlowAPI.deleteSession(sessionId) *)
| CallAlert (msg : string)
| CallConsoleError (msg : string).

Record Page := {
  sessions : list Session;
  loading : bool;
  filter : string;
  next_rid : nat;
  pending : gmap nat Await;
  log : list Call;
}.

(** The first render and its effect, [loadHistory()], up to the [await]. *)
Definition mount : Page :=
  {| sessions := []; loading := true; filter := "all"; next_rid := 1;
     pending := {[ 0%nat := AwaitHistory ]}; log := [CallGetHistory 0] |}.

(** The keys of the five filter buttons. *)
Definition filter_keys : list string :=
  ["all"; "completed"; "ready"; "generating"; "failed"].

(** A row with a "Delete" button for [sessionId] is on display. *)
Definition row_shown (p : Page) (sessionId : string) : bool :=
  negb (loading p) &&
  existsb (λ session, bool_decide (session_id session = sessionId))
          (filteredSessions (sessions p) (filter p)).

(** [sessions.filter(session => session.session_id !== sessionId)] *)
Definition without (sessionId : string) (l : list Session) : list Session :=
  List.filter (λ session, negb (bool_decide (session_id session = sessionId))) l.

Inductive Event :=
| EvHistoryOk (rid : nat) (l : list Session)
| EvHistoryErr (rid : nat)
| EvFilter (key : string)                (* click on a filter button *)
| EvDelete (sessionId : string) (confirmed : bool)
                                         (* click on "Delete", then the answer
                                            to [confirm] *)
| EvDeleteOk (rid : nat)
| EvDeleteErr (rid : nat).

Definition step (p : Page) (e : Event) : Page :=
  match e with
  | EvHistoryOk rid l =>
      match pending p !! rid with
      | Some AwaitHistory =>
          {| sessions := loadHistory (Some l); loading := false;
             filter := filter p; next_rid := next_rid p;
             pending := delete rid (pending p); log := log p |}
      | _ => p
      end
  | EvHistoryErr rid =>
      match pending p !! rid with
      | Some AwaitHistory =>
          {| sessions := sessions p; loading := false;
             filter := filter p; next_rid := next_rid p;
             pending := delete rid (pending p);
             log := CallConsoleError "Error loading history:" :: log p |}
      | _ => p
      end
  | EvFilter key =>
      if negb (loading p) && bool_decide (key ∈ filter_keys) then
        {| sessions := sessions p; loading := loading p; filter := key;
           next_rid := next_rid p; pending := pending p; log := log p |}
      else p
  | EvDelete sessionId confirmed =>
      if row_shown p sessionId && confirmed then
        {| sessions := sessions p; loading := loading p; filter := filter p;
           next_rid := S (next_rid p);
           pending := <[next_rid p := AwaitDelete sessionId (sessions p)]>
                        (pending p);
           log := CallDeleteSession (next_rid p) sessionId :: log p |}
      else p
  | EvDeleteOk rid =>
      match pending p !! rid with
      | Some (AwaitDelete sessionId closure) =>
          {| sessions := without sessionId closure; loading := loading p;
             filter := filter p; next_rid := next_rid p;
             pending := delete rid (pending p); log := log p |}
      | _ => p
      end
  | EvDeleteErr rid =>
      match pending p !! rid with
      | Some (AwaitDelete _ _) =>
          {| sessions := sessions p; loading := loading p;
             filter := filter p; next_rid := next_rid p;
             pending := delete rid (pending p);
             log := CallAlert "Failed to delete session. Please try again."
                    :: CallConsoleError "Error deleting session:" :: log p |}
      | _ => p
      end
  end.

Definition run (p : Page) (es : list Event) : Page := foldl step p es.

(** The sessions with a given status string. *)
Definition with_status (key : string) (l : list Session) : list Session :=
  List.filter (λ session, bool_decide (status_name (status session) = key)) l.

End HistoryPage.

(** ** The dashboard ([Dashboard]) *)

Module Dashboard.

Import HistoryView.

Inductive Await := AwaitSubjects | AwaitHistory | AwaitGenerate.

Inductive Call :=
| CallGetSubjects (rid : nat)                (* quizAPI.getSubjects() *)
| CallGetHistory (rid : nat)                 (* quizAPI.getHistory() *)
| CallGenerateQuiz (rid : nat) (subject : string)
                                             (* quizAPI.generateQuiz(selectedSubject) *)
| CallNavigateQuiz (sessionId : string)      (* navigate(`/quiz/${sessionId}`) *)
| CallAlert (msg : string)
| CallConsoleError (msg : string)
| CallConsoleLog (msg : string).

(** The five [useState] cells of [Dashboard] and its environment. *)
Record Page := {
  subjects : list string;
  selectedSubject : string;
  isGenerating : bool;
  recentSessions : list Session;
  loading : bool;
  mounted : bool;
  next_rid : nat;
  pending : gmap nat Await;
  log : list Call;
}.

Definition setSubjects (v : list string) (p : Page) : Page :=
  if mounted p then
    {| subjects := v; selectedSubject := selectedSubject p;
       isGenerating := isGenerating p; recentSessions := recentSessions p;
       loading := loading p; mounted := mounted p; next_rid := next_rid p;
       pending := pending p; log := log p |}
  else p.

Definition setSelectedSubject (v : string) (p : Page) : Page :=
  if mounted p then
    {| subjects := subjects p; selectedSubject := v;
       isGenerating := isGenerating p; recentSessions := recentSessions p;
       loading := loading p; mounted := mounted p; next_rid := next_rid p;
       pending := pending p; log := log p |}
  else p.

Definition setIsGenerating (v : bool) (p : Page) : Page :=
  if mounted p then
    {| subjects := subjects p; selectedSubject := selectedSubject p;
       isGenerating := v; recentSessions := recentSessions p;
       loading := loading p; mounted := mounted p; next_rid := next_rid p;
       pending := pending p; log := log p |}
  else p.

Definition setRecentSessions (v : list Session) (p : Page) : Page :=
  if mounted p then
    {| subjects := subjects p; selectedSubject := selectedSubject p;
       isGenerating := isGenerating p; recentSessions := v;
       loading := loading p; mounted := mounted p; next_rid := next_rid p;
       pending := pending p; log := log p |}
  else p.

Definition setLoading (v : bool) (p : Page) : Page :=
  if mounted p then
    {| subjects := subjects p; selectedSubject := selectedSubject p;
       isGenerating := isGenerating p; recentSessions := recentSessions p;
       loading := v; mounted := mounted p; next_rid := next_rid p;
       pending := pending p; log := log p |}
  else p.

Definition emit (c : Call) (p : Page) : Page :=
  {| subjects := subjects p; selectedSubject := selectedSubject p;
     isGenerating := isGenerating p; recentSessions := recentSessions p;
     loading := loading p; mounted := mounted p; next_rid := next_rid p;
     pending := pending p; log := c :: log p |}.

Definition request (a : Await) (c : nat → Call) (p : Page) : Page :=
  {| subjects := subjects p; selectedSubject := selectedSubject p;
     isGenerating := isGenerating p; recentSessions := recentSessions p;
     loading := loading p; mounted := mounted p; next_rid := S (next_rid p);
     pending := <[next_rid p := a]> (pending p);
     log := c (next_rid p) :: log p |}.

Definition settle (rid : nat) (p : Page) : Page :=
  {| subjects := subjects p; selectedSubject := selectedSubject p;
     isGenerating := isGenerating p; recentSessions := recentSessions p;
     loading := loading p; mounted := mounted p; next_rid := next_rid p;
     pending := delete rid (pending p); log := log p |}.

Definition unmount (p : Page) : Page :=
  {| subjects := subjects p; selectedSubject := selectedSubject p;
     isGenerating := isGenerating p; recentSessions := recentSessions p;
     loading := loading p; mounted := false; next_rid := next_rid p;
     pending := pending p; log := log p |}.

(** The first render and its effect: [loadDashboardData()] up to its first
    [await] ([setLoading(true)] finds [true]). *)
Definition mount : Page :=
  request AwaitSubjects CallGetSubjects
    {| subjects := []; selectedSubject := ""; isGenerating := false;
       recentSessions := []; loading := true; mounted := true;
       next_rid := 0; pending := ∅; log := [] |}.

(** [handleStartQuiz], up to its [await]. *)
Definition handleStartQuiz (p : Page) : Page :=
  if decide (selectedSubject p = "") then
    emit (CallAlert "Please select a subject first!") p
  else
    request AwaitGenerate (λ rid, CallGenerateQuiz rid (selectedSubject p))
      (emit (CallConsoleLog "Starting quiz generation for:")
         (setIsGenerating true p)).

(** The "Generate Quiz" button is rendered and not [disabled]. *)
Definition can_generate (p : Page) : bool :=
  mounted p && negb (loading p) &&
  negb (bool_decide (selectedSubject p = "") || isGenerating p).

(** The subject [select] is rendered and not [disabled], and [s] is the
    value of one of its options. *)
Definition can_select (p : Page) (s : string) : bool :=
  mounted p && negb (loading p) && negb (isGenerating p) &&
  bool_decide (s = "" ∨ s ∈ subjects p).

Inductive Event :=
| EvSubjectsOk (rid : nat) (l : list string)
| EvSubjectsErr (rid : nat)
| EvHistoryOk (rid : nat) (l : list Session)
| EvHistoryErr (rid : nat)
| EvSelect (s : string)                    (* the user picks an option *)
| EvGenerate                               (* click on "Generate Quiz" *)
| EvGenerateOk (rid : nat) (session_id : string)
| EvGenerateErr (rid : nat) (e : RequestError)
| EvLeave.                                 (* navigation away *)

Definition step (p : Page) (e : Event) : Page :=
  match e with
  | EvSubjectsOk rid l =>
      match pending p !! rid with
      | Some AwaitSubjects =>
          request AwaitHistory CallGetHistory (setSubjects l (settle rid p))
      | _ => p
      end
  | EvSubjectsErr rid =>
      match pending p !! rid with
      | Some AwaitSubjects =>
          setLoading false
            (emit (CallConsoleError "Error loading dashboard:") (settle rid p))
      | _ => p
      end
  | EvHistoryOk rid l =>
      match pending p !! rid with
      | Some AwaitHistory =>
          setLoading false
            (setRecentSessions (loadDashboardData (Some l)) (settle rid p))
      | _ => p
      end
  | EvHistoryErr rid =>
      match pending p !! rid with
      | Some AwaitHistory =>
          setLoading false
            (setRecentSessions (loadDashboardData None)
               (emit (CallConsoleLog "No history available yet") (settle rid p)))
      | _ => p
      end
  | EvSelect s => if can_select p s then setSelectedSubject s p else p
  | EvGenerate => if can_generate p then handleStartQuiz p else p
  | EvGenerateOk rid session_id =>
      match pending p !! rid with
      | Some AwaitGenerate =>
          unmount (emit (CallNavigateQuiz session_id)
                     (emit (CallConsoleLog "Quiz generation started, session:")
                        (settle rid p)))
      | _ => p
      end
  | EvGenerateErr rid e =>
      match pending p !! rid with
      | Some AwaitGenerate =>
          setIsGenerating false
            (emit (CallAlert ("Failed to start quiz: " +:+
                              js_or_str (detail e) (message e)))
               (emit (CallConsoleError "Error starting quiz:") (settle rid p)))
      | _ => p
      end
  | EvLeave => unmount p
  end.

Definition run (p : Page) (es : list Event) : Page := foldl step p es.

(** Requests of [loadDashboardData], as opposed to [handleStartQuiz]. *)
Definition loads (a : Await) : bool :=
  match a with AwaitGenerate => false | _ => true end.

(** Invariant of the dashboard: request identifiers are fresh; at most one
    request of [loadDashboardData] and at most one of [handleStartQuiz] is
    in flight; the spinner is shown exactly while the former is; while the
    dashboard loads nothing is selected, listed or requested; the selection
    is an offered subject or empty; every subject sent to [generateQuiz] is
    an offered, non-empty subject; the mounted dashboard shows
    "Generating..." exactly while its request is in flight. *)
Definition inv (p : Page) : Prop :=
  (∀ rid a, pending p !! rid = Some a → (rid < next_rid p)%nat) ∧
  (∀ r1 r2 a1 a2, pending p !! r1 = Some a1 → pending p !! r2 = Some a2 →
                  loads a1 = loads a2 → r1 = r2) ∧
  (∀ rid a, pending p !! rid = Some a → loads a = true → loading p = true) ∧
  (mounted p = true → loading p = true →
     ∃ rid a, pending p !! rid = Some a ∧ loads a = true) ∧
  (loading p = true →
     selectedSubject p = "" ∧ isGenerating p = false ∧
     recentSessions p = [] ∧ ∀ rid s, CallGenerateQuiz rid s ∉ log p) ∧
  (selectedSubject p = "" ∨ selectedSubject p ∈ subjects p) ∧
  (∀ rid s, CallGenerateQuiz rid s ∈ log p → s ≠ "" ∧ s ∈ subjects p) ∧
  (mounted p = true →
     (isGenerating p = true ↔ ∃ rid, pending p !! rid = Some AwaitGenerate)) ∧
  (length (recentSessions p) ≤ 5)%nat.

End Dashboard.

(** ** Sample pages *)

Definition sample_history : list HistoryView.Session :=
  [ {| HistoryView.session_id := "a1"; HistoryView.subject := "Mathematics";
       HistoryView.status := completed; HistoryView.created_at := 300 |};
    {| HistoryView.session_id := "b2"; HistoryView.subject := "Physics";
       HistoryView.status := ready; HistoryView.created_at := 200 |};
    {| HistoryView.session_id := "c3"; HistoryView.subject := "History";
       HistoryView.status := failed; HistoryView.created_at := 100 |} ].

(** The history page once its list has arrived. *)
Definition history_loaded : HistoryPage.Page :=
  HistoryPage.step HistoryPage.mount (HistoryPage.EvHistoryOk 0 sample_history).

(** The dashboard whose subjects request has failed. *)
Definition subjects_failed : Dashboard.Page :=
  Dashboard.step Dashboard.mount (Dashboard.EvSubjectsErr 0).

(** ** The countdown on numbers that are not whole *)

(** The branch the effect on [timeRemaining] takes on a JavaScript number:
    it arms the timeout that will store [timeRemaining - 1], it submits the
    quiz, or it does nothing.  Numbers are exact rationals here.  On
    JavaScript's numbers the subtraction is exact from 1 to
    [MAX_SAFE_INTEGER]; below 1 its result is rounded but keeps its sign,
    which is all the effect looks at. *)
Inductive CountdownBranch :=
| ArmTimeout (next : Q)     (* setTimeout(() => setTimeRemaining(timeRemaining - 1), 1000) *)
| AutoSubmit                (* handleSubmitQuiz() *)
| NoBranch.

Definition countdown_branch (timeRemaining : Q) : CountdownBranch :=
  if negb (Qle_bool timeRemaining 0) then ArmTimeout (timeRemaining - 1)%Q
  else if Qeq_bool timeRemaining 0 then AutoSubmit
  else NoBranch.

(** The countdown followed from [timeRemaining] for at most [seconds]
    timeouts: the branch on which it ends, if it has ended by then. *)
Fixpoint countdown_end (seconds : nat) (timeRemaining : Q)
    : option CountdownBranch :=
  match countdown_branch timeRemaining with
  | ArmTimeout next =>
      match seconds with
      | O => None
      | S seconds => countdown_end seconds next
      end
  | b => Some b
  end.

(** * Properties *)

(** ** Answers and navigation *)

Section Answers.

Implicit Types (prev : gmap string string) (questionId answer : string).

Lemma handleAnswerChange_same prev questionId answer :
  handleAnswerChange questionId answer prev !! questionId = Some answer.
Proof. unfold handleAnswerChange. apply lookup_insert_eq. Qed.

Lemma handleAnswerChange_other prev questionId answer other :
  other ≠ questionId →
  handleAnswerChange questionId answer prev !! other = prev !! other.
Proof.
  intros Hne. unfold handleAnswerChange. by rewrite lookup_insert_ne.
Qed.

End Answers.

(** C9. For every recorded answers map, question id and answer string,
    [handleAnswerChange(questionId, answer)] sets the entry of [questionId]
    to [answer] and leaves the entries of all other question ids unchanged;
    this is what [setAnswers] stores. *)
Theorem handleAnswerChange_sets_one_entry
    (s : State) (questionId answer : string) :
  let s' := setAnswers (handleAnswerChange questionId answer) s in
  answers s' !! questionId = Some answer ∧
  ∀ other, other ≠ questionId → answers s' !! other = answers s !! other.
Proof.
  simpl. split.
  - apply handleAnswerChange_same.
  - intros other Hne. by apply handleAnswerChange_other.
Qed.

Lemma handleAnswerChange_sets_one_entry_witness :
  let s := setAnswers (handleAnswerChange "q1" "True") initial_state in
  let s' := setAnswers (handleAnswerChange "q2" "56") s in
  answers s' !! "q2" = Some "56" ∧ answers s' !! "q1" = Some "True".
Proof.
  intros s s'.
  destruct (handleAnswerChange_sets_one_entry s "q2" "56") as [Hset Hframe].
  split; [exact Hset|].
  fold s' in Hframe. rewrite (Hframe "q1"); [|discriminate].
  apply (handleAnswerChange_sets_one_entry initial_state "q1" "True").
Defined.

Section Navigation.

Variable qs : list Question.
Hypothesis qs_nonempty : qs ≠ [].

Lemma js_length_pos : 0 < js_length qs.
Proof. unfold js_length. destruct qs; [done | simpl; lia]. Qed.

Lemma handleNextQuestion_cases i :
  (i < js_length qs - 1 ∧ handleNextQuestion qs i = i + 1) ∨
  (js_length qs - 1 ≤ i ∧ handleNextQuestion qs i = i).
Proof.
  unfold handleNextQuestion.
  destruct (Z.ltb_spec i (js_length qs - 1)); [left | right]; done.
Qed.

Lemma handlePreviousQuestion_cases i :
  (0 < i ∧ handlePreviousQuestion i = i - 1) ∨
  (i ≤ 0 ∧ handlePreviousQuestion i = i).
Proof.
  unfold handlePreviousQuestion.
  destruct (Z.ltb_spec 0 i); [left | right]; done.
Qed.

Lemma navigate_by_in_range i n :
  in_range qs i → in_range qs (navigate_by qs i n).
Proof.
  unfold in_range. intros Hi. destruct n; simpl.
  - destruct (handleNextQuestion_cases i) as [[? ->]|[? ->]]; lia.
  - destruct (handlePreviousQuestion_cases i) as [[? ->]|[? ->]]; lia.
Qed.

Lemma navigation_stays_in_range (clicks : list Nav) i :
  in_range qs i → in_range qs (foldl (navigate_by qs) i clicks).
Proof.
  revert i. induction clicks as [|n clicks IH]; intros i Hi; simpl.
  - done.
  - apply IH. by apply navigate_by_in_range.
Qed.

End Navigation.

(** C10. For every non-empty question list the current question index stays
    in [[0, questions.length - 1]] under any sequence of clicks on "Next" and
    "Previous" from the initial index 0; [handleNextQuestion] at the last
    index and [handlePreviousQuestion] at index 0 leave the index unchanged,
    and otherwise they add, respectively subtract, exactly one. *)
Theorem question_index_stays_in_range (qs : list Question) (clicks : list Nav) :
  qs ≠ [] →
  let i := foldl (navigate_by qs) (currentQuestionIndex initial_state) clicks in
  0 ≤ i ≤ js_length qs - 1 ∧
  handleNextQuestion qs i = (if decide (i = js_length qs - 1) then i else i + 1) ∧
  handlePreviousQuestion i = (if decide (i = 0) then i else i - 1).
Proof.
  intros Hqs i.
  assert (Hi : in_range qs i).
  { apply navigation_stays_in_range.
    unfold in_range. pose proof (js_length_pos qs Hqs). simpl. lia. }
  unfold in_range in Hi. split; [done|]. split.
  - destruct (handleNextQuestion_cases qs i) as [[? ->]|[? ->]];
      case_decide; lia.
  - destruct (handlePreviousQuestion_cases i) as [[? ->]|[? ->]];
      case_decide; lia.
Qed.

Lemma question_index_stays_in_range_witness :
  let i := foldl (navigate_by [q1; q2; q3]) 0 [Previous; Next; Next; Next] in
  0 ≤ i ≤ 2 ∧ handleNextQuestion [q1; q2; q3] i = i.
Proof.
  intros i.
  pose proof (question_index_stays_in_range [q1; q2; q3]
                [Previous; Next; Next; Next] ltac:(discriminate)) as (Hr & Hn & _).
  split; [exact Hr | exact Hn].
Defined.

(** ** Transitions that do not poll *)

Section Quiet.

Implicit Types (w : World) (f : State → State).

Lemma quiet_refl w : quiet w w.
Proof. unfold quiet. split; [done|]. split; [done|]. by left. Qed.

Lemma quiet_trans w1 w2 w3 : quiet w1 w2 → quiet w2 w3 → quiet w1 w3.
Proof.
  unfold quiet.
  intros (Hn1 & Hp1 & H1) (Hn2 & Hp2 & H2).
  split; [congruence|]. split; [congruence|].
  destruct H2 as [(Hm2 & Hi2 & Ht2)|H2]; [|by right].
  destruct H1 as [(Hm1 & Hi1 & Ht1)|(Hm1 & Hi1 & Ht1)].
  - left. split; [congruence|]. split; [congruence|].
    intros Hm. rewrite Ht2, Ht1; [done..|congruence].
  - right. split; [congruence|]. split; [congruence|].
    rewrite Ht2; done.
Qed.

Lemma quiet_upd_st f w : quiet w (upd_st f w).
Proof. unfold quiet. simpl. split; [done|]. split; [done|]. by left. Qed.

Lemma quiet_set_state f w : quiet w (set_state f w).
Proof.
  unfold set_state. destruct (mounted w); [apply quiet_upd_st | apply quiet_refl].
Qed.

Lemma quiet_emit c w : is_status_call c = false → quiet w (emit c w).
Proof.
  intros Hc. unfold quiet, status_polls. simpl. rewrite Hc.
  split; [done|]. split; [done|]. by left.
Qed.

Lemma quiet_request a c w :
  (∀ rid, is_status_call (c rid) = false) → quiet w (request a c w).
Proof.
  intros Hc. unfold quiet, status_polls. simpl. rewrite Hc.
  split; [done|]. split; [done|]. by left.
Qed.

Lemma quiet_settle rid w : quiet w (settle rid w).
Proof. unfold quiet. simpl. split; [done|]. split; [done|]. by left. Qed.

Lemma quiet_unmount w : quiet w (unmount w).
Proof. unfold quiet. simpl. split; [done|]. split; [done|]. by right. Qed.

Lemma quiet_commit w : quiet w (commit w).
Proof.
  unfold commit.
  destruct (mounted w && render_throws (st w));
    [apply quiet_unmount | apply quiet_refl].
Qed.

Lemma quiet_set_timer v w : mounted w = true → quiet w (set_timer v w).
Proof.
  intros Hm. unfold quiet. simpl. split; [done|]. split; [done|].
  left. split; [done|]. split; [done|]. congruence.
Qed.

(** Peel the outermost operation off the target world. *)
Local Ltac peel lem := eapply quiet_trans; [|apply lem; try done].

Lemma quiet_handleSubmitQuiz w : quiet w (handleSubmitQuiz w).
Proof.
  unfold handleSubmitQuiz. peel quiet_request. apply quiet_set_state.
Qed.

Lemma quiet_handleSubmitQuiz_then w : quiet w (handleSubmitQuiz_then w).
Proof.
  unfold handleSubmitQuiz_then. peel quiet_unmount. by apply quiet_emit.
Qed.

Lemma quiet_handleSubmitQuiz_catch w : quiet w (handleSubmitQuiz_catch w).
Proof.
  unfold handleSubmitQuiz_catch.
  peel quiet_set_state. peel quiet_emit. by apply quiet_emit.
Qed.

Lemma quiet_countdown_effect w :
  mounted w = true → quiet w (countdown_effect w).
Proof.
  intros Hm. unfold countdown_effect.
  destruct (timeRemaining (st w)) as [t|]; [|apply quiet_refl].
  destruct (0 <? t); [by apply quiet_set_timer|].
  destruct (t =? 0); [apply quiet_handleSubmitQuiz | apply quiet_refl].
Qed.

Lemma quiet_update_timeRemaining v w : quiet w (update_timeRemaining v w).
Proof.
  unfold update_timeRemaining.
  destruct (mounted w) eqn:Hm; simpl; [|apply quiet_refl].
  case_decide; [apply quiet_refl|].
  peel quiet_countdown_effect. peel quiet_set_timer. apply quiet_upd_st.
Qed.

Lemma quiet_seed_effect w : quiet w (seed_effect w).
Proof.
  unfold seed_effect.
  destruct (metadata_of _); [apply quiet_update_timeRemaining | apply quiet_refl].
Qed.

Lemma quiet_checkQuizStatus_status s em w :
  quiet w (checkQuizStatus_status s em w).
Proof.
  unfold checkQuizStatus_status.
  destruct s; peel quiet_commit.
  1,2,4: apply quiet_set_state.
  - peel quiet_request. apply quiet_set_state.
  - peel quiet_set_state. apply quiet_set_state.
Qed.

Lemma quiet_checkQuizStatus_quiz d w : quiet w (checkQuizStatus_quiz d w).
Proof.
  unfold checkQuizStatus_quiz.
  assert (Hq : quiet w (commit (emit (CallConsoleLog "Quiz loaded successfully")
                          (set_state (setQuizData (Some d)) w)))).
  { peel quiet_commit. peel quiet_emit. apply quiet_set_state. }
  destruct (mounted _); [|done].
  by peel quiet_seed_effect.
Qed.

Lemma quiet_checkQuizStatus_catch e w : quiet w (checkQuizStatus_catch e w).
Proof.
  unfold checkQuizStatus_catch.
  peel quiet_commit. peel quiet_set_state. by apply quiet_emit.
Qed.

(** Every event but the passing of time is quiet. *)
Lemma quiet_step w e : (∀ ms, e ≠ EvWait ms) → quiet w (step w e).
Proof.
  intros Hw. destruct e; simpl; try (by destruct (Hw ms)).
  - destruct (pending w !! rid) as [[]|]; try apply quiet_refl.
    peel quiet_checkQuizStatus_status. apply quiet_settle.
  - destruct (pending w !! rid) as [[]|]; try apply quiet_refl.
    peel quiet_checkQuizStatus_catch. apply quiet_settle.
  - destruct (pending w !! rid) as [[]|]; try apply quiet_refl.
    peel quiet_checkQuizStatus_quiz. apply quiet_settle.
  - destruct (pending w !! rid) as [[]|]; try apply quiet_refl.
    peel quiet_checkQuizStatus_catch. apply quiet_settle.
  - destruct (pending w !! rid) as [[]|]; try apply quiet_refl.
    peel quiet_handleSubmitQuiz_then. apply quiet_settle.
  - destruct (pending w !! rid) as [[]|]; try apply quiet_refl.
    peel quiet_handleSubmitQuiz_catch. apply quiet_settle.
  - destruct (current_question w); [apply quiet_upd_st | apply quiet_refl].
  - destruct (current_question w); [|apply quiet_refl].
    peel quiet_commit. apply quiet_upd_st.
  - destruct (current_question w); [|apply quiet_refl].
    peel quiet_commit. apply quiet_upd_st.
  - destruct (current_question w); [|apply quiet_refl].
    destruct (_ && _); [apply quiet_handleSubmitQuiz | apply quiet_refl].
  - apply quiet_unmount.
Qed.

End Quiet.

(** ** The polling interval *)

Section Polling.

Variable t0 : Z.

Lemma poll_inv_mount : poll_inv t0 (mount t0).
Proof.
  unfold poll_inv, status_polls, mount. simpl. unfold POLL_MS.
  split; [apply (f_equal Some)|]; lia.
Qed.

Lemma poll_inv_quiet w w' : quiet w w' → poll_inv t0 w → poll_inv t0 w'.
Proof.
  unfold quiet, poll_inv.
  intros (Hn & Hp & [(Hm & Hi & Ht)|(Hm & Hi & Ht)]).
  - rewrite Hm, Hn, Hp, Hi. destruct (mounted w); [done|].
    intros [? ?]. rewrite Ht; done.
  - rewrite Hm. done.
Qed.

Lemma fire_timer_quiet w :
  (mounted w = false → timer w = None) → quiet w (fire_timer w).
Proof.
  intros Hu. unfold fire_timer.
  destruct (timer w) as [[due t]|] eqn:Ht; [|apply quiet_refl].
  destruct (due =? now w); [|apply quiet_refl].
  assert (Hm : mounted w = true).
  { destruct (mounted w); [done|]. by specialize (Hu eq_refl). }
  eapply quiet_trans; [|apply quiet_update_timeRemaining].
  by apply quiet_set_timer.
Qed.

(** One millisecond: the interval fires exactly when its due time is
    reached, issues one status request and is due one period later. *)
Lemma poll_inv_tick w : poll_inv t0 w → poll_inv t0 (tick w).
Proof.
  intros Hinv. unfold tick.
  apply poll_inv_quiet with (w := fire_interval (set_now (now w + 1) w)).
  { apply fire_timer_quiet. revert Hinv. unfold poll_inv, fire_interval.
    simpl. destruct (mounted w) eqn:Hm.
    - intros [-> _]. destruct (_ =? _); simpl; congruence.
    - intros [Hi Ht]. rewrite Hi. simpl. done. }
  revert Hinv. unfold poll_inv, fire_interval. simpl.
  destruct (mounted w) eqn:Hm.
  - intros [Hi Hb]. rewrite Hi.
    destruct (Z.eqb_spec (t0 + POLL_MS * status_polls w) (now w + 1)) as [Hd|Hd].
    + unfold status_polls in *. simpl. rewrite Hm.
      unfold POLL_MS in *. split; [apply (f_equal Some)|]; lia.
    + simpl. rewrite Hm. rewrite Hi. split; [done|].
      unfold POLL_MS, status_polls in *. simpl. lia.
  - intros [Hi Ht]. rewrite Hi. simpl. rewrite Hm. done.
Qed.

Lemma poll_inv_wait ms w : poll_inv t0 w → poll_inv t0 (N.iter ms tick w).
Proof. apply N.iter_invariant. intros x. apply poll_inv_tick. Qed.

Lemma poll_inv_step w e : poll_inv t0 w → poll_inv t0 (step w e).
Proof.
  intros Hinv. destruct e as [ms| | | | | | | | | | |];
    try (eapply poll_inv_quiet; [apply quiet_step; by intros ?|done]).
  by apply poll_inv_wait.
Qed.

Lemma poll_inv_run es w : poll_inv t0 w → poll_inv t0 (run w es).
Proof.
  revert w. induction es as [|e es IH]; intros w Hinv; simpl; [done|].
  apply IH. by apply poll_inv_step.
Qed.

Lemma poll_inv_reachable es : poll_inv t0 (run (mount t0) es).
Proof. apply poll_inv_run, poll_inv_mount. Qed.

(** The number of status requests issued by a mounted screen, from the
    time elapsed since it was mounted. *)
Lemma status_polls_mounted w :
  poll_inv t0 w → mounted w = true →
  status_polls w = 1 + (now w - t0) / POLL_MS.
Proof.
  unfold poll_inv. intros Hinv Hm. rewrite Hm in Hinv.
  destruct Hinv as [_ Hb]. unfold POLL_MS in *.
  assert (Hq : (now w - t0) / 3000 = status_polls w - 1).
  { symmetry. apply Z.div_unique with (r := now w - t0 - 3000 * (status_polls w - 1)); lia. }
  lia.
Qed.

(** Time only adds to the clock. *)
Lemma now_tick w : now (tick w) = now w + 1.
Proof.
  unfold tick.
  set (w1 := fire_interval (set_now (now w + 1) w)).
  assert (H1 : now w1 = now w + 1).
  { unfold w1, fire_interval. simpl.
    destruct (interval w) as [due|]; [|done].
    by destruct (due =? now w + 1). }
  rewrite <- H1. unfold fire_timer.
  destruct (timer w1) as [[due t]|]; [|done].
  destruct (due =? now w1); [|done].
  apply (quiet_update_timeRemaining (t - 1) (set_timer None w1)).
Qed.

Lemma now_wait ms w : now (N.iter ms tick w) = now w + Z.of_N ms.
Proof.
  induction ms as [|ms IH] using N.peano_ind; simpl; [lia|].
  rewrite N.iter_succ, N2Z.inj_succ, now_tick, IH. lia.
Qed.

(** The clock shows the time the events took. *)
Lemma now_step w e : now (step w e) = now w + elapsed [e].
Proof.
  assert (Hq : (∀ ms, e ≠ EvWait ms) → now (step w e) = now w + elapsed [e]).
  { intros He. destruct (quiet_step w e He) as (Hn & _). rewrite Hn.
    destruct e as [ms| | | | | | | | | | |]; simpl; try lia.
    by destruct (He ms). }
  destruct e as [ms| | | | | | | | | | |]; try (apply Hq; by intros ?).
  change (step w (EvWait ms)) with (N.iter ms tick w).
  rewrite now_wait. simpl. lia.
Qed.

Lemma elapsed_app es es' : elapsed (es ++ es') = elapsed es + elapsed es'.
Proof.
  induction es as [|e es IH]; simpl; [done|]. destruct e; lia.
Qed.

Lemma now_run es w : now (run w es) = now w + elapsed es.
Proof.
  revert w. induction es as [|e es IH]; intros w; [simpl; lia|].
  change (run w (e :: es)) with (run (step w e) es).
  rewrite IH, now_step. change (e :: es) with ([e] ++ es).
  rewrite elapsed_app. lia.
Qed.

(** Once unmounted, a screen stays unmounted, has no timer and polls no
    more. *)
Lemma unmounted_step w e :
  poll_inv t0 w → mounted w = false →
  mounted (step w e) = false ∧ status_polls (step w e) = status_polls w.
Proof.
  intros Hinv Hm.
  assert (Hq : (∀ ms, e ≠ EvWait ms) →
            mounted (step w e) = false ∧ status_polls (step w e) = status_polls w).
  { intros He.
    destruct (quiet_step w e He) as (_ & Hp & [(Hm' & _)|(Hm' & _)]);
      split; congruence. }
  destruct e as [ms| | | | | | | | | | |]; try (apply Hq; by intros ?).
  clear Hq. simpl.
  assert (Hid : ∀ x, poll_inv t0 x → mounted x = false →
            mounted (tick x) = false ∧ status_polls (tick x) = status_polls x
            ∧ poll_inv t0 (tick x)).
  { intros x Hx Hmx. pose proof (poll_inv_tick x Hx) as Hx'.
    unfold poll_inv in Hx. rewrite Hmx in Hx. destruct Hx as [Hi Ht].
    unfold tick, fire_timer, fire_interval in *. simpl in *.
    rewrite Hi in *. simpl in *. rewrite Ht in *. simpl in *. done. }
  induction ms as [|ms IH] using N.peano_ind; simpl; [done|].
  rewrite N.iter_succ.
  destruct IH as [IH1 IH2].
  destruct (Hid (N.iter ms tick w)) as (? & ? & ?);
    [by apply poll_inv_wait | done | split; congruence].
Qed.

Lemma unmounted_run es w :
  poll_inv t0 w → mounted w = false →
  mounted (run w es) = false ∧ status_polls (run w es) = status_polls w.
Proof.
  revert w. induction es as [|e es IH]; intros w Hinv Hm; simpl; [done|].
  destruct (unmounted_step w e Hinv Hm) as [Hm' Hp'].
  destruct (IH (step w e)) as [? ?]; [by apply poll_inv_step | done |].
  split; congruence.
Qed.

End Polling.

(** ** The countdown *)

Section Countdown.

Implicit Types (w : World) (t : Z).

Lemma fire_interval_frame w :
  let w' := fire_interval w in
  st w' = st w ∧ mounted w' = mounted w ∧ now w' = now w ∧
  timer w' = timer w ∧ submissions w' = submissions w ∧
  quiz_fetches w' = quiz_fetches w.
Proof.
  unfold fire_interval. destruct (interval w) as [due|]; [|done].
  by destruct (due =? now w).
Qed.

Lemma update_timeRemaining_changed v w :
  mounted w = true → timeRemaining (st w) ≠ Some v →
  update_timeRemaining v w =
  countdown_effect (set_timer None (upd_st (setTimeRemaining (Some v)) w)).
Proof.
  intros Hm Hne. unfold update_timeRemaining. rewrite Hm. simpl.
  by case_decide.
Qed.

(** A millisecond in which no timeout is due changes nothing but the
    clock and the polling. *)
Lemma tick_idle w :
  timer_idle_until w (now w + 1) →
  st (tick w) = st w ∧ mounted (tick w) = mounted w ∧
  timer (tick w) = timer w ∧ submissions (tick w) = submissions w ∧
  quiz_fetches (tick w) = quiz_fetches w.
Proof.
  unfold timer_idle_until, tick. intros Hidle.
  set (w1 := fire_interval (set_now (now w + 1) w)).
  destruct (fire_interval_frame (set_now (now w + 1) w))
    as (Hs & Hm & Hn & Ht & Hsub & Hq).
  fold w1 in Hs, Hm, Hn, Ht, Hsub, Hq. simpl in *.
  unfold fire_timer. rewrite Ht, Hn.
  destruct (timer w) as [[due t]|]; [|done].
  destruct (Z.eqb_spec due (now w + 1)); [lia|done].
Qed.

(** The millisecond in which the timeout is due: [timeRemaining] drops by
    one; a positive value sets the next timeout a second later, zero calls
    [handleSubmitQuiz] with the answers recorded so far. *)
Lemma tick_due w t :
  mounted w = true → timer w = Some (now w + 1, t) →
  timeRemaining (st w) = Some t → 0 < t →
  let w' := tick w in
  mounted w' = true ∧ timeRemaining (st w') = Some (t - 1) ∧
  answers (st w') = answers (st w) ∧
  if decide (t = 1)
  then timer w' = None ∧ submissions w' = submissions w + 1 ∧
       isSubmitting (st w') = true ∧
       ∃ rid, head (log w') = Some (CallSubmitAnswers rid (answers (st w)))
  else timer w' = Some (now w' + COUNTDOWN_MS, t - 1) ∧
       submissions w' = submissions w ∧
       isSubmitting (st w') = isSubmitting (st w).
Proof.
  intros Hm Ht Hr Hpos. unfold tick.
  set (w1 := fire_interval (set_now (now w + 1) w)).
  destruct (fire_interval_frame (set_now (now w + 1) w))
    as (Hs1 & Hm1 & Hn1 & Ht1 & Hsub1 & _).
  fold w1 in Hs1, Hm1, Hn1, Ht1, Hsub1. simpl in *.
  unfold fire_timer. rewrite Ht1, Ht, Hn1, Z.eqb_refl.
  rewrite update_timeRemaining_changed; simpl;
    [|congruence|rewrite Hs1, Hr; intros [=]; lia].
  unfold countdown_effect. simpl.
  case_decide as Hone.
  - subst t. simpl. unfold handleSubmitQuiz, set_state. simpl.
    rewrite Hm1, Hm. simpl. rewrite Hs1. unfold submissions in *. simpl in *.
    rewrite Hsub1. repeat split; try done; [congruence | lia | by eexists].
  - destruct (Z.ltb_spec 0 (t - 1)); [|lia]. simpl.
    rewrite Hs1, Hn1. unfold submissions in *. simpl in *.
    repeat split; try done. congruence.
Qed.

(** Waiting while no timeout comes due. *)
Lemma wait_idle n w :
  timer_idle_until w (now w + Z.of_N n) →
  let w' := N.iter n tick w in
  st w' = st w ∧ mounted w' = mounted w ∧ timer w' = timer w ∧
  submissions w' = submissions w ∧ quiz_fetches w' = quiz_fetches w.
Proof.
  induction n as [|n IH] using N.peano_ind; simpl; [done|].
  intros Hidle. rewrite N.iter_succ.
  assert (Hidle' : timer_idle_until w (now w + Z.of_N n)).
  { unfold timer_idle_until in *. destruct (timer w) as [[due t]|]; [lia|done]. }
  destruct (IH Hidle') as (Hs & Hm & Ht & Hsub & Hq).
  destruct (tick_idle (N.iter n tick w)) as (Hs' & Hm' & Ht' & Hsub' & Hq').
  { unfold timer_idle_until in *. rewrite Ht, now_wait.
    destruct (timer w) as [[due t]|]; [lia|done]. }
  repeat split; congruence.
Qed.

(** One second of a running countdown. *)
Lemma one_second w t :
  counting_from t w →
  let w' := N.iter 1000 tick w in
  mounted w' = true ∧ timeRemaining (st w') = Some (t - 1) ∧
  answers (st w') = answers (st w) ∧
  if decide (t = 1)
  then timer w' = None ∧ submissions w' = submissions w + 1 ∧
       isSubmitting (st w') = true ∧
       ∃ rid, head (log w') = Some (CallSubmitAnswers rid (answers (st w)))
  else counting_from (t - 1) w' ∧ submissions w' = submissions w ∧
       isSubmitting (st w') = isSubmitting (st w).
Proof.
  intros (Hm & Hr & Ht & Hpos). unfold COUNTDOWN_MS in Ht.
  change 1000%N with (N.succ 999). rewrite N.iter_succ.
  set (w9 := N.iter 999 tick w).
  destruct (wait_idle 999 w) as (Hs9 & Hm9 & Ht9 & Hsub9 & _).
  { unfold timer_idle_until. rewrite Ht. lia. }
  fold w9 in Hs9, Hm9, Ht9, Hsub9.
  assert (Hn9 : now w9 = now w + 999) by apply now_wait.
  destruct (tick_due w9 t) as (Hm' & Hr' & Ha' & Hcase); try congruence.
  { rewrite Ht9, Ht, Hn9. do 2 f_equal. lia. }
  rewrite Hs9 in Ha', Hcase. rewrite Hsub9 in Hcase.
  split; [done|]. split; [done|]. split; [done|].
  case_decide; [done|].
  destruct Hcase as (Ht' & Hsub' & Hi').
  unfold counting_from. repeat split; try done. lia.
Qed.

End Countdown.

Section CountdownRuns.

Implicit Types (w : World) (t : Z) (k n : N).

(** [k] whole seconds of a countdown that stays positive. *)
Lemma countdown_seconds k w t :
  counting_from t w → Z.of_N k < t →
  let w' := N.iter (1000 * k) tick w in
  counting_from (t - Z.of_N k) w' ∧ submissions w' = submissions w ∧
  answers (st w') = answers (st w) ∧
  isSubmitting (st w') = isSubmitting (st w).
Proof.
  intros Hc. induction k as [|k IH] using N.peano_ind; intros Hk.
  - cbv zeta. change (1000 * 0)%N with 0%N. change (Z.of_N 0) with 0.
    by rewrite Z.sub_0_r.
  - rewrite N.mul_succ_r, N.add_comm, N.iter_add.
    destruct IH as (Hc' & Hsub & Ha & Hi); [lia|].
    destruct (one_second _ _ Hc') as (_ & _ & Ha' & Hcase).
    case_decide; [lia|].
    destruct Hcase as (Hc'' & Hsub' & Hi').
    cbv zeta. replace (t - Z.of_N (N.succ k)) with (t - Z.of_N k - 1) by lia.
    repeat split; try apply Hc''; congruence.
Qed.

(** The countdown reaches zero after [t] seconds and then calls
    [handleSubmitQuiz] with the answers recorded so far. *)
Lemma countdown_reaches_zero w t :
  counting_from t w →
  let w' := N.iter (1000 * Z.to_N t) tick w in
  mounted w' = true ∧ timeRemaining (st w') = Some 0 ∧ timer w' = None ∧
  submissions w' = submissions w + 1 ∧
  ∃ rid, head (log w') = Some (CallSubmitAnswers rid (answers (st w))).
Proof.
  intros Hc. assert (Hpos : 0 < t) by apply Hc.
  replace (Z.to_N t) with (N.succ (Z.to_N (t - 1))) by lia.
  rewrite N.mul_succ_r, N.add_comm, N.iter_add.
  destruct (countdown_seconds (Z.to_N (t - 1)) w t Hc) as (Hc' & Hsub & Ha & _);
    [lia|].
  replace (t - Z.of_N (Z.to_N (t - 1))) with 1 in Hc' by lia.
  destruct (one_second _ _ Hc') as (Hm & Hr & _ & Hcase).
  case_decide; [|done]. destruct Hcase as (Ht & Hsub' & _ & rid & Hlog).
  cbv zeta. repeat split; try done; [congruence|].
  exists rid. congruence.
Qed.

(** With nothing but time passing, the countdown calls
    [handleSubmitQuiz] exactly once, when it reaches zero. *)
Lemma auto_submit_once w t n :
  counting_from t w →
  submissions (N.iter n tick w) =
  submissions w + (if decide (1000 * t ≤ Z.of_N n) then 1 else 0).
Proof.
  intros Hc. assert (Hpos : 0 < t) by apply Hc. case_decide as Hn.
  - replace n with (n - 1000 * Z.to_N t + 1000 * Z.to_N t)%N by lia.
    rewrite N.iter_add.
    destruct (countdown_reaches_zero w t Hc) as (_ & _ & Ht & Hsub & _).
    destruct (wait_idle (n - 1000 * Z.to_N t)
                (N.iter (1000 * Z.to_N t) tick w)) as (_ & _ & _ & Hsub' & _).
    { unfold timer_idle_until. by rewrite Ht. }
    cbv zeta in *. congruence.
  - assert (Hqr : ∃ q r, n = (r + 1000 * q)%N ∧ (r < 1000)%N).
    { exists (n / 1000)%N, (n `mod` 1000)%N. split.
      - rewrite N.add_comm. by apply N.div_mod.
      - by apply N.mod_lt. }
    destruct Hqr as (q & r & -> & Hr). rewrite N.iter_add.
    destruct (countdown_seconds q w t Hc) as (Hc' & Hsub & _); [lia|].
    destruct Hc' as (_ & _ & Ht & _).
    destruct (wait_idle r (N.iter (1000 * q) tick w)) as (_ & _ & _ & Hsub' & _).
    { unfold timer_idle_until. rewrite Ht. unfold COUNTDOWN_MS. lia. }
    cbv zeta in *. lia.
Qed.

Lemma st_commit w : st (commit w) = st w.
Proof. unfold commit. by destruct (_ && _). Qed.

Lemma update_timeRemaining_sets v w :
  mounted w = true →
  mounted (update_timeRemaining v w) = true ∧
  timeRemaining (st (update_timeRemaining v w)) = Some v ∧
  (0 < v → timeRemaining (st w) ≠ Some v →
     counting_from v (update_timeRemaining v w)).
Proof.
  intros Hm. unfold update_timeRemaining. rewrite Hm. simpl.
  case_decide as Heq; [done|].
  unfold countdown_effect, counting_from. simpl.
  destruct (Z.ltb_spec 0 v); simpl; [done|].
  destruct (v =? 0); simpl.
  - unfold handleSubmitQuiz, set_state. simpl. rewrite Hm. simpl.
    repeat split; try done; lia.
  - repeat split; try done; lia.
Qed.

(** What the arrival of the quiz does to the countdown. *)
Lemma quiz_response_seeds w rid d m :
  mounted w = true → pending w !! rid = Some AwaitQuiz →
  metadata_of (Some d) = Some m →
  let w' := step w (EvQuizOk rid d) in
  mounted w' = true →
  timeRemaining (st w') = Some (seed_seconds m) ∧
  (0 < seed_seconds m → timeRemaining (st w) ≠ Some (seed_seconds m) →
     counting_from (seed_seconds m) w').
Proof.
  intros Hm Hp Hmd. simpl. rewrite Hp. unfold checkQuizStatus_quiz.
  set (w1 := commit _).
  assert (Hs1 : st w1 = setQuizData (Some d) (st w)).
  { unfold w1. rewrite st_commit. unfold set_state. simpl. by rewrite Hm. }
  destruct (mounted w1) eqn:Hm1; [|congruence]. intros _.
  unfold seed_effect. rewrite Hs1.
  change (quizData (setQuizData (Some d) (st w))) with (Some d). rewrite Hmd.
  destruct (update_timeRemaining_sets (seed_seconds m) w1 Hm1) as (_ & Hr & Hc).
  split; [done|]. intros Hpos Hne. apply Hc; [done|].
  by rewrite Hs1.
Qed.

End CountdownRuns.

(** ** The countdown invariant *)

Section CountdownInvariant.

Implicit Types (w : World).

(** Transitions that touch neither the clock, the timeout, the mounting nor
    [timeRemaining]. *)
Lemma countdown_inv_frame w w' :
  timer w' = timer w → mounted w' = mounted w → now w' = now w →
  timeRemaining (st w') = timeRemaining (st w) →
  countdown_inv w → countdown_inv w'.
Proof. unfold countdown_inv. by intros -> -> -> ->. Qed.

Lemma countdown_inv_set_state f w :
  (∀ s, timeRemaining (f s) = timeRemaining s) →
  countdown_inv w → countdown_inv (set_state f w).
Proof.
  intros Hf. unfold set_state. destruct (mounted w); [|done].
  apply countdown_inv_frame; try done. apply Hf.
Qed.

Lemma countdown_inv_unmount w : countdown_inv (unmount w).
Proof. unfold countdown_inv. simpl. done. Qed.

Lemma countdown_inv_commit w : countdown_inv w → countdown_inv (commit w).
Proof.
  unfold commit. destruct (_ && _); [|done]. intros _. apply countdown_inv_unmount.
Qed.

Lemma countdown_inv_handleSubmitQuiz w :
  countdown_inv w → countdown_inv (handleSubmitQuiz w).
Proof.
  intros Hinv. unfold handleSubmitQuiz.
  apply countdown_inv_frame with (w := set_state (setIsSubmitting true) w);
    try done.
  by apply countdown_inv_set_state.
Qed.

(** [setTimeRemaining] with a new value and the effect that follows it put
    the countdown in order, whatever it was before. *)
Lemma countdown_inv_update_timeRemaining v w :
  (mounted w = false ∨ timeRemaining (st w) = Some v → countdown_inv w) →
  countdown_inv (update_timeRemaining v w).
Proof.
  intros Hinv. unfold update_timeRemaining.
  destruct (mounted w) eqn:Hm; simpl; [|by apply Hinv; left].
  case_decide; [by apply Hinv; right|]. unfold countdown_effect. simpl.
  destruct (Z.ltb_spec 0 v).
  - unfold countdown_inv, COUNTDOWN_MS. simpl. repeat split; try done; lia.
  - destruct (Z.eqb_spec v 0).
    + unfold countdown_inv, handleSubmitQuiz, set_state. simpl. rewrite Hm.
      simpl. intros _ t [= <-]. lia.
    + unfold countdown_inv. simpl. intros _ t [= <-]. lia.
Qed.

Lemma countdown_inv_tick w : countdown_inv w → countdown_inv (tick w).
Proof.
  intros Hinv. unfold tick.
  set (w1 := fire_interval (set_now (now w + 1) w)).
  destruct (fire_interval_frame (set_now (now w + 1) w))
    as (Hs1 & Hm1 & Hn1 & Ht1 & _).
  fold w1 in Hs1, Hm1, Hn1, Ht1. simpl in Hs1, Hm1, Hn1, Ht1.
  unfold fire_timer. rewrite Ht1, Hn1.
  unfold countdown_inv in Hinv.
  destruct (timer w) as [[due t]|] eqn:Ht.
  - destruct Hinv as (Hm & Hr & Hpos & Hdue).
    destruct (Z.eqb_spec due (now w + 1)).
    + apply countdown_inv_update_timeRemaining. simpl.
      rewrite Hm1, Hs1, Hm, Hr. intros [[=]|[=]]. lia.
    + unfold countdown_inv. rewrite Ht1, ?Ht, Hm1, Hs1, Hn1.
      repeat split; try done; lia.
  - unfold countdown_inv. rewrite Ht1, ?Ht, Hm1, Hs1. done.
Qed.

Lemma countdown_inv_step w e : countdown_inv w → countdown_inv (step w e).
Proof.
  intros Hinv. destruct e; simpl.
  - by apply N.iter_invariant; [apply countdown_inv_tick|].
  - destruct (pending w !! rid) as [[]|]; try done.
    unfold checkQuizStatus_status.
    destruct status; apply countdown_inv_commit;
      repeat first [ by apply countdown_inv_frame with (w := w)
                   | apply countdown_inv_set_state; [done|]
                   | eapply countdown_inv_frame;
                       [reflexivity..|] ].
  - destruct (pending w !! rid) as [[]|]; try done.
    unfold checkQuizStatus_catch. apply countdown_inv_commit.
    apply countdown_inv_set_state; [done|].
    by apply countdown_inv_frame with (w := w).
  - destruct (pending w !! rid) as [[]|]; try done.
    unfold checkQuizStatus_quiz.
    set (w1 := commit _).
    assert (H1 : countdown_inv w1).
    { apply countdown_inv_commit.
      apply countdown_inv_frame
        with (w := set_state (setQuizData (Some d)) (settle rid w)); try done.
      apply countdown_inv_set_state; [done|].
      by apply countdown_inv_frame with (w := w). }
    destruct (mounted w1); [|done]. unfold seed_effect.
    destruct (metadata_of _); [|done].
    by apply countdown_inv_update_timeRemaining.
  - destruct (pending w !! rid) as [[]|]; try done.
    unfold checkQuizStatus_catch. apply countdown_inv_commit.
    apply countdown_inv_set_state; [done|].
    by apply countdown_inv_frame with (w := w).
  - destruct (pending w !! rid) as [[]|]; done.
  - destruct (pending w !! rid) as [[]|]; try done.
    unfold handleSubmitQuiz_catch.
    apply countdown_inv_set_state; [done|].
    by apply countdown_inv_frame with (w := w).
  - destruct (current_question w); [|done].
    by apply countdown_inv_frame with (w := w).
  - destruct (current_question w); [|done]. apply countdown_inv_commit.
    by apply countdown_inv_frame with (w := w).
  - destruct (current_question w); [|done]. apply countdown_inv_commit.
    by apply countdown_inv_frame with (w := w).
  - destruct (current_question w); [|done].
    destruct (_ && _); [|done]. by apply countdown_inv_handleSubmitQuiz.
  - apply countdown_inv_unmount.
Qed.

Lemma countdown_inv_reachable t0 es : countdown_inv (run (mount t0) es).
Proof.
  assert (H0 : countdown_inv (mount t0)).
  { unfold countdown_inv. simpl. by intros _ t. }
  generalize dependent (mount t0). induction es as [|e es IH]; intros w Hinv.
  - done.
  - simpl. by apply IH, countdown_inv_step.
Qed.

(** Any second of a positive countdown on the mounted screen takes exactly
    one off [timeRemaining]. *)
Lemma any_second w t :
  countdown_inv w → mounted w = true →
  timeRemaining (st w) = Some t → 0 < t →
  mounted (N.iter 1000 tick w) = true ∧
  timeRemaining (st (N.iter 1000 tick w)) = Some (t - 1).
Proof.
  intros Hinv Hm Hr Hpos. unfold countdown_inv in Hinv.
  destruct (timer w) as [[due t']|] eqn:Ht;
    [|specialize (Hinv Hm t Hr); lia].
  destruct Hinv as (_ & Hr' & _ & Hdue). unfold COUNTDOWN_MS in Hdue.
  assert (t' = t) as -> by congruence.
  (* [a] idle milliseconds, the millisecond of the timeout, [b] idle ones *)
  set (a := Z.to_N (due - now w - 1)). set (b := Z.to_N (now w + 1000 - due)).
  replace 1000%N with (b + (1 + a))%N by lia.
  rewrite N.iter_add, N.iter_add.
  set (wa := N.iter a tick w).
  destruct (wait_idle a w) as (Hsa & Hma & Hta & _).
  { unfold timer_idle_until. rewrite Ht. lia. }
  fold wa in Hsa, Hma, Hta.
  assert (Hna : now wa = now w + Z.of_N a) by apply now_wait.
  change (N.iter 1 tick wa) with (tick wa).
  destruct (tick_due wa t) as (Hm1 & Hr1 & _ & Hcase); try congruence.
  { rewrite Hta, Ht, Hna. do 2 f_equal. lia. }
  set (w1 := tick wa) in *.
  assert (Hn1 : now w1 = now wa + 1) by apply now_tick.
  destruct (wait_idle b w1) as (Hsb & Hmb & _).
  { unfold timer_idle_until. case_decide.
    - destruct Hcase as (-> & _). done.
    - destruct Hcase as (-> & _). unfold COUNTDOWN_MS. lia. }
  split; congruence.
Qed.

End CountdownInvariant.

(** Whole seconds of a countdown on the mounted screen. *)
Lemma seconds_decrement (w : World) (t : Z) (k : N) :
  countdown_inv w → mounted w = true →
  timeRemaining (st w) = Some t → Z.of_N k ≤ t →
  mounted (N.iter (1000 * k) tick w) = true ∧
  timeRemaining (st (N.iter (1000 * k) tick w)) = Some (t - Z.of_N k).
Proof.
  intros Hinv Hm Hr. induction k as [|k IH] using N.peano_ind; intros Hk.
  - change (1000 * 0)%N with 0%N. change (Z.of_N 0) with 0.
    by rewrite Z.sub_0_r.
  - rewrite N.mul_succ_r, N.add_comm, N.iter_add.
    destruct IH as [Hm' Hr']; [lia|].
    destruct (any_second (N.iter (1000 * k) tick w) (t - Z.of_N k))
      as [Hm'' Hr'']; try done; [|lia|].
    { by apply N.iter_invariant; [apply countdown_inv_tick|]. }
    split; [done|]. rewrite Hr''. f_equal. lia.
Qed.

(** C4, as stated, fails: metadata that gives [estimated_time_minutes = 0]
    does not seed the countdown with [0 * 60] seconds; [0 || 20] is [20], so
    the countdown starts at 1200. *)
Lemma zero_minutes_seed_twenty : ¬ seeded_as_specified.
Proof.
  intros Hspec.
  specialize (Hspec (run (mount 0) [EvStatusOk 0 ready None]) 1%nat
                (quiz_with (Some 0) [q1])
                {| subject := "Mathematics"; estimated_time_minutes := Some 0 |}).
  vm_compute in Hspec.
  specialize (Hspec eq_refl eq_refl eq_refl eq_refl). discriminate.
Qed.

(** The countdown scenario of the specification: a one-minute quiz, nobody
    submits, and after 60 seconds exactly one submission has been made; it
    stays the only one however long the screen waits for the response. *)
Lemma idle_minute_submits_once (extra : N) :
  submissions (run (mount 0) idle_minute) = 1 ∧
  submissions (step (run (mount 0) idle_minute) (EvWait extra)) = 1.
Proof.
  assert (Hc : counting_from 60
            (run (mount 0) [EvStatusOk 0 ready None; EvQuizOk 1 one_minute_quiz])).
  { vm_compute. repeat split; reflexivity. }
  assert (Hs : submissions
            (run (mount 0) [EvStatusOk 0 ready None; EvQuizOk 1 one_minute_quiz]) = 0)
    by (vm_compute; reflexivity).
  set (w := run (mount 0) [EvStatusOk 0 ready None; EvQuizOk 1 one_minute_quiz]) in *.
  change (run (mount 0) idle_minute) with (N.iter 60000 tick w).
  change (step (N.iter 60000 tick w) (EvWait extra))
    with (N.iter extra tick (N.iter 60000 tick w)).
  rewrite <- N.iter_add, !(auto_submit_once w 60 _ Hc), Hs.
  split; case_decide; lia.
Qed.

(** Against a server that answers every poll, the countdown of a one-minute
    quiz does not reach zero: each [ready] response fetches the quiz again
    and the new [quizData] seeds the countdown again.  After 60 seconds the
    countdown is back at 60 and nothing has been submitted. *)
Lemma responsive_server_reseeds_countdown :
  let w := run (mount 0) (quiz_loaded ++ responsive_periods 20 2) in
  now w = 60000 ∧ mounted w = true ∧ quiz_fetches w = 21 ∧
  timeRemaining (st w) = Some 60 ∧ submissions w = 0.
Proof. vm_compute. repeat split; reflexivity. Qed.

(** The countdown does not look at [isSubmitting]: when it reaches zero it
    calls [handleSubmitQuiz] even though a submission awaits its response. *)
Lemma countdown_ignores_isSubmitting (w : World) (t : Z) :
  counting_from t w → isSubmitting (st w) = true →
  submissions (step w (EvWait (1000 * Z.to_N t))) = submissions w + 1.
Proof. intros Hc _. apply (countdown_reaches_zero w t Hc). Qed.

(** C3. What the component does at the failing input: the user clicks
    "Submit Quiz" on a one-minute quiz half a second before the countdown
    ends; that submission is still awaiting its response when the countdown
    reaches zero, and [handleSubmitQuiz] runs again: two calls of
    [submitAnswers] have been made. *)
Theorem countdown_end_during_manual_submission :
  let before := run (mount 0) manual_submit_in_flight in
  let after := step before (EvWait 500) in
  submissions before = 1 ∧ isSubmitting (st before) = true ∧
  pending before !! 21%nat = Some AwaitSubmit ∧
  timeRemaining (st before) = Some 1 ∧
  mounted after = true ∧ timeRemaining (st after) = Some 0 ∧
  pending after !! 21%nat = Some AwaitSubmit ∧
  submissions after = 2.
Proof. vm_compute. repeat split; reflexivity. Qed.

(** ** What time leaves alone *)

Section Frames.

Implicit Types (w : World).

Lemma same_screen_refl w : same_screen w w.
Proof. by repeat split. Qed.

Lemma same_screen_trans w1 w2 w3 :
  same_screen w1 w2 → same_screen w2 w3 → same_screen w1 w3.
Proof.
  unfold same_screen. intros (?&?&?&?&?&?&?) (?&?&?&?&?&?&?).
  repeat split; congruence.
Qed.

Lemma same_screen_update_timeRemaining v w :
  same_screen w (update_timeRemaining v w).
Proof.
  unfold update_timeRemaining, countdown_effect, handleSubmitQuiz, set_state.
  destruct (mounted w) eqn:Hm; simpl; [|apply same_screen_refl].
  case_decide; [apply same_screen_refl|]. simpl.
  destruct (0 <? v); simpl; [by repeat split|].
  destruct (v =? 0); simpl; rewrite ?Hm; by repeat split.
Qed.

Lemma same_screen_tick w : same_screen w (tick w).
Proof.
  unfold tick.
  set (w1 := fire_interval (set_now (now w + 1) w)).
  assert (H1 : same_screen w w1).
  { destruct (fire_interval_frame (set_now (now w + 1) w))
      as (Hs & Hm & _ & _ & _ & Hq).
    fold w1 in Hs, Hm, Hq. unfold same_screen. rewrite Hs, Hm, Hq.
    by repeat split. }
  unfold fire_timer. destruct (timer w1) as [[due t]|]; [|done].
  destruct (due =? now w1); [|done].
  eapply same_screen_trans; [exact H1|].
  apply (same_screen_update_timeRemaining (t - 1) (set_timer None w1)).
Qed.

Lemma same_screen_wait ms w : same_screen w (N.iter ms tick w).
Proof.
  induction ms as [|ms IH] using N.peano_ind; [apply same_screen_refl|].
  rewrite N.iter_succ.
  eapply same_screen_trans; [exact IH | apply same_screen_tick].
Qed.

Lemma log_set_state f w : log (set_state f w) = log w.
Proof. unfold set_state. by destruct (mounted w). Qed.

Lemma log_commit w : log (commit w) = log w.
Proof. unfold commit. by destruct (_ && _). Qed.

(** The calls made when a status response arrives: one [getQuiz] when the
    status is [ready], none otherwise. *)
Lemma log_checkQuizStatus_status s em w :
  log (checkQuizStatus_status s em w) =
  match s with
  | ready => CallGetQuiz (next_rid w) :: log w
  | _ => log w
  end.
Proof.
  unfold checkQuizStatus_status.
  destruct s; rewrite log_commit; simpl; rewrite ?log_set_state; try done.
  unfold set_state. by destruct (mounted w).
Qed.

(** A status response is displayed as it arrives. *)
Lemma quizStatus_checkQuizStatus_status s em w :
  mounted w = true →
  quizStatus (st (checkQuizStatus_status s em w)) = s.
Proof.
  intros Hm. unfold checkQuizStatus_status, set_state. rewrite Hm. simpl.
  destruct s; rewrite st_commit; simpl; by rewrite ?Hm.
Qed.

(** The messages stored in [error] are never empty. *)
Lemma js_truthy_prefixed (prefix rest : string) :
  prefix ≠ "" → js_truthy_str (Some (prefix +:+ rest)) = true.
Proof.
  intros Hne. unfold js_truthy_str. case_decide as Heq; [|done].
  destruct prefix; [done|discriminate].
Qed.

(** [error] is never reset: once a message is stored, it stays. *)
Lemma error_sticky_step w e :
  js_truthy_str (error (st w)) = true →
  js_truthy_str (error (st (step w e))) = true.
Proof.
  intros Herr.
  assert (Hset : ∀ f x, (∀ s, js_truthy_str (error s) = true →
                              js_truthy_str (error (f s)) = true) →
            js_truthy_str (error (st x)) = true →
            js_truthy_str (error (st (set_state f x))) = true).
  { intros f x Hf Hx. unfold set_state. destruct (mounted x); simpl; auto. }
  destruct e; simpl.
  - destruct (same_screen_wait ms w) as (_&_&_&_&_& -> &_). done.
  - destruct (pending w !! rid) as [[]|]; try done.
    unfold checkQuizStatus_status.
    destruct status; rewrite st_commit; simpl;
      repeat (apply Hset; [try done|]); done.
  - destruct (pending w !! rid) as [[]|]; try done.
    unfold checkQuizStatus_catch. rewrite st_commit.
    unfold set_state. simpl. destruct (mounted w); [|done].
    by apply js_truthy_prefixed.
  - destruct (pending w !! rid) as [[]|]; try done.
    unfold checkQuizStatus_quiz.
    set (w1 := commit _).
    assert (H1 : js_truthy_str (error (st w1)) = true).
    { unfold w1. rewrite st_commit. simpl. by apply Hset. }
    destruct (mounted w1); [|done]. unfold seed_effect.
    destruct (metadata_of _); [|done].
    by destruct (same_screen_update_timeRemaining (seed_seconds m) w1)
      as (_&_&_&_&_& -> &_).
  - destruct (pending w !! rid) as [[]|]; try done.
    unfold checkQuizStatus_catch. rewrite st_commit.
    unfold set_state. simpl. destruct (mounted w); [|done].
    by apply js_truthy_prefixed.
  - destruct (pending w !! rid) as [[]|]; done.
  - destruct (pending w !! rid) as [[]|]; try done.
    unfold handleSubmitQuiz_catch. by apply Hset.
  - by destruct (current_question w).
  - destruct (current_question w); [|done]. by rewrite st_commit.
  - destruct (current_question w); [|done]. by rewrite st_commit.
  - destruct (current_question w); [|done].
    destruct (_ && _); [|done]. unfold handleSubmitQuiz. simpl. by apply Hset.
  - done.
Qed.

Lemma error_sticky_run es w :
  js_truthy_str (error (st w)) = true →
  js_truthy_str (error (st (run w es))) = true.
Proof.
  revert w. induction es as [|e es IH]; intros w Herr; simpl; [done|].
  by apply IH, error_sticky_step.
Qed.

End Frames.

(** ** The poller and the statuses it observes *)

(** Time on a mounted screen: it stays mounted and keeps polling. *)
Lemma polls_after_wait (t0 : Z) (w : World) (ms : N) :
  poll_inv t0 w → mounted w = true →
  mounted (step w (EvWait ms)) = true ∧
  status_polls (step w (EvWait ms)) = 1 + (now w + Z.of_N ms - t0) / 3000.
Proof.
  intros Hinv Hm. simpl.
  destruct (same_screen_wait ms w) as (Hm' & _). rewrite Hm in Hm'.
  split; [done|].
  rewrite (status_polls_mounted t0); [|by apply poll_inv_wait|done].
  by rewrite now_wait.
Qed.

(** C5. While the quiz screen is mounted the poller issues a status request
    once every fixed 3-second period: one at mount and one each time the
    interval comes due.  The clock of the screen shows the time the events
    took, so that after [elapsed] milliseconds, whatever else happened,
    [1 + elapsed / 3000] requests have been issued; waiting [ms] more
    milliseconds brings the count to [1 + (elapsed + ms) / 3000], and a wait
    of one period adds exactly one request.  Leaving the screen clears the
    interval and the countdown timeout, and from then on no event, and no
    amount of time, issues another status request. *)
Theorem polls_every_period_until_unmount (t0 : Z) (es : list Event) :
  let w := run (mount t0) es in
  now w = t0 + elapsed es ∧
  (mounted w = true →
     interval w = Some (t0 + 3000 * status_polls w) ∧
     status_polls w = 1 + (now w - t0) / 3000 ∧
     status_polls w = 1 + elapsed es / 3000 ∧
     (∀ ms, mounted (step w (EvWait ms)) = true ∧
            status_polls (step w (EvWait ms))
            = 1 + (elapsed es + Z.of_N ms) / 3000) ∧
     status_polls (step w (EvWait 3000)) = status_polls w + 1) ∧
  (mounted w = false →
     interval w = None ∧ timer w = None ∧
     ∀ es', status_polls (run w es') = status_polls w) ∧
  mounted (step w EvLeave) = false.
Proof.
  intros w. pose proof (poll_inv_reachable t0 es) as Hinv. fold w in Hinv.
  assert (Hnow : now w = t0 + elapsed es).
  { unfold w. rewrite now_run. reflexivity. }
  split; [exact Hnow|]. split; [|split; [|done]].
  - intros Hm.
    assert (Hp : status_polls w = 1 + elapsed es / 3000).
    { rewrite (status_polls_mounted t0 w Hinv Hm). unfold POLL_MS.
      f_equal. f_equal. lia. }
    assert (Hw : ∀ ms, mounted (step w (EvWait ms)) = true ∧
              status_polls (step w (EvWait ms))
              = 1 + (elapsed es + Z.of_N ms) / 3000).
    { intros ms. destruct (polls_after_wait t0 w ms Hinv Hm) as [Hm' Hp'].
      split; [exact Hm'|]. etrans; [exact Hp'|]. f_equal. f_equal. lia. }
    split.
    { unfold poll_inv in Hinv. rewrite Hm in Hinv. apply Hinv. }
    split; [by apply status_polls_mounted|]. split; [exact Hp|].
    split; [exact Hw|].
    etrans; [exact (proj2 (Hw 3000%N))|]. rewrite Hp.
    change (Z.of_N 3000) with (1 * 3000). rewrite Z.div_add by done. lia.
  - intros Hm. pose proof Hinv as Hinv'.
    unfold poll_inv in Hinv'. rewrite Hm in Hinv'. destruct Hinv' as [Hi Ht].
    split; [done|]. split; [done|].
    intros es'. by apply (unmounted_run t0).
Qed.

Lemma polls_every_period_until_unmount_witness :
  let w := run (mount 0) [EvWait 4000; EvAnswer "True"; EvWait 5000] in
  let w' := run (mount 0) [EvWait 4000; EvLeave] in
  (mounted w = true ∧ status_polls w = 1 + 9000 / 3000 ∧
   status_polls (step w (EvWait 3000)) = status_polls w + 1) ∧
  (mounted w' = false ∧ status_polls (run w' [EvWait 100000]) = status_polls w').
Proof.
  intros w w'.
  assert (Hm : mounted w = true) by (vm_compute; reflexivity).
  assert (Hm' : mounted w' = false) by (vm_compute; reflexivity).
  split; (split; [assumption|]).
  - split.
    + exact (proj1 (proj2 (proj2 (proj1 (proj2
        (polls_every_period_until_unmount 0
           [EvWait 4000; EvAnswer "True"; EvWait 5000])) Hm)))).
    + exact (proj2 (proj2 (proj2 (proj2 (proj1 (proj2
        (polls_every_period_until_unmount 0
           [EvWait 4000; EvAnswer "True"; EvWait 5000])) Hm))))).
  - exact (proj2 (proj2 (proj1 (proj2 (proj2
      (polls_every_period_until_unmount 0 [EvWait 4000; EvLeave]))) Hm'))
      [EvWait 100000]).
Defined.

(** ** The countdown among other events *)

Section CountdownAmongEvents.

Implicit Types (w : World) (d t : Z).

Lemma keeps_countdown_commit w w0 :
  keeps_countdown w0 w → keeps_countdown w0 (commit w).
Proof.
  unfold keeps_countdown, commit. destruct (mounted w && render_throws (st w));
    [by simpl|done].
Qed.

Lemma keeps_countdown_refl w : keeps_countdown w w.
Proof. by intros Hm. Qed.

Lemma keeps_countdown_set_state f w w0 :
  (∀ s, timeRemaining (f s) = timeRemaining s) →
  keeps_countdown w0 w → keeps_countdown w0 (set_state f w).
Proof.
  intros Hf Hk. unfold set_state. destruct (mounted w) eqn:Hm; [|exact Hk].
  unfold keeps_countdown in *. intros _. simpl. rewrite Hf. by apply Hk.
Qed.

Lemma keeps_countdown_frame w w' w0 :
  mounted w' = mounted w → now w' = now w → timer w' = timer w →
  timeRemaining (st w') = timeRemaining (st w) →
  keeps_countdown w0 w → keeps_countdown w0 w'.
Proof. unfold keeps_countdown. by intros -> -> -> ->. Qed.

Lemma keeps_countdown_step w e :
  (∀ ms, e ≠ EvWait ms) → not_quiz_response e → keeps_countdown w (step w e).
Proof.
  intros Hw Hq.
  destruct e as [ms|rid status em|rid err|rid d|rid err|rid|rid err|a| | | |];
    simpl.
  - by destruct (Hw ms).
  - destruct (pending w !! rid) as [[]|]; try apply keeps_countdown_refl.
    unfold checkQuizStatus_status.
    destruct status; apply keeps_countdown_commit;
      repeat first [ by apply keeps_countdown_frame with (w := w);
                       [..|apply keeps_countdown_refl]
                   | apply keeps_countdown_set_state; [done|]
                   | eapply keeps_countdown_frame; [reflexivity..|] ].
  - destruct (pending w !! rid) as [[]|]; try apply keeps_countdown_refl.
    unfold checkQuizStatus_catch. apply keeps_countdown_commit.
    apply keeps_countdown_set_state; [done|].
    by apply keeps_countdown_frame with (w := w);
      [..|apply keeps_countdown_refl].
  - done.
  - destruct (pending w !! rid) as [[]|]; try apply keeps_countdown_refl.
    unfold checkQuizStatus_catch. apply keeps_countdown_commit.
    apply keeps_countdown_set_state; [done|].
    by apply keeps_countdown_frame with (w := w);
      [..|apply keeps_countdown_refl].
  - destruct (pending w !! rid) as [[]|]; try apply keeps_countdown_refl.
    by intros Hm.
  - destruct (pending w !! rid) as [[]|]; try apply keeps_countdown_refl.
    unfold handleSubmitQuiz_catch.
    apply keeps_countdown_set_state; [done|].
    by apply keeps_countdown_frame with (w := w);
      [..|apply keeps_countdown_refl].
  - destruct (current_question w); [|apply keeps_countdown_refl].
    by apply keeps_countdown_frame with (w := w);
      [..|apply keeps_countdown_refl].
  - destruct (current_question w); [|apply keeps_countdown_refl].
    apply keeps_countdown_commit.
    by apply keeps_countdown_frame with (w := w);
      [..|apply keeps_countdown_refl].
  - destruct (current_question w); [|apply keeps_countdown_refl].
    apply keeps_countdown_commit.
    by apply keeps_countdown_frame with (w := w);
      [..|apply keeps_countdown_refl].
  - destruct (current_question w); [|apply keeps_countdown_refl].
    destruct (_ && _); [|apply keeps_countdown_refl].
    unfold handleSubmitQuiz.
    apply keeps_countdown_frame
      with (w := set_state (setIsSubmitting true) w); try done.
    apply keeps_countdown_set_state; [done|apply keeps_countdown_refl].
  - by intros Hm.
Qed.

Lemma counted_since_kept d t w w' :
  keeps_countdown w w' → counted_since d t w → counted_since d t w'.
Proof.
  unfold keeps_countdown, counted_since. intros Hk Hc Hm'.
  destruct (Hk Hm') as (Hm & -> & -> & ->). by apply Hc.
Qed.

Lemma mounted_tick w : mounted (tick w) = mounted w.
Proof. by destruct (same_screen_tick w) as (? & _). Qed.

Lemma counted_since_tick d t w :
  counted_since d t w → counted_since d t (tick w).
Proof.
  unfold counted_since. intros Hc Hm'. rewrite mounted_tick in Hm'.
  destruct (Hc Hm') as (r & Hr & Hrt & Hpos & Hzero).
  unfold COUNTDOWN_MS in *.
  destruct (decide (0 < r)) as [Hr0|Hr0].
  - destruct (Hpos Hr0) as (Ht & Hnow).
    destruct (decide (d + 1000 * (t - r + 1) = now w + 1)) as [Hdue|Hdue].
    + rewrite Hdue in Ht.
      destruct (tick_due w r Hm' Ht Hr Hr0) as (_ & Hr' & _ & Hcase).
      exists (r - 1). rewrite now_tick. split; [exact Hr'|]. split; [lia|].
      case_decide as H1.
      * destruct Hcase as (Ht' & _). split; [lia|]. intros _.
        split; [exact Ht'|]. lia.
      * destruct Hcase as (Ht' & _). split; [|lia]. intros _.
        rewrite Ht', now_tick. unfold COUNTDOWN_MS.
        split; [f_equal; f_equal; lia|lia].
    + destruct (tick_idle w) as (Hs & _ & Ht' & _).
      { unfold timer_idle_until. rewrite Ht. lia. }
      exists r. rewrite Hs, Ht', now_tick. split; [done|]. split; [done|].
      split; [|lia]. intros _. split; [done|]. lia.
  - assert (r = 0) as -> by lia. destruct (Hzero eq_refl) as (Ht & Hnow).
    destruct (tick_idle w) as (Hs & _ & Ht' & _).
    { unfold timer_idle_until. by rewrite Ht. }
    exists 0. rewrite Hs, Ht', now_tick. split; [done|]. split; [done|].
    split; [lia|]. intros _. split; [done|]. lia.
Qed.

Lemma counted_since_step d t w e :
  not_quiz_response e → counted_since d t w → counted_since d t (step w e).
Proof.
  intros Hq Hc. destruct e as [ms| | | | | | | | | | |];
    try (eapply counted_since_kept;
           [apply keeps_countdown_step; [by intros ?|done]|done]).
  change (step w (EvWait ms)) with (N.iter ms tick w).
  apply N.iter_invariant; [|done]. intros x. apply counted_since_tick.
Qed.

Lemma counted_since_run d t es w :
  Forall not_quiz_response es → counted_since d t w →
  counted_since d t (run w es).
Proof.
  intros Hes. revert w. induction Hes as [|e es He _ IH]; intros w Hc; [done|].
  apply IH. by apply counted_since_step.
Qed.

(** A mounted screen whose countdown stands at [t >= 0] counts from the
    beginning of the current second. *)
Lemma counted_since_start w t :
  countdown_inv w → mounted w = true → timeRemaining (st w) = Some t →
  0 ≤ t →
  ∃ d, d ≤ now w < d + COUNTDOWN_MS ∧ counted_since d t w.
Proof.
  unfold countdown_inv, counted_since, COUNTDOWN_MS.
  intros Hinv Hm Hr Ht.
  destruct (timer w) as [[due t']|] eqn:Htimer.
  - destruct Hinv as (_ & Hr' & Hpos & Hdue).
    assert (t' = t) as -> by congruence.
    exists (due - 1000). split; [lia|]. intros _. exists t.
    split; [done|]. split; [lia|]. split; [|lia]. intros _.
    split; [f_equal; f_equal; lia|lia].
  - pose proof (Hinv Hm t Hr) as Hle. assert (t = 0) as -> by lia.
    exists (now w). split; [lia|]. intros _. exists 0.
    split; [done|]. split; [lia|]. split; [lia|]. intros _. split; [done|lia].
Qed.

(** Whatever else happens, short of a quiz response, [k] seconds take [k]
    off the countdown of a screen that is still mounted. *)
Lemma seconds_decrement_among_events w t es k :
  countdown_inv w → mounted w = true → timeRemaining (st w) = Some t →
  Forall not_quiz_response es → elapsed es = 1000 * k → 0 ≤ k ≤ t →
  mounted (run w es) = true →
  timeRemaining (st (run w es)) = Some (t - k).
Proof.
  intros Hinv Hm Hr Hes He Hk Hm'.
  destruct (counted_since_start w t Hinv Hm Hr) as (d & Hd & Hc); [lia|].
  pose proof (counted_since_run d t es w Hes Hc Hm')
    as (r & Hr' & Hrt & Hpos & Hzero).
  rewrite Hr'. f_equal. unfold COUNTDOWN_MS in *.
  rewrite now_run, He in Hpos, Hzero.
  destruct (decide (0 < r)) as [Hr0|Hr0].
  - destruct (Hpos Hr0) as (_ & Hnow). lia.
  - assert (r = 0) as -> by lia. destruct (Hzero eq_refl) as (_ & Hnow). lia.
Qed.

End CountdownAmongEvents.

(** C4 (amended). Whenever a quiz response that carries metadata arrives at
    the mounted screen, the countdown is seeded with
    [estimated_time_minutes * 60] seconds if [estimated_time_minutes] is
    present and not zero, and with 20 minutes if the metadata omits it or
    gives zero.  From then on, as long as the screen stays mounted and no
    further quiz response arrives, every second that passes takes exactly one
    off [timeRemaining], whatever else happens in between (status responses,
    failed requests, answers, navigation, clicks on "Submit Quiz", failed
    submissions): [k] seconds after it was [t], with [k <= t], it is [t - k];
    time alone never unmounts the screen.  A further quiz response seeds the
    countdown again. *)
Theorem countdown_seed_and_decrement
    (t0 : Z) (es : list Event) (rid : nat) (d : QuizData) (m : Metadata) :
  let w := run (mount t0) es in
  seed_seconds m =
    match estimated_time_minutes m with
    | Some n => if decide (n = 0) then 20 * 60 else n * 60
    | None => 20 * 60
    end ∧
  (mounted w = true → pending w !! rid = Some AwaitQuiz →
   metadata_of (Some d) = Some m →
   mounted (step w (EvQuizOk rid d)) = true →
   timeRemaining (st (step w (EvQuizOk rid d))) = Some (seed_seconds m)) ∧
  (∀ (t : Z) (k : N),
     mounted w = true → timeRemaining (st w) = Some t → Z.of_N k ≤ t →
     mounted (step w (EvWait (1000 * k))) = true ∧
     timeRemaining (st (step w (EvWait (1000 * k)))) = Some (t - Z.of_N k)) ∧
  (∀ (t k : Z) (es' : list Event),
     mounted w = true → timeRemaining (st w) = Some t →
     Forall not_quiz_response es' → elapsed es' = 1000 * k → 0 ≤ k ≤ t →
     mounted (run w es') = true →
     timeRemaining (st (run w es')) = Some (t - k)).
Proof.
  intros w. split; [|split; [|split]].
  - unfold seed_seconds, js_or_num.
    destruct (estimated_time_minutes m) as [n|]; [|done].
    destruct (Z.eqb_spec n 0); case_decide; done.
  - intros Hm Hp Hmd Hm'.
    by destruct (quiz_response_seeds w rid d m Hm Hp Hmd Hm').
  - intros t k Hm Hr Hk.
    apply seconds_decrement; try done. apply countdown_inv_reachable.
  - intros t k es' Hm Hr Hes He Hk Hm'.
    apply seconds_decrement_among_events; try done.
    apply countdown_inv_reachable.
Qed.

Lemma countdown_seed_and_decrement_witness :
  let w := run (mount 0) [EvStatusOk 0 ready None] in
  let w' := run (mount 0) [EvStatusOk 0 ready None; EvQuizOk 1 one_minute_quiz] in
  let m := {| subject := "Mathematics"; estimated_time_minutes := Some 1 |} in
  let es' := [EvWait 3000; EvStatusOk 2 generating None; EvWait 3500;
              EvStatusErr 3 network_error; EvWait 500] in
  timeRemaining (st (step w (EvQuizOk 1 one_minute_quiz))) = Some (seed_seconds m) ∧
  timeRemaining (st (step w' (EvWait (1000 * 7)))) = Some (60 - Z.of_N 7) ∧
  timeRemaining (st (run w' es')) = Some (60 - 7).
Proof.
  intros w w' m es'.
  assert (H1 : mounted w = true) by (vm_compute; reflexivity).
  assert (H2 : pending w !! 1%nat = Some AwaitQuiz) by (vm_compute; reflexivity).
  assert (H3 : metadata_of (Some one_minute_quiz) = Some m) by reflexivity.
  assert (H4 : mounted (step w (EvQuizOk 1 one_minute_quiz)) = true)
    by (vm_compute; reflexivity).
  assert (H5 : mounted w' = true) by (vm_compute; reflexivity).
  assert (H6 : timeRemaining (st w') = Some 60) by (vm_compute; reflexivity).
  assert (H7 : Z.of_N 7 ≤ 60) by (vm_compute; discriminate).
  assert (H8 : Forall not_quiz_response es') by (repeat constructor).
  assert (H9 : elapsed es' = 1000 * 7) by reflexivity.
  assert (H10 : 0 ≤ 7 ≤ 60) by lia.
  assert (H11 : mounted (run w' es') = true) by (vm_compute; reflexivity).
  split; [|split].
  - exact (proj1 (proj2 (countdown_seed_and_decrement 0 [EvStatusOk 0 ready None]
                           1 one_minute_quiz m)) H1 H2 H3 H4).
  - exact (proj2 (proj1 (proj2 (proj2 (countdown_seed_and_decrement 0
             [EvStatusOk 0 ready None; EvQuizOk 1 one_minute_quiz]
             1 one_minute_quiz m))) 60 7%N H5 H6 H7)).
  - exact (proj2 (proj2 (proj2 (countdown_seed_and_decrement 0
             [EvStatusOk 0 ready None; EvQuizOk 1 one_minute_quiz]
             1 one_minute_quiz m))) 60 7 es' H5 H6 H8 H9 H10 H11).
Defined.

(** C1, as stated, fails: after [ready], [completed] or [failed] has been
    observed the mounted screen goes on polling, and a second [ready]
    response fetches the quiz a second time. *)
Lemma polling_goes_on_after_ready_and_terminal_status :
  ¬ polling_ceases_on ready ∧ ¬ polling_ceases_on completed ∧
  ¬ polling_ceases_on failed ∧ ¬ single_quiz_fetch.
Proof.
  repeat split.
  - intros H.
    specialize (H 0 [EvStatusOk 0 ready None; EvQuizOk 1 one_minute_quiz]
                  [EvWait 3000]).
    vm_compute in H. specialize (H eq_refl eq_refl). discriminate.
  - intros H.
    specialize (H 0 [EvStatusOk 0 completed None] [EvWait 3000]).
    vm_compute in H. specialize (H eq_refl eq_refl). discriminate.
  - intros H.
    specialize (H 0 [EvStatusOk 0 failed (Some "generation timed out")]
                  [EvWait 3000]).
    vm_compute in H. specialize (H eq_refl eq_refl). discriminate.
  - intros H. specialize (H 0 ready_twice).
    vm_compute in H. by apply H.
Qed.

(** C1 (amended). Each status response that says [ready] is followed by
    exactly one fetch of the full quiz, and a response with any other status
    by none; a status response issues no status request itself.  No observed
    status cancels the interval: as long as the screen is mounted, whatever
    the status it has seen, the status requests go on, one per 3-second
    period.  Polling ends only when the screen is unmounted. *)
Theorem ready_fetches_quiz_and_polling_goes_on
    (t0 : Z) (es : list Event) (rid : nat) (s : Status) (em : option string) :
  let w := run (mount t0) es in
  pending w !! rid = Some AwaitStatus →
  let w' := step w (EvStatusOk rid s em) in
  quiz_fetches w' = quiz_fetches w + (if decide (s = ready) then 1 else 0) ∧
  status_polls w' = status_polls w ∧
  (mounted w' = true →
     interval w' = interval w ∧
     ∀ ms, mounted (step w' (EvWait ms)) = true ∧
           status_polls (step w' (EvWait ms)) =
             1 + (now w' + Z.of_N ms - t0) / 3000).
Proof.
  intros w Hp w'.
  assert (Hlog : log w' = match s with
                          | ready => CallGetQuiz (next_rid w) :: log w
                          | _ => log w
                          end).
  { unfold w'. simpl. rewrite Hp. by rewrite log_checkQuizStatus_status. }
  split; [|split].
  - unfold quiz_fetches. rewrite Hlog. destruct s; simpl; lia.
  - unfold status_polls. rewrite Hlog. by destruct s.
  - intros Hm'. split.
    + destruct (quiet_step w (EvStatusOk rid s em)) as (_ & _ & [(_ & Hi & _)|(Hu & _)]);
        [by intros ?|done|]. fold w' in Hu. congruence.
    + intros ms. apply polls_after_wait; [|done].
      apply poll_inv_step, poll_inv_reachable.
Qed.

Lemma ready_fetches_quiz_and_polling_goes_on_witness :
  let w := run (mount 0) [EvStatusOk 0 ready None; EvQuizOk 1 one_minute_quiz;
                          EvWait 3000] in
  let w' := step w (EvStatusOk 2 ready None) in
  quiz_fetches w' = quiz_fetches w + 1 ∧
  status_polls (step w' (EvWait 6000)) = 1 + (now w' + Z.of_N 6000 - 0) / 3000.
Proof.
  intros w w'.
  assert (Hp : pending w !! 2%nat = Some AwaitStatus) by (vm_compute; reflexivity).
  assert (Hm : mounted w' = true) by (vm_compute; reflexivity).
  pose proof (ready_fetches_quiz_and_polling_goes_on 0
                [EvStatusOk 0 ready None; EvQuizOk 1 one_minute_quiz; EvWait 3000]
                2 ready None Hp) as (Hq & _ & Hgo).
  split; [exact Hq|].
  exact (proj2 (proj2 (Hgo Hm) 6000%N)).
Defined.

(** C2, as stated, fails: the response of an earlier request that arrives
    after the response of a later one is not discarded; it replaces the
    status on display, which can go back from [ready] to [generating]. *)
Lemma stale_response_overwrites_status :
  ¬ stale_response_discarded ∧ ¬ status_never_regresses.
Proof.
  split.
  - intros H.
    pose proof (H 0 [EvWait 3000] 0%nat 1%nat generating ready None None) as H'.
    cbv zeta in H'. specialize (H' ltac:(lia)).
    vm_compute in H'. specialize (H' eq_refl eq_refl eq_refl). discriminate.
  - intros H.
    specialize (H 0 [EvWait 3000; EvStatusOk 1 ready None]
                  (EvStatusOk 0 generating None)).
    vm_compute in H. discriminate.
Qed.

(** ** Request identifiers *)

Create HintDb rids.

Section RequestIds.

Implicit Types (w : World).

Lemma rids_ok_upd_st f w : rids_ok w → rids_ok (upd_st f w).
Proof. done. Qed.

Lemma rids_ok_set_now t w : rids_ok w → rids_ok (set_now t w).
Proof. done. Qed.

Lemma rids_ok_set_interval v w : rids_ok w → rids_ok (set_interval v w).
Proof. done. Qed.

Lemma rids_ok_set_timer v w : rids_ok w → rids_ok (set_timer v w).
Proof. done. Qed.

Lemma rids_ok_emit c w : rids_ok w → rids_ok (emit c w).
Proof. done. Qed.

Lemma rids_ok_unmount w : rids_ok w → rids_ok (unmount w).
Proof. done. Qed.

Lemma rids_ok_request a c w : rids_ok w → rids_ok (request a c w).
Proof.
  unfold rids_ok. simpl. intros Hok rid a'.
  rewrite lookup_insert. case_decide; [lia|].
  intros Hp. specialize (Hok _ _ Hp). lia.
Qed.

Lemma rids_ok_settle rid w : rids_ok w → rids_ok (settle rid w).
Proof.
  unfold rids_ok. simpl. intros Hok rid' a.
  rewrite lookup_delete. case_decide; [done|]. apply Hok.
Qed.

Hint Resolve rids_ok_upd_st rids_ok_set_now rids_ok_set_interval
  rids_ok_set_timer rids_ok_emit rids_ok_unmount rids_ok_request
  rids_ok_settle : rids.

Lemma rids_ok_set_state f w : rids_ok w → rids_ok (set_state f w).
Proof. unfold set_state. case_match; auto with rids. Qed.

Lemma rids_ok_commit w : rids_ok w → rids_ok (commit w).
Proof. unfold commit. case_match; auto with rids. Qed.

Hint Resolve rids_ok_set_state rids_ok_commit : rids.

Lemma rids_ok_handleSubmitQuiz w : rids_ok w → rids_ok (handleSubmitQuiz w).
Proof. unfold handleSubmitQuiz. auto with rids. Qed.

Hint Resolve rids_ok_handleSubmitQuiz : rids.

Lemma rids_ok_update_timeRemaining v w :
  rids_ok w → rids_ok (update_timeRemaining v w).
Proof.
  unfold update_timeRemaining, countdown_effect. intros Hok.
  repeat case_match; auto 7 with rids.
Qed.

Hint Resolve rids_ok_update_timeRemaining : rids.

Lemma rids_ok_tick w : rids_ok w → rids_ok (tick w).
Proof.
  unfold tick, fire_timer, fire_interval, checkQuizStatus. intros Hok.
  repeat case_match; auto 7 with rids.
Qed.

Lemma rids_ok_step w e : rids_ok w → rids_ok (step w e).
Proof.
  intros Hok. destruct e; simpl.
  - by apply N.iter_invariant; [apply rids_ok_tick|].
  - unfold checkQuizStatus_status. repeat case_match; auto 7 with rids.
  - unfold checkQuizStatus_catch. repeat case_match; auto 7 with rids.
  - unfold checkQuizStatus_quiz, seed_effect.
    repeat case_match; auto 8 with rids.
  - unfold checkQuizStatus_catch. repeat case_match; auto 7 with rids.
  - unfold handleSubmitQuiz_then. repeat case_match; auto 7 with rids.
  - unfold handleSubmitQuiz_catch. repeat case_match; auto 7 with rids.
  - repeat case_match; auto with rids.
  - repeat case_match; auto with rids.
  - repeat case_match; auto with rids.
  - repeat case_match; auto with rids.
  - auto with rids.
Qed.

Lemma rids_ok_reachable t0 es : rids_ok (run (mount t0) es).
Proof.
  assert (H0 : rids_ok (mount t0)).
  { unfold mount, checkQuizStatus. apply rids_ok_set_interval, rids_ok_request.
    intros rid a. simpl. by rewrite lookup_empty. }
  generalize dependent (mount t0). induction es as [|e es IH]; intros w Hok.
  - done.
  - simpl. by apply IH, rids_ok_step.
Qed.

(** The requests left pending by a status response. *)
Lemma pending_checkQuizStatus_status s em w :
  pending (checkQuizStatus_status s em w) =
  match s with
  | ready => <[next_rid w := AwaitQuiz]> (pending w)
  | _ => pending w
  end.
Proof.
  unfold checkQuizStatus_status, commit, set_state.
  destruct s; repeat case_match; done.
Qed.

End RequestIds.

(** C2 (amended). No response is discarded.  For every pair of in-flight
    status requests of the mounted screen, whichever was issued first: when
    the response of one arrives its status is displayed, and when the
    response of the other arrives after it, that status replaces it.  The
    status on display is always the one of the response that arrived last. *)
Theorem status_response_always_displayed
    (t0 : Z) (es : list Event) (r1 r2 : nat) (s1 s2 : Status)
    (em1 em2 : option string) :
  let w := run (mount t0) es in
  r1 ≠ r2 →
  pending w !! r1 = Some AwaitStatus → pending w !! r2 = Some AwaitStatus →
  mounted w = true →
  let w2 := step w (EvStatusOk r2 s2 em2) in
  quizStatus (st w2) = s2 ∧
  (mounted w2 = true →
   quizStatus (st (step w2 (EvStatusOk r1 s1 em1))) = s1).
Proof.
  intros w Hne Hp1 Hp2 Hm w2.
  assert (Hw2 : w2 = checkQuizStatus_status s2 em2 (settle r2 w)).
  { unfold w2. simpl. by rewrite Hp2. }
  split.
  - rewrite Hw2. by apply quizStatus_checkQuizStatus_status.
  - intros Hm2.
    assert (Hp1' : pending w2 !! r1 = Some AwaitStatus).
    { rewrite Hw2, pending_checkQuizStatus_status.
      assert (Hd : pending (settle r2 w) !! r1 = Some AwaitStatus).
      { simpl. by rewrite lookup_delete_ne. }
      destruct s2; try done.
      rewrite lookup_insert_ne; [done|]. simpl.
      pose proof (rids_ok_reachable t0 es r1 _ Hp1). fold w in H. lia. }
    simpl. rewrite Hp1'.
    by apply quizStatus_checkQuizStatus_status.
Qed.

Lemma status_response_always_displayed_witness :
  let w := run (mount 0) [EvWait 3000] in
  let w2 := step w (EvStatusOk 1 ready None) in
  quizStatus (st w2) = ready ∧
  quizStatus (st (step w2 (EvStatusOk 0 generating None))) = generating.
Proof.
  intros w w2.
  assert (Hne : 0%nat ≠ 1%nat) by discriminate.
  assert (Hp1 : pending w !! 0%nat = Some AwaitStatus) by (vm_compute; reflexivity).
  assert (Hp2 : pending w !! 1%nat = Some AwaitStatus) by (vm_compute; reflexivity).
  assert (Hm : mounted w = true) by (vm_compute; reflexivity).
  assert (Hm2 : mounted w2 = true) by (vm_compute; reflexivity).
  pose proof (status_response_always_displayed 0 [EvWait 3000] 0 1
                generating ready None None Hne Hp1 Hp2 Hm) as [Hfirst Hlast].
  split; [exact Hfirst | exact (Hlast Hm2)].
Defined.

(** ** Failed polls *)

(** C7, as stated, fails: a single failed status request is not only logged.
    Its message is stored in [error], and with the quiz on display the
    screen switches to the "Something went wrong" branch although the stored
    status is [ready], not [failed]. *)
Lemma failed_poll_is_rendered : ¬ poll_error_not_rendered.
Proof.
  intros H.
  specialize (H 0 [EvStatusOk 0 ready None; EvQuizOk 1 one_minute_quiz;
                   EvWait 3000] 2%nat network_error).
  vm_compute in H.
  apply (H eq_refl ltac:(discriminate) _ eq_refl).
Qed.

(** C7 (amended). A status request of the mounted screen that fails is
    logged with [console.error] and its message is stored in [error]; the
    stored status is left as it was.  The failure does not stop the polling:
    the interval stays set and the status requests go on, one per 3-second
    period.  The stored message is shown on the error branch as soon as the
    status on display is neither ['loading'] nor [generating], and no later
    event clears it. *)
Theorem failed_poll_stores_error_and_polling_goes_on
    (t0 : Z) (es : list Event) (rid : nat) (e : RequestError) :
  let w := run (mount t0) es in
  mounted w = true → pending w !! rid = Some AwaitStatus →
  let w' := step w (EvStatusErr rid e) in
  let msg := "Failed to load quiz: " +:+ js_or_str (detail e) (message e) in
  log w' = CallConsoleError "Error checking quiz status:" :: log w ∧
  error (st w') = Some msg ∧
  quizStatus (st w') = quizStatus (st w) ∧
  render (st w') =
    (if decide (quizStatus (st w) = loading ∨ quizStatus (st w) = generating)
     then GeneratingScreen else ErrorScreen msg) ∧
  mounted w' = true ∧ interval w' = interval w ∧
  (∀ ms, mounted (step w' (EvWait ms)) = true ∧
         status_polls (step w' (EvWait ms)) =
           1 + (now w' + Z.of_N ms - t0) / 3000) ∧
  (∀ es', js_truthy_str (error (st (run w' es'))) = true).
Proof.
  intros w Hm Hp w' msg.
  assert (Htruthy : js_truthy_str (Some msg) = true)
    by (by apply js_truthy_prefixed).
  assert (Hinv : poll_inv t0 w') by apply poll_inv_step, poll_inv_reachable.
  assert (Hstep : w' = commit (set_state (setError (Some msg))
                    (emit (CallConsoleError "Error checking quiz status:")
                       (settle rid w)))).
  { unfold w'. simpl. by rewrite Hp. }
  clearbody msg w'.
  set (w1 := set_state _ _) in Hstep.
  assert (Hst1 : st w1 = setError (Some msg) (st w)).
  { unfold w1, set_state. simpl. by rewrite Hm. }
  assert (Hr1 : render (st w1) =
                if decide (quizStatus (st w) = loading ∨ quizStatus (st w) = generating)
                then GeneratingScreen else ErrorScreen msg).
  { rewrite Hst1. unfold render. simpl. case_decide; [done|].
    simpl in Htruthy. by destruct (decide (msg = "")). }
  assert (Hw' : w' = w1).
  { rewrite Hstep. unfold commit, render_throws. rewrite Hr1.
    case_decide; by rewrite andb_false_r. }
  assert (Hm' : mounted w' = true).
  { rewrite Hw'. unfold w1, set_state. simpl. by rewrite Hm. }
  split; [|split; [|split; [|split; [|split; [|split; [|split]]]]]].
  - rewrite Hw'. unfold w1, set_state. simpl. by rewrite Hm.
  - by rewrite Hw', Hst1.
  - by rewrite Hw', Hst1.
  - by rewrite Hw'.
  - done.
  - rewrite Hw'. unfold w1, set_state. simpl. by rewrite Hm.
  - intros ms. by apply (polls_after_wait t0).
  - intros es'. apply error_sticky_run. by rewrite Hw', Hst1.
Qed.

Lemma failed_poll_stores_error_and_polling_goes_on_witness :
  let w := run (mount 0) [EvStatusOk 0 ready None; EvQuizOk 1 one_minute_quiz;
                          EvWait 3000] in
  let w' := step w (EvStatusErr 2 network_error) in
  error (st w') = Some "Failed to load quiz: Network Error" ∧
  status_polls (step w' (EvWait 3000)) = 1 + (now w' + Z.of_N 3000 - 0) / 3000 ∧
  js_truthy_str (error (st (run w' [EvWait 3000; EvStatusOk 3 ready None]))) = true.
Proof.
  intros w w'.
  assert (Hm : mounted w = true) by (vm_compute; reflexivity).
  assert (Hp : pending w !! 2%nat = Some AwaitStatus) by (vm_compute; reflexivity).
  pose proof (failed_poll_stores_error_and_polling_goes_on 0
                [EvStatusOk 0 ready None; EvQuizOk 1 one_minute_quiz; EvWait 3000]
                2 network_error Hm Hp)
    as (_ & Herr & _ & _ & _ & _ & Hpoll & Hsticky).
  split; [exact Herr|]. split.
  - exact (proj2 (Hpoll 3000%N)).
  - exact (Hsticky [EvWait 3000; EvStatusOk 3 ready None]).
Defined.

(** ** Scores and grades *)

Section Grades.

Local Open Scope Q_scope.

Lemma Qle_bool_false (x y : Q) : Qle_bool x y = false → y < x.
Proof.
  intros Hb. apply Qnot_le_lt. intros Hle.
  apply Qle_bool_iff in Hle. congruence.
Qed.

(** The interval of percentages of each letter. *)
Lemma grade_of_interval (p : Q) :
  match grade_of p with
  | A => 90 <= p
  | B => 80 <= p ∧ p < 90
  | C => 70 <= p ∧ p < 80
  | D => 60 <= p ∧ p < 70
  | F => p < 60
  end.
Proof.
  unfold grade_of.
  destruct (Qle_bool 90 p) eqn:H90; [by apply Qle_bool_iff|].
  apply Qle_bool_false in H90.
  destruct (Qle_bool 80 p) eqn:H80; [split; [by apply Qle_bool_iff|done]|].
  apply Qle_bool_false in H80.
  destruct (Qle_bool 70 p) eqn:H70; [split; [by apply Qle_bool_iff|done]|].
  apply Qle_bool_false in H70.
  destruct (Qle_bool 60 p) eqn:H60; [split; [by apply Qle_bool_iff|done]|].
  by apply Qle_bool_false in H60.
Qed.

(** The results screen picks its message by the thresholds of the
    letters. *)
Lemma getScoreMessage_by_grade (p : Q) :
  getScoreMessage p =
  match grade_of p with
  | A => "Outstanding! You've mastered this subject! 🎉"
  | B => "Great job! You have a solid understanding! 👏"
  | C => "Good work! Keep practicing to improve! 👍"
  | D => "Not bad! Review the topics you missed. 📚"
  | F => "Keep studying! Practice makes perfect! 💪"
  end%string.
Proof.
  unfold getScoreMessage, grade_of.
  by repeat (destruct (Qle_bool _ p)).
Qed.

Lemma percentage_of_exact (earned total : Z) :
  (0 < total)%Z →
  percentage_of earned total * inject_Z total == 100 * inject_Z earned.
Proof.
  intros Hpos. unfold percentage_of. field.
  intros H0. assert (Hz : (total = 0)%Z); [|lia].
  unfold Qeq in H0. simpl in H0. lia.
Qed.

End Grades.

(** C6. For every grading result over a positive total, [percentage] is
    [points_earned / total_points * 100] exactly (times the total it is a
    hundred times the points earned), and the letter is fixed by closed
    lower thresholds: A from 90, B from 80, C from 70, D from 60, F below;
    90 gives "A" and 89.99 gives "B".  The message of the results screen
    follows the same thresholds. *)
Theorem percentage_and_grade_thresholds (earned total : Z) :
  0 < total →
  let r := overall_score earned total in
  let p := percentage r in
  (p == inject_Z (points_earned r) / inject_Z (total_points r) * 100)%Q ∧
  (p * inject_Z total == 100 * inject_Z earned)%Q ∧
  (grade r = A ↔ (90 <= p)%Q) ∧
  (grade r = B ↔ (80 <= p)%Q ∧ (p < 90)%Q) ∧
  (grade r = C ↔ (70 <= p)%Q ∧ (p < 80)%Q) ∧
  (grade r = D ↔ (60 <= p)%Q ∧ (p < 70)%Q) ∧
  (grade r = F ↔ (p < 60)%Q) ∧
  grade_of 90 = A ∧ grade_of 89.99 = B ∧
  getScoreMessage p =
    match grade r with
    | A => "Outstanding! You've mastered this subject! 🎉"
    | B => "Great job! You have a solid understanding! 👏"
    | C => "Good work! Keep practicing to improve! 👍"
    | D => "Not bad! Review the topics you missed. 📚"
    | F => "Keep studying! Practice makes perfect! 💪"
    end.
Proof.
  intros Hpos r p.
  split; [reflexivity|]. split; [by apply percentage_of_exact|].
  change (grade r) with (grade_of p).
  assert (Hiff : ∀ g, grade_of p = g ↔
                      match g with
                      | A => 90 <= p
                      | B => 80 <= p ∧ p < 90
                      | C => 70 <= p ∧ p < 80
                      | D => 60 <= p ∧ p < 70
                      | F => p < 60
                      end%Q).
  { intros g. split.
    - intros <-. apply grade_of_interval.
    - intros Hg. pose proof (grade_of_interval p) as Hint.
      destruct g, (grade_of p); try done; exfalso;
        repeat match goal with H : _ ∧ _ |- _ => destruct H end; lra. }
  split; [apply (Hiff A)|]. split; [apply (Hiff B)|].
  split; [apply (Hiff C)|]. split; [apply (Hiff D)|].
  split; [apply (Hiff F)|]. split; [done|]. split; [done|].
  apply getScoreMessage_by_grade.
Qed.

Lemma percentage_and_grade_thresholds_witness :
  grade (overall_score 18 20) = A ∧
  (percentage (overall_score 18 20) * inject_Z 20 == 100 * inject_Z 18)%Q.
Proof.
  pose proof (percentage_and_grade_thresholds 18 20 ltac:(lia))
    as (_ & Hexact & HA & _).
  split; [|exact Hexact].
  apply HA. vm_compute. discriminate.
Defined.

(** ** History *)

Section HistoryOrder.

Import HistoryView.

Implicit Types (s : Session) (l store : list Session).

Lemma insert_recent_perm s l : insert_recent s l ≡ₚ s :: l.
Proof.
  induction l as [|x l IH]; simpl; [done|].
  destruct (created_at x <=? created_at s); [done|].
  rewrite IH. apply Permutation_swap.
Qed.

Lemma insert_recent_HdRel s x l :
  created_at s ≤ created_at x →
  HdRel (λ a b, created_at b ≤ created_at a) x l →
  HdRel (λ a b, created_at b ≤ created_at a) x (insert_recent s l).
Proof.
  intros Hsx Hhd. destruct l as [|y l]; simpl.
  - by constructor.
  - destruct (created_at y <=? created_at s); constructor; [done|].
    by inversion Hhd.
Qed.

Lemma insert_recent_sorted s l :
  recent_first l → recent_first (insert_recent s l).
Proof.
  unfold recent_first. induction 1 as [|x l Hs IH Hhd]; simpl.
  - by repeat constructor.
  - destruct (Z.leb_spec (created_at x) (created_at s)).
    + constructor; [by constructor|]. by constructor.
    + constructor; [done|]. apply insert_recent_HdRel; [lia|done].
Qed.

Lemma history_query_perm store : history_query store ≡ₚ store.
Proof.
  unfold history_query. induction store as [|s store IH]; simpl; [done|].
  by rewrite insert_recent_perm, IH.
Qed.

Lemma history_query_sorted store : recent_first (history_query store).
Proof.
  unfold history_query. induction store as [|s store IH]; simpl.
  - constructor.
  - by apply insert_recent_sorted.
Qed.

(** Slicing keeps the order. *)
Lemma recent_first_take n l : recent_first l → recent_first (take n l).
Proof.
  unfold recent_first. intros Hs. revert n.
  induction Hs as [|x l Hs IH Hhd]; intros [|n]; simpl; try constructor.
  - apply IH.
  - destruct Hhd; destruct n; simpl; by constructor.
Qed.

(** Three sessions created at different times come back newest first,
    in whatever order they are stored. *)
Lemma history_query_three s1 s2 s3 store :
  created_at s1 < created_at s2 < created_at s3 →
  store ≡ₚ [s1; s2; s3] →
  history_query store = [s3; s2; s1].
Proof.
  intros Ht Hperm. symmetry in Hperm.
  apply permutations_Permutation in Hperm. simpl in Hperm.
  repeat (apply elem_of_cons in Hperm as [->|Hperm]);
    [..|by apply elem_of_nil in Hperm];
    unfold history_query; simpl;
    repeat (match goal with
            | |- context [?a <=? ?b] => destruct (Z.leb_spec a b); try lia
            end; simpl); done.
Qed.

End HistoryOrder.

(** C8. The history query returns all the sessions of the store, each once,
    ordered by creation time with the most recent first; sessions created at
    [t1 < t2 < t3] come back as [[t3; t2; t1]].  The client does not sort:
    the history page keeps the list as it is, and the dashboard keeps its
    first five items in the order received, so its "recent" view is most
    recent first as well. *)
Theorem history_is_most_recent_first (store : list HistoryView.Session) :
  let sessions := HistoryView.history_query store in
  sessions ≡ₚ store ∧
  HistoryView.recent_first sessions ∧
  HistoryView.loadHistory (Some sessions) = sessions ∧
  HistoryView.loadDashboardData (Some sessions) = take 5 sessions ∧
  HistoryView.recent_first (HistoryView.loadDashboardData (Some sessions)) ∧
  (∀ s1 s2 s3,
     HistoryView.created_at s1 < HistoryView.created_at s2
       < HistoryView.created_at s3 →
     store ≡ₚ [s1; s2; s3] → sessions = [s3; s2; s1]).
Proof.
  intros sessions. repeat split; try done.
  - apply history_query_perm.
  - apply history_query_sorted.
  - apply recent_first_take, history_query_sorted.
  - intros s1 s2 s3 [H12 H23] Hperm. by apply history_query_three.
Qed.

Lemma history_is_most_recent_first_witness :
  let s1 := {| HistoryView.session_id := "a1"; HistoryView.subject := "Mathematics";
               HistoryView.status := completed; HistoryView.created_at := 100 |} in
  let s2 := {| HistoryView.session_id := "b2"; HistoryView.subject := "Physics";
               HistoryView.status := ready; HistoryView.created_at := 200 |} in
  let s3 := {| HistoryView.session_id := "c3"; HistoryView.subject := "History";
               HistoryView.status := generating; HistoryView.created_at := 300 |} in
  HistoryView.history_query [s2; s3; s1] = [s3; s2; s1].
Proof.
  intros s1 s2 s3.
  apply (proj2 (proj2 (proj2 (proj2 (proj2
           (history_is_most_recent_first [s2; s3; s1])))))).
  - simpl. lia.
  - apply Permutation_sym. etransitivity; [apply Permutation_swap|].
    apply Permutation_skip, Permutation_swap.
Defined.

(** * Further properties of the quiz screen *)

(** ** Recorded answers *)

Lemma answers_set_state f (w : World) :
  (∀ s, answers (f s) = answers s) →
  answers (st (set_state f w)) = answers (st w).
Proof. intros Hf. unfold set_state. destruct (mounted w); [apply Hf|done]. Qed.

(** X1. The recorded answers change only when the user answers: no status or
    quiz response, failed request, failed submission, click on a navigation
    or submit button, and no amount of time alters them. *)
Theorem answers_change_only_by_answering (w : World) (e : Event) :
  (∀ a, e ≠ EvAnswer a) → answers (st (step w e)) = answers (st w).
Proof.
  intros Hne. destruct e; simpl.
  - by destruct (same_screen_wait ms w) as (_&_&_&_& -> &_).
  - destruct (pending w !! rid) as [[]|]; try done.
    unfold checkQuizStatus_status.
    destruct status; rewrite st_commit; simpl;
      rewrite ?answers_set_state; done.
  - destruct (pending w !! rid) as [[]|]; try done.
    unfold checkQuizStatus_catch. rewrite st_commit.
    by rewrite answers_set_state.
  - destruct (pending w !! rid) as [[]|]; try done.
    unfold checkQuizStatus_quiz. set (w1 := commit _).
    assert (H1 : answers (st w1) = answers (st w)).
    { unfold w1. rewrite st_commit. simpl. by rewrite answers_set_state. }
    destruct (mounted w1); [|done]. unfold seed_effect.
    destruct (metadata_of _); [|done].
    by destruct (same_screen_update_timeRemaining (seed_seconds m) w1)
      as (_&_&_&_& -> &_).
  - destruct (pending w !! rid) as [[]|]; try done.
    unfold checkQuizStatus_catch. rewrite st_commit.
    by rewrite answers_set_state.
  - by destruct (pending w !! rid) as [[]|].
  - destruct (pending w !! rid) as [[]|]; try done.
    unfold handleSubmitQuiz_catch. by rewrite answers_set_state.
  - by destruct (Hne a).
  - destruct (current_question w); [|done]. by rewrite st_commit.
  - destruct (current_question w); [|done]. by rewrite st_commit.
  - destruct (current_question w); [|done].
    destruct (_ && _); [|done].
    unfold handleSubmitQuiz. simpl. by rewrite answers_set_state.
  - done.
Qed.

Lemma answers_change_only_by_answering_witness :
  let w := run (mount 0) (quiz_loaded ++ [EvAnswer "True"]) in
  answers (st (step w (EvWait 3000))) = answers (st w) ∧
  answers (st w) !! "q1" = Some "True".
Proof.
  intros w. split.
  - apply (answers_change_only_by_answering w (EvWait 3000)). discriminate.
  - vm_compute. reflexivity.
Defined.

(** X2. Answers compose as a map: answering the same question again keeps
    only the last answer, and answers to two different questions can be
    given in either order. *)
Theorem handleAnswerChange_last_answer_wins
    (prev : gmap string string) (qa qb a1 a2 : string) :
  handleAnswerChange qa a2 (handleAnswerChange qa a1 prev) =
    handleAnswerChange qa a2 prev ∧
  (qa ≠ qb →
   handleAnswerChange qb a2 (handleAnswerChange qa a1 prev) =
   handleAnswerChange qa a1 (handleAnswerChange qb a2 prev)).
Proof.
  unfold handleAnswerChange. split.
  - apply insert_insert_eq.
  - intros Hne. by apply insert_insert_ne.
Qed.

Lemma handleAnswerChange_last_answer_wins_witness :
  handleAnswerChange "q2" "56" (handleAnswerChange "q1" "True" ∅) =
  handleAnswerChange "q1" "True" (handleAnswerChange "q2" "56" ∅).
Proof.
  apply (handleAnswerChange_last_answer_wins ∅ "q1" "q2" "True" "56").
  discriminate.
Defined.

(** ** Submission failures and failed generations *)

(** X3. A submission that fails can be retried and loses nothing: the error
    is logged on the console and then the user is alerted (these are the only
    calls made), the "Submit Quiz" button is enabled again, the screen and the
    recorded answers are as before, and the next click on "Submit Quiz"
    sends the same answers again. *)
Theorem failed_submission_can_be_retried
    (w : World) (rid : nat) (err : RequestError) :
  mounted w = true → pending w !! rid = Some AwaitSubmit →
  let w' := step w (EvSubmitErr rid err) in
  mounted w' = true ∧ isSubmitting (st w') = false ∧
  answers (st w') = answers (st w) ∧
  render (st w') = render (st w) ∧
  log w' = CallAlert "Failed to submit quiz. Please try again."
           :: CallConsoleError "Error submitting quiz:" :: log w ∧
  (is_Some (current_question w) → isLastQuestion w = true →
   log (step w' EvSubmit) =
     CallSubmitAnswers (next_rid w) (answers (st w)) :: log w' ∧
   isSubmitting (st (step w' EvSubmit)) = true).
Proof.
  intros Hm Hp w'.
  assert (Hw' : w' = upd_st (setIsSubmitting false)
            (emit (CallAlert "Failed to submit quiz. Please try again.")
               (emit (CallConsoleError "Error submitting quiz:") (settle rid w)))).
  { unfold w'. simpl. rewrite Hp. unfold handleSubmitQuiz_catch, set_state.
    simpl. by rewrite Hm. }
  rewrite Hw'. simpl.
  split; [done|]. split; [done|]. split; [done|]. split; [done|].
  split; [done|]. intros [q Hq] Hlast.
  unfold current_question, isLastQuestion, questions_shown in *. simpl.
  rewrite Hm in *.
  change (render (setIsSubmitting false (st w))) with (render (st w)).
  destruct (render (st w)); try done.
  rewrite Hlast. simpl. unfold handleSubmitQuiz, set_state. simpl.
  by rewrite Hm.
Qed.

Lemma failed_submission_can_be_retried_witness :
  let w := run (mount 0) (quiz_loaded ++ [EvAnswer "True"; EvSubmit]) in
  let w' := step w (EvSubmitErr 2 network_error) in
  isSubmitting (st w') = false ∧ answers (st w') = answers (st w) ∧
  log w' = CallAlert "Failed to submit quiz. Please try again."
           :: CallConsoleError "Error submitting quiz:" :: log w.
Proof.
  intros w w'.
  assert (Hm : mounted w = true) by (vm_compute; reflexivity).
  assert (Hp : pending w !! 2%nat = Some AwaitSubmit) by (vm_compute; reflexivity).
  pose proof (failed_submission_can_be_retried w 2 network_error Hm Hp)
    as (_ & Hs & Ha & _ & Hl & _).
  split; [exact Hs | split; [exact Ha | exact Hl]].
Defined.

(** X4. A status response that says [failed] puts the mounted screen on the
    error branch with the message of the server after the prefix
    "Quiz generation failed: ", and with "Unknown error" when the server
    gives no message or an empty one; the quiz is not fetched. *)
Theorem failed_status_shows_error
    (w : World) (rid : nat) (error_message : option string) :
  mounted w = true → pending w !! rid = Some AwaitStatus →
  let w' := step w (EvStatusOk rid failed error_message) in
  let shown := match error_message with
               | Some s => if decide (s = "") then "Unknown error" else s
               | None => "Unknown error"
               end in
  mounted w' = true ∧ quizStatus (st w') = failed ∧
  render (st w') = ErrorScreen ("Quiz generation failed: " +:+ shown) ∧
  quiz_fetches w' = quiz_fetches w.
Proof.
  intros Hm Hp w' shown.
  assert (Hw' : w' = upd_st (setError (Some ("Quiz generation failed: " +:+ shown)))
                       (upd_st (setQuizStatus failed) (settle rid w))).
  { unfold w'. simpl. rewrite Hp.
    unfold checkQuizStatus_status, set_state. simpl. rewrite Hm. simpl.
    rewrite Hm. unfold commit, render_throws, render. simpl.
    by rewrite andb_false_r. }
  rewrite Hw'. simpl. repeat split; try done.
Qed.

Lemma failed_status_shows_error_witness :
  render (st (run (mount 0) [EvStatusOk 0 failed None])) =
  ErrorScreen "Quiz generation failed: Unknown error".
Proof.
  assert (Hm : mounted (mount 0) = true) by reflexivity.
  assert (Hp : pending (mount 0) !! 0%nat = Some AwaitStatus)
    by (vm_compute; reflexivity).
  exact (proj1 (proj2 (proj2
           (failed_status_shows_error (mount 0) 0 None Hm Hp)))).
Defined.

(** ** A session that never becomes ready *)

Section NeverReady.

Implicit Types (w : World).

(** Transitions that neither fetch nor store the quiz. *)
Lemma no_quiz_inv_frame w w' :
  pending w' = pending w → log w' = log w →
  quizData (st w') = quizData (st w) →
  no_quiz_inv w → no_quiz_inv w'.
Proof. unfold no_quiz_inv, quiz_fetches. by intros -> -> ->. Qed.

Lemma no_quiz_inv_set_state f w :
  (∀ s, quizData (f s) = quizData s) →
  no_quiz_inv w → no_quiz_inv (set_state f w).
Proof.
  intros Hf. unfold set_state. destruct (mounted w); [|done].
  apply no_quiz_inv_frame; try done. apply Hf.
Qed.

Lemma no_quiz_inv_commit w : no_quiz_inv w → no_quiz_inv (commit w).
Proof.
  unfold commit. destruct (_ && _); [|done]. by apply no_quiz_inv_frame.
Qed.

Lemma no_quiz_inv_emit c w :
  is_quiz_call c = false → no_quiz_inv w → no_quiz_inv (emit c w).
Proof.
  unfold no_quiz_inv, quiz_fetches. simpl. intros -> (Hq & Hd & Hp).
  repeat split; try done; lia.
Qed.

Lemma no_quiz_inv_request a c w :
  a ≠ AwaitQuiz → (∀ rid, is_quiz_call (c rid) = false) →
  no_quiz_inv w → no_quiz_inv (request a c w).
Proof.
  unfold no_quiz_inv, quiz_fetches. simpl. intros Ha Hc (Hq & Hd & Hp).
  rewrite Hc. split; [lia|]. split; [done|].
  intros rid. rewrite lookup_insert. case_decide; [congruence|apply Hp].
Qed.

Lemma no_quiz_inv_settle rid w : no_quiz_inv w → no_quiz_inv (settle rid w).
Proof.
  unfold no_quiz_inv, quiz_fetches. simpl. intros (Hq & Hd & Hp).
  split; [done|]. split; [done|].
  intros rid'. rewrite lookup_delete. case_decide; [done|apply Hp].
Qed.

Lemma no_quiz_inv_handleSubmitQuiz w :
  no_quiz_inv w → no_quiz_inv (handleSubmitQuiz w).
Proof.
  intros Hinv. unfold handleSubmitQuiz.
  apply no_quiz_inv_request; try done. by apply no_quiz_inv_set_state.
Qed.

Lemma no_quiz_inv_update_timeRemaining v w :
  no_quiz_inv w → no_quiz_inv (update_timeRemaining v w).
Proof.
  intros Hinv. unfold update_timeRemaining.
  destruct (mounted w); simpl; [|done]. case_decide; [done|].
  assert (H1 : no_quiz_inv (set_timer None (upd_st (setTimeRemaining (Some v)) w)))
    by (by apply no_quiz_inv_frame with (w := w)).
  unfold countdown_effect. simpl.
  destruct (0 <? v); [by apply no_quiz_inv_frame with (w := w)|].
  destruct (v =? 0); [|done]. by apply no_quiz_inv_handleSubmitQuiz.
Qed.

Lemma no_quiz_inv_tick w : no_quiz_inv w → no_quiz_inv (tick w).
Proof.
  intros Hinv. unfold tick.
  assert (H1 : no_quiz_inv (fire_interval (set_now (now w + 1) w))).
  { unfold fire_interval. simpl. destruct (interval w) as [due|]; [|done].
    destruct (due =? now w + 1); [|done].
    apply no_quiz_inv_frame with (w := checkQuizStatus (set_now (now w + 1) w));
      try done.
    unfold checkQuizStatus. by apply no_quiz_inv_request. }
  unfold fire_timer. destruct (timer _) as [[due t]|]; [|done].
  destruct (due =? _); [|done].
  apply no_quiz_inv_update_timeRemaining.
  by eapply no_quiz_inv_frame; [..|exact H1].
Qed.

Lemma no_quiz_inv_step w e :
  not_ready_response e → no_quiz_inv w → no_quiz_inv (step w e).
Proof.
  intros He Hinv. destruct e; simpl.
  - by apply N.iter_invariant; [apply no_quiz_inv_tick|].
  - destruct (pending w !! rid) as [[]|]; try done.
    unfold checkQuizStatus_status.
    destruct status; try done; apply no_quiz_inv_commit;
      repeat (apply no_quiz_inv_set_state; [done|]);
      by apply no_quiz_inv_settle.
  - destruct (pending w !! rid) as [[]|]; try done.
    unfold checkQuizStatus_catch. apply no_quiz_inv_commit.
    apply no_quiz_inv_set_state; [done|]. apply no_quiz_inv_emit; [done|].
    by apply no_quiz_inv_settle.
  - destruct (pending w !! rid) as [[]|] eqn:Hp; try done.
    by destruct Hinv as (_ & _ & Hnone); destruct (Hnone rid).
  - destruct (pending w !! rid) as [[]|] eqn:Hp; try done.
    by destruct Hinv as (_ & _ & Hnone); destruct (Hnone rid).
  - destruct (pending w !! rid) as [[]|]; try done.
    unfold handleSubmitQuiz_then.
    apply no_quiz_inv_frame
      with (w := emit CallNavigateResults (settle rid w)); try done.
    apply no_quiz_inv_emit; [done|]. by apply no_quiz_inv_settle.
  - destruct (pending w !! rid) as [[]|]; try done.
    unfold handleSubmitQuiz_catch. apply no_quiz_inv_set_state; [done|].
    do 2 (apply no_quiz_inv_emit; [done|]). by apply no_quiz_inv_settle.
  - destruct (current_question w); [|done].
    by apply no_quiz_inv_frame with (w := w).
  - destruct (current_question w); [|done]. apply no_quiz_inv_commit.
    by apply no_quiz_inv_frame with (w := w).
  - destruct (current_question w); [|done]. apply no_quiz_inv_commit.
    by apply no_quiz_inv_frame with (w := w).
  - destruct (current_question w); [|done].
    destruct (_ && _); [|done]. by apply no_quiz_inv_handleSubmitQuiz.
  - by apply no_quiz_inv_frame with (w := w).
Qed.

Lemma no_quiz_inv_run es w :
  Forall not_ready_response es → no_quiz_inv w → no_quiz_inv (run w es).
Proof.
  intros Hes. revert w.
  induction Hes as [|e es He Hes IH]; intros w Hinv; [done|].
  simpl. by apply IH, no_quiz_inv_step.
Qed.

Lemma no_quiz_inv_mount t0 : no_quiz_inv (mount t0).
Proof.
  unfold no_quiz_inv. split; [done|]. split; [done|].
  intros rid. unfold mount, checkQuizStatus. simpl.
  rewrite lookup_insert. case_decide; [done|by rewrite lookup_empty].
Qed.

End NeverReady.

(** X5. The quiz is fetched only in answer to [ready].  If no status
    response ever says [ready] (the session stays [generating], or is
    already [completed] or [failed] when the screen opens), the quiz is never
    fetched and never stored, so the questions are never shown: with
    [completed] the screen stays on "Loading quiz questions...". *)
Theorem quiz_never_fetched_without_ready (t0 : Z) (es : list Event) :
  Forall not_ready_response es →
  let w := run (mount t0) es in
  quiz_fetches w = 0 ∧ quizData (st w) = None ∧
  (∀ q, render (st w) ≠ QuizScreen q) ∧
  (quizStatus (st w) = completed → error (st w) = None →
   render (st w) = LoadingQuestionsScreen).
Proof.
  intros Hes w.
  assert (Hinv : no_quiz_inv w)
    by (by apply no_quiz_inv_run, no_quiz_inv_mount).
  destruct Hinv as (Hq & Hd & _).
  split; [done|]. split; [done|]. split.
  - intros q. unfold render. rewrite Hd. simpl. by repeat case_match.
  - intros Hs He. unfold render. rewrite Hd, Hs, He. done.
Qed.

Lemma quiz_never_fetched_without_ready_witness :
  let w := run (mount 0) [EvStatusOk 0 completed None; EvWait 9000;
                          EvStatusOk 1 completed None] in
  quiz_fetches w = 0 ∧ render (st w) = LoadingQuestionsScreen.
Proof.
  intros w.
  assert (Hes : Forall not_ready_response
                  [EvStatusOk 0 completed None; EvWait 9000;
                   EvStatusOk 1 completed None])
    by (repeat constructor).
  pose proof (quiz_never_fetched_without_ready 0 _ Hes) as (Hq & _ & _ & Hr).
  split; [exact Hq|]. apply Hr; vm_compute; reflexivity.
Defined.

(** ** The "Submitting..." state *)

Section Submitting.

Implicit Types (w : World).

Lemma submit_inv_frame w w' :
  pending w' = pending w → mounted w' = mounted w →
  isSubmitting (st w') = isSubmitting (st w) →
  submit_inv w → submit_inv w'.
Proof. unfold submit_inv. by intros -> -> ->. Qed.

Lemma submit_inv_set_state f w :
  (∀ s, isSubmitting (f s) = isSubmitting s) →
  submit_inv w → submit_inv (set_state f w).
Proof.
  intros Hf. unfold set_state. destruct (mounted w); [|done].
  apply submit_inv_frame; try done. apply Hf.
Qed.

Lemma submit_inv_unmount w : submit_inv (unmount w).
Proof. unfold submit_inv. simpl. done. Qed.

Lemma submit_inv_commit w : submit_inv w → submit_inv (commit w).
Proof.
  unfold commit. destruct (_ && _); [|done]. intros _. apply submit_inv_unmount.
Qed.

Lemma submit_inv_request a c w :
  rids_ok w → submit_inv w → submit_inv (request a c w).
Proof.
  unfold submit_inv. simpl. intros Hok Hinv Hm Hs.
  destruct (Hinv Hm Hs) as [rid Hrid]. exists rid.
  rewrite lookup_insert_ne; [done|]. specialize (Hok _ _ Hrid). lia.
Qed.

Lemma submit_inv_settle rid w :
  pending w !! rid ≠ Some AwaitSubmit →
  submit_inv w → submit_inv (settle rid w).
Proof.
  unfold submit_inv. simpl. intros Hne Hinv Hm Hs.
  destruct (Hinv Hm Hs) as [rid' Hrid]. exists rid'.
  rewrite lookup_delete_ne; [done|]. congruence.
Qed.

Lemma submit_inv_handleSubmitQuiz w : submit_inv (handleSubmitQuiz w).
Proof.
  unfold submit_inv, handleSubmitQuiz. simpl. intros _ _.
  eexists. apply lookup_insert_eq.
Qed.

Lemma submit_inv_update_timeRemaining v w :
  submit_inv w → submit_inv (update_timeRemaining v w).
Proof.
  intros Hinv. unfold update_timeRemaining.
  destruct (mounted w); simpl; [|done]. case_decide; [done|].
  unfold countdown_effect. simpl.
  destruct (0 <? v); [by apply submit_inv_frame with (w := w)|].
  destruct (v =? 0); [apply submit_inv_handleSubmitQuiz|].
  by apply submit_inv_frame with (w := w).
Qed.

Lemma submit_inv_tick w : rids_ok w → submit_inv w → submit_inv (tick w).
Proof.
  intros Hok Hinv. unfold tick.
  assert (H1 : submit_inv (fire_interval (set_now (now w + 1) w))).
  { unfold fire_interval. simpl. destruct (interval w) as [due|]; [|done].
    destruct (due =? now w + 1); [|done].
    apply submit_inv_frame with (w := checkQuizStatus (set_now (now w + 1) w));
      try done.
    unfold checkQuizStatus. by apply submit_inv_request. }
  unfold fire_timer. destruct (timer _) as [[due t]|]; [|done].
  destruct (due =? _); [|done].
  apply submit_inv_update_timeRemaining.
  by eapply submit_inv_frame; [..|exact H1].
Qed.

Lemma submit_inv_wait ms w :
  rids_ok w → submit_inv w → submit_inv (N.iter ms tick w).
Proof.
  intros Hok Hinv.
  cut (rids_ok (N.iter ms tick w) ∧ submit_inv (N.iter ms tick w)); [tauto|].
  apply (N.iter_invariant ms _ tick (λ x, rids_ok x ∧ submit_inv x)); [|done].
  intros x [??]. split; [by apply rids_ok_tick | by apply submit_inv_tick].
Qed.

Lemma submit_inv_step w e :
  rids_ok w → submit_inv w → submit_inv (step w e).
Proof.
  intros Hok Hinv.
  assert (Hsettle : ∀ rid a, pending w !! rid = Some a → a ≠ AwaitSubmit →
            rids_ok (settle rid w) ∧ submit_inv (settle rid w)).
  { intros rid a Hp Ha. split; [by apply rids_ok_settle|].
    apply submit_inv_settle; [congruence|done]. }
  destruct e; simpl.
  - by apply submit_inv_wait.
  - destruct (pending w !! rid) as [[]|] eqn:Hp; try done.
    destruct (Hsettle rid _ Hp) as [Hok' Hinv']; [done|].
    unfold checkQuizStatus_status.
    destruct status; apply submit_inv_commit;
      repeat first [ apply submit_inv_set_state; [done|]
                   | apply submit_inv_request;
                       [by apply rids_ok_set_state|] ]; done.
  - destruct (pending w !! rid) as [[]|] eqn:Hp; try done.
    destruct (Hsettle rid _ Hp) as [Hok' Hinv']; [done|].
    unfold checkQuizStatus_catch. apply submit_inv_commit.
    apply submit_inv_set_state; [done|].
    by apply submit_inv_frame with (w := settle rid w).
  - destruct (pending w !! rid) as [[]|] eqn:Hp; try done.
    destruct (Hsettle rid _ Hp) as [Hok' Hinv']; [done|].
    unfold checkQuizStatus_quiz. set (w1 := commit _).
    assert (H1 : submit_inv w1).
    { apply submit_inv_commit.
      apply submit_inv_frame
        with (w := set_state (setQuizData (Some d)) (settle rid w)); try done.
      by apply submit_inv_set_state. }
    destruct (mounted w1); [|done]. unfold seed_effect.
    destruct (metadata_of _); [|done].
    by apply submit_inv_update_timeRemaining.
  - destruct (pending w !! rid) as [[]|] eqn:Hp; try done.
    destruct (Hsettle rid _ Hp) as [Hok' Hinv']; [done|].
    unfold checkQuizStatus_catch. apply submit_inv_commit.
    apply submit_inv_set_state; [done|].
    by apply submit_inv_frame with (w := settle rid w).
  - destruct (pending w !! rid) as [[]|]; done.
  - destruct (pending w !! rid) as [[]|]; try done.
    unfold handleSubmitQuiz_catch, set_state, submit_inv. simpl.
    destruct (mounted w) eqn:Hm; simpl; [done|]. by rewrite Hm.
  - destruct (current_question w); [|done].
    by apply submit_inv_frame with (w := w).
  - destruct (current_question w); [|done]. apply submit_inv_commit.
    by apply submit_inv_frame with (w := w).
  - destruct (current_question w); [|done]. apply submit_inv_commit.
    by apply submit_inv_frame with (w := w).
  - destruct (current_question w); [|done].
    destruct (_ && _); [|done]. apply submit_inv_handleSubmitQuiz.
  - apply submit_inv_unmount.
Qed.

Lemma submit_inv_run es w :
  rids_ok w → submit_inv w → submit_inv (run w es).
Proof.
  revert w. induction es as [|e es IH]; intros w Hok Hinv; [done|].
  simpl. apply IH; [by apply rids_ok_step | by apply submit_inv_step].
Qed.

End Submitting.

(** X6. The "Submitting..." state is never stale: whenever the mounted
    screen has [isSubmitting] set, which disables the "Submit Quiz" button,
    a [submitAnswers] request is awaiting its response. *)
Theorem submitting_means_request_in_flight (t0 : Z) (es : list Event) :
  let w := run (mount t0) es in
  mounted w = true → isSubmitting (st w) = true →
  ∃ rid, pending w !! rid = Some AwaitSubmit.
Proof.
  intros w. apply submit_inv_run.
  - apply (rids_ok_reachable t0 []).
  - unfold submit_inv. done.
Qed.

Lemma submitting_means_request_in_flight_witness :
  ∃ rid, pending (run (mount 0) manual_submit_in_flight) !! rid
         = Some AwaitSubmit.
Proof.
  apply (submitting_means_request_in_flight 0 manual_submit_in_flight);
    vm_compute; reflexivity.
Defined.

(** ** What the countdown submits *)

Section AutoSubmit.

Implicit Types (w : World) (t : Z).

(** Calls are only ever added to the log. *)
Lemma log_tick w : log w `suffix_of` log (tick w).
Proof.
  unfold tick, fire_timer, fire_interval, checkQuizStatus,
    update_timeRemaining, countdown_effect, handleSubmitQuiz, set_state.
  repeat case_match; simpl; repeat apply suffix_cons_r; done.
Qed.

Lemma log_wait n w : log w `suffix_of` log (N.iter n tick w).
Proof.
  induction n as [|n IH] using N.peano_ind; [done|].
  rewrite N.iter_succ. etrans; [exact IH | apply log_tick].
Qed.

(** One second of a positive countdown, with what it submits. *)
Lemma second_submits w t :
  countdown_inv w → mounted w = true →
  timeRemaining (st w) = Some t → 0 < t →
  let w' := N.iter 1000 tick w in
  countdown_inv w' ∧ mounted w' = true ∧
  timeRemaining (st w') = Some (t - 1) ∧
  answers (st w') = answers (st w) ∧
  if decide (t = 1)
  then submissions w' = submissions w + 1 ∧ isSubmitting (st w') = true ∧
       ∃ rid, CallSubmitAnswers rid (answers (st w)) ∈ log w'
  else submissions w' = submissions w.
Proof.
  intros Hinv Hm Hr Hpos w'.
  assert (Hinv' : countdown_inv w')
    by (by apply N.iter_invariant; [apply countdown_inv_tick|]).
  split; [done|]. clear Hinv'. unfold countdown_inv in Hinv.
  destruct (timer w) as [[due t']|] eqn:Ht;
    [|specialize (Hinv Hm t Hr); lia].
  destruct Hinv as (_ & Hr' & _ & Hdue). unfold COUNTDOWN_MS in Hdue.
  assert (t' = t) as -> by congruence.
  set (a := Z.to_N (due - now w - 1)). set (b := Z.to_N (now w + 1000 - due)).
  assert (Hw' : w' = N.iter b tick (tick (N.iter a tick w))).
  { unfold w'. replace 1000%N with (b + (1 + a))%N by lia.
    by rewrite N.iter_add, N.iter_add. }
  set (wa := N.iter a tick w) in *.
  destruct (wait_idle a w) as (Hsa & Hma & Hta & Hsuba & _).
  { unfold timer_idle_until. rewrite Ht. lia. }
  fold wa in Hsa, Hma, Hta, Hsuba.
  assert (Hna : now wa = now w + Z.of_N a) by apply now_wait.
  destruct (tick_due wa t) as (Hm1 & Hr1 & Ha1 & Hcase); try congruence.
  { rewrite Hta, Ht, Hna. do 2 f_equal. lia. }
  set (w1 := tick wa) in *.
  assert (Hn1 : now w1 = now wa + 1) by apply now_tick.
  destruct (wait_idle b w1) as (Hsb & Hmb & _ & Hsubb & _).
  { unfold timer_idle_until. case_decide.
    - destruct Hcase as (-> & _). done.
    - destruct Hcase as (-> & _). unfold COUNTDOWN_MS. lia. }
  rewrite <- Hw' in Hsb, Hmb, Hsubb.
  split; [congruence|]. split; [congruence|]. split; [congruence|].
  case_decide.
  - destruct Hcase as (_ & Hsub1 & Hi1 & rid & Hlog).
    split; [congruence|]. split; [congruence|].
    exists rid. rewrite <- Hsa.
    destruct (log_wait b w1) as [k Hk]. rewrite <- Hw' in Hk. rewrite Hk.
    apply elem_of_app. right.
    destruct (log w1) as [|c l]; [discriminate Hlog|].
    injection Hlog as ->. by left.
  - destruct Hcase as (_ & Hsub1 & _). congruence.
Qed.

(** The seconds before the last one submit nothing. *)
Lemma seconds_before_zero (k : N) w t :
  countdown_inv w → mounted w = true →
  timeRemaining (st w) = Some t → Z.of_N k < t →
  let w' := N.iter (1000 * k) tick w in
  countdown_inv w' ∧ mounted w' = true ∧
  timeRemaining (st w') = Some (t - Z.of_N k) ∧
  answers (st w') = answers (st w) ∧ submissions w' = submissions w.
Proof.
  intros Hinv Hm Hr. induction k as [|k IH] using N.peano_ind; intros Hk.
  - cbv zeta. change (1000 * 0)%N with 0%N. change (Z.of_N 0) with 0.
    by rewrite Z.sub_0_r.
  - cbv zeta. rewrite N.mul_succ_r, N.add_comm, N.iter_add.
    destruct IH as (Hinv' & Hm' & Hr' & Ha' & Hs'); [lia|].
    destruct (second_submits _ _ Hinv' Hm' Hr')
      as (Hinv'' & Hm'' & Hr'' & Ha'' & Hcase); [lia|].
    case_decide; [lia|].
    split; [exact Hinv''|]. split; [exact Hm''|].
    split; [|split].
    + rewrite Hr''. f_equal. lia.
    + etrans; [exact Ha'' | exact Ha'].
    + etrans; [exact Hcase | exact Hs'].
Qed.

End AutoSubmit.

(** X7. A countdown of whole seconds ends in one automatic submission.  From
    every reachable state of the mounted screen whose countdown stands at a
    whole number [t > 0] of seconds (the countdown of every quiz whose
    [estimated_time_minutes] is a whole number), [t] seconds without any
    other event end in exactly one more call of [submitAnswers], made with
    the answers recorded when the countdown ends, and leave the screen in the
    "Submitting..." state with the countdown at zero. *)
Theorem countdown_submits_recorded_answers
    (t0 : Z) (es : list Event) (t : Z) :
  let w := run (mount t0) es in
  mounted w = true → timeRemaining (st w) = Some t → 0 < t →
  let w' := step w (EvWait (1000 * Z.to_N t)) in
  mounted w' = true ∧ timeRemaining (st w') = Some 0 ∧
  isSubmitting (st w') = true ∧
  submissions w' = submissions w + 1 ∧
  ∃ rid, CallSubmitAnswers rid (answers (st w)) ∈ log w'.
Proof.
  intros w Hm Hr Hpos w'.
  assert (Hinv : countdown_inv w) by apply countdown_inv_reachable.
  assert (Hw' : w' = N.iter 1000 tick (N.iter (1000 * Z.to_N (t - 1)) tick w)).
  { unfold w'.
    change (step w (EvWait (1000 * Z.to_N t)))
      with (N.iter (1000 * Z.to_N t) tick w).
    rewrite <- N.iter_add. f_equal. lia. }
  destruct (seconds_before_zero (Z.to_N (t - 1)) w t Hinv Hm Hr)
    as (Hinv1 & Hm1 & Hr1 & Ha1 & Hs1); [lia|].
  replace (t - Z.of_N (Z.to_N (t - 1))) with 1 in Hr1 by lia.
  destruct (second_submits _ 1 Hinv1 Hm1 Hr1) as (_ & Hm2 & Hr2 & _ & Hcase);
    [lia|].
  case_decide; [|lia]. destruct Hcase as (Hs2 & Hi2 & rid & Hlog).
  rewrite <- Hw' in Hm2, Hr2, Hs2, Hi2, Hlog.
  split; [exact Hm2|]. split; [exact Hr2|]. split; [exact Hi2|].
  split; [by rewrite Hs2, Hs1|].
  exists rid. rewrite <- Ha1. exact Hlog.
Qed.

Lemma countdown_submits_recorded_answers_witness :
  let w := run (mount 0) (quiz_loaded ++ [EvWait 12345; EvAnswer "False"]) in
  ∃ rid, CallSubmitAnswers rid (answers (st w))
           ∈ log (step w (EvWait (1000 * Z.to_N 48))).
Proof.
  intros w.
  assert (Hm : mounted w = true) by (vm_compute; reflexivity).
  assert (Hr : timeRemaining (st w) = Some 48) by (vm_compute; reflexivity).
  assert (Hpos : 0 < 48) by reflexivity.
  exact (proj2 (proj2 (proj2 (proj2
    (countdown_submits_recorded_answers 0
       (quiz_loaded ++ [EvWait 12345; EvAnswer "False"]) 48 Hm Hr Hpos))))).
Defined.

(** ** Well-formed and malformed quizzes *)

Section StableQuiz.

Variables (d : QuizData) (md : Metadata) (qs : list Question).
Hypothesis d_metadata : metadata_of (Some d) = Some md.
Hypothesis d_questions : questions_of (Some d) = Some qs.
Hypothesis qs_nonempty : qs ≠ [].

Implicit Types (w : World) (s : State).

Lemma js_index_in_range i : in_range qs i → is_Some (js_index qs i).
Proof.
  unfold in_range, js_index, js_length. intros Hi.
  destruct (Z.ltb_spec i 0); [lia|]. apply lookup_lt_is_Some. lia.
Qed.

(** With that quiz, or none yet, rendering does not throw. *)
Lemma render_does_not_throw s :
  in_range qs (currentQuestionIndex s) →
  quizData s = None ∨ quizData s = Some d →
  render_throws s = false.
Proof.
  intros Hi Hd. unfold render_throws, render.
  case_decide; [done|]. destruct (_ || _); [done|].
  destruct Hd as [-> | ->]; [done|]. rewrite d_questions, d_metadata.
  by destruct (js_index_in_range _ Hi) as [q ->].
Qed.

Lemma stable_inv_frame w w' :
  mounted w' = mounted w →
  currentQuestionIndex (st w') = currentQuestionIndex (st w) →
  quizData (st w') = quizData (st w) →
  stable_inv d qs w → stable_inv d qs w'.
Proof. unfold stable_inv. by intros -> -> ->. Qed.

Lemma stable_inv_commit w : stable_inv d qs w → commit w = w.
Proof.
  intros (_ & Hi & Hd). unfold commit.
  by rewrite render_does_not_throw, andb_false_r.
Qed.

Lemma stable_inv_committed w : stable_inv d qs w → stable_inv d qs (commit w).
Proof. intros Hinv. by rewrite stable_inv_commit. Qed.

Lemma stable_inv_set_state f w :
  (∀ s, currentQuestionIndex (f s) = currentQuestionIndex s) →
  (∀ s, quizData (f s) = quizData s) →
  stable_inv d qs w → stable_inv d qs (set_state f w).
Proof.
  intros Hi Hd Hinv. unfold set_state. destruct (mounted w); [|done].
  apply stable_inv_frame with (w := w); simpl; auto.
Qed.

Lemma stable_inv_same_screen w w' :
  same_screen w w' → stable_inv d qs w → stable_inv d qs w'.
Proof.
  intros (Hm & _ & Hd & Hi & _). by apply stable_inv_frame.
Qed.

Lemma stable_inv_step w e :
  serves d e → stays e → stable_inv d qs w → stable_inv d qs (step w e).
Proof.
  intros Hserves Hstays Hinv. destruct e; simpl.
  - eapply stable_inv_same_screen; [apply same_screen_wait|done].
  - destruct (pending w !! rid) as [[]|]; try done.
    unfold checkQuizStatus_status.
    assert (H1 : stable_inv d qs (set_state (setQuizStatus status) (settle rid w)))
      by (by apply stable_inv_set_state).
    destruct status; apply stable_inv_committed; try done.
    by apply stable_inv_set_state.
  - destruct (pending w !! rid) as [[]|]; try done.
    unfold checkQuizStatus_catch. apply stable_inv_committed.
    by apply stable_inv_set_state.
  - simpl in Hserves. subst d0.
    destruct (pending w !! rid) as [[]|]; try done.
    unfold checkQuizStatus_quiz.
    assert (H1 : stable_inv d qs
              (emit (CallConsoleLog "Quiz loaded successfully")
                 (set_state (setQuizData (Some d)) (settle rid w)))).
    { destruct Hinv as (Hm & Hi & Hd). unfold stable_inv, set_state. simpl.
      rewrite Hm. simpl. split; [done|]. split; [done|]. by right. }
    rewrite stable_inv_commit; [|done].
    set (w1 := emit _ _) in *.
    destruct (mounted w1); [|done]. unfold seed_effect.
    destruct (metadata_of (quizData (st w1))) as [m|]; [|done].
    eapply stable_inv_same_screen; [|exact H1].
    apply same_screen_update_timeRemaining.
  - destruct (pending w !! rid) as [[]|]; try done.
    unfold checkQuizStatus_catch. apply stable_inv_committed.
    by apply stable_inv_set_state.
  - done.
  - destruct (pending w !! rid) as [[]|]; try done.
    unfold handleSubmitQuiz_catch. by apply stable_inv_set_state.
  - destruct (current_question w); [|done].
    by apply stable_inv_frame with (w := w).
  - destruct (current_question w) as [q|] eqn:Hq; [|done].
    assert (Hshown : questions_shown w = qs).
    { unfold current_question, render, questions_shown in *.
      destruct Hinv as (Hm & _ & [Hd|Hd]); rewrite Hm, Hd in Hq;
        [by repeat case_match|].
      by rewrite Hd, d_questions. }
    apply stable_inv_committed.
    destruct Hinv as (Hm & Hi & Hd). unfold stable_inv. simpl.
    split; [done|]. split; [|done]. rewrite Hshown.
    by apply (navigate_by_in_range qs _ Next).
  - destruct (current_question w); [|done].
    apply stable_inv_committed.
    destruct Hinv as (Hm & Hi & Hd). unfold stable_inv. simpl.
    split; [done|]. split; [|done].
    by apply (navigate_by_in_range qs _ Previous).
  - destruct (current_question w); [|done].
    destruct (_ && _); [|done]. unfold handleSubmitQuiz.
    apply stable_inv_frame with (w := set_state (setIsSubmitting true) w);
      try done.
    by apply stable_inv_set_state.
  - done.
Qed.

Lemma stable_inv_run es w :
  Forall (serves d) es → Forall stays es →
  stable_inv d qs w → stable_inv d qs (run w es).
Proof.
  intros Hs. revert w. induction Hs as [|e es He Hes IH]; intros w Hst Hinv.
  - done.
  - inversion Hst; subst. simpl. apply IH; [done|]. by apply stable_inv_step.
Qed.

Lemma stable_inv_mount t0 : stable_inv d qs (mount t0).
Proof.
  unfold stable_inv, in_range. simpl. split; [done|]. split; [|by left].
  pose proof (js_length_pos qs qs_nonempty). lia.
Qed.

End StableQuiz.

(** X8. A well-formed quiz never brings the screen down.  If every quiz
    response of the session carries the same quiz, with metadata and at least
    one question, then whatever the statuses, failures, clicks and delays,
    the screen stays mounted until the user leaves or a submission succeeds,
    rendering never throws and the question index is always an index of the
    question list. *)
Theorem screen_survives_well_formed_quiz
    (t0 : Z) (es : list Event) (d : QuizData) (md : Metadata)
    (qs : list Question) :
  metadata_of (Some d) = Some md → questions_of (Some d) = Some qs →
  qs ≠ [] →
  Forall (serves d) es → Forall stays es →
  let w := run (mount t0) es in
  mounted w = true ∧ render_throws (st w) = false ∧
  0 ≤ currentQuestionIndex (st w) ≤ js_length qs - 1.
Proof.
  intros Hmd Hqs Hne Hserves Hstays w.
  assert (Hinv : stable_inv d qs w).
  { by apply (stable_inv_run d md qs), stable_inv_mount. }
  destruct Hinv as (Hm & Hi & Hd).
  split; [done|]. split; [|done].
  by apply (render_does_not_throw d md qs).
Qed.

Lemma screen_survives_well_formed_quiz_witness :
  let w := run (mount 0)
             [EvStatusOk 0 ready None; EvQuizOk 1 (quiz_with None [q1; q2; q3]);
              EvNext; EvNext; EvNext; EvWait 3000; EvStatusErr 2 network_error] in
  mounted w = true ∧ 0 ≤ currentQuestionIndex (st w) ≤ 2.
Proof.
  intros w.
  pose proof (screen_survives_well_formed_quiz 0
    [EvStatusOk 0 ready None; EvQuizOk 1 (quiz_with None [q1; q2; q3]);
     EvNext; EvNext; EvNext; EvWait 3000; EvStatusErr 2 network_error]
    (quiz_with None [q1; q2; q3])
    {| subject := "Mathematics"; estimated_time_minutes := None |}
    [q1; q2; q3] eq_refl eq_refl ltac:(discriminate)
    ltac:(repeat constructor) ltac:(repeat constructor)) as (Hm & _ & Hi).
  split; [exact Hm | exact Hi].
Defined.

(** X9. An empty question list brings the screen down: when the quiz that
    arrives has no question while the status on display is [ready] or
    [completed] and no error is stored, rendering throws on
    [currentQuestion.id], the screen is unmounted with both of its timers
    cleared, and the countdown is not seeded. *)
Theorem empty_quiz_unmounts_screen
    (w : World) (rid : nat) (minutes : option Z) :
  mounted w = true → pending w !! rid = Some AwaitQuiz →
  quizStatus (st w) = ready ∨ quizStatus (st w) = completed →
  js_truthy_str (error (st w)) = false →
  let w' := step w (EvQuizOk rid (quiz_with minutes [])) in
  render (st w') = RenderThrows ∧
  mounted w' = false ∧ interval w' = None ∧ timer w' = None ∧
  timeRemaining (st w') = timeRemaining (st w).
Proof.
  intros Hm Hp Hs He w'.
  assert (Hr : render (setQuizData (Some (quiz_with minutes [])) (st w))
               = RenderThrows).
  { unfold render. simpl. rewrite He.
    destruct Hs as [-> | ->]; simpl; unfold js_index;
      by destruct (currentQuestionIndex (st w) <? 0). }
  assert (Hw' : w' = unmount (emit (CallConsoleLog "Quiz loaded successfully")
                        (upd_st (setQuizData (Some (quiz_with minutes [])))
                           (settle rid w)))).
  { unfold w'. simpl. rewrite Hp. unfold checkQuizStatus_quiz, set_state.
    simpl. rewrite Hm. unfold commit, render_throws. simpl.
    by rewrite Hm, Hr. }
  by rewrite Hw'.
Qed.

Lemma empty_quiz_unmounts_screen_witness :
  mounted (run (mount 0) [EvStatusOk 0 ready None;
                          EvQuizOk 1 (quiz_with (Some 5) [])]) = false.
Proof.
  apply (empty_quiz_unmounts_screen
           (run (mount 0) [EvStatusOk 0 ready None]) 1 (Some 5));
    vm_compute; auto.
Defined.

(** ** The clock *)

Section Clock.

Lemma string_app_length (x y : string) :
  String.length (x +:+ y) = (String.length x + String.length y)%nat.
Proof. induction x as [|c x IH]; simpl; [done|]. by rewrite IH. Qed.

(** Two strings that end in suffixes of the same length. *)
Lemma string_app_inj_suffix (x x' y y' : string) :
  String.length y = String.length y' →
  x +:+ y = x' +:+ y' → x = x' ∧ y = y'.
Proof.
  intros Hlen. revert x'. induction x as [|c x IH]; intros [|c' x'] Heq.
  - change (y = y') in Heq. done.
  - exfalso. apply (f_equal String.length) in Heq.
    rewrite !string_app_length in Heq. simpl in Heq. lia.
  - exfalso. apply (f_equal String.length) in Heq.
    rewrite !string_app_length in Heq. simpl in Heq. lia.
  - change (String c (x +:+ y) = String c' (x' +:+ y')) in Heq.
    injection Heq as -> Heq. destruct (IH _ Heq) as [-> ->]. done.
Qed.

(** The seconds field: two digits. *)
Lemma seconds_field (r : Z) :
  0 ≤ r < 60 →
  padStart 2 "0"%char (pretty r) =
  String (pretty_N_char (Z.to_N r `div` 10))
    (String (pretty_N_char (Z.to_N r `mod` 10)) "").
Proof.
  intros Hr.
  assert (Hn : ∀ n : nat, (n < 60)%nat →
            padStart 2 "0"%char (pretty (Z.of_nat n)) =
            String (pretty_N_char (Z.to_N (Z.of_nat n) `div` 10))
              (String (pretty_N_char (Z.to_N (Z.of_nat n) `mod` 10)) "")).
  { intros n Hlt.
    do 60 (destruct n as [|n]; [vm_compute; reflexivity|]). lia. }
  rewrite <- (Z2Nat.id r) by lia. apply Hn. lia.
Qed.

End Clock.

(** X10. The clock is unambiguous on whole seconds.  For a whole number of
    seconds from 0 to [Number.MAX_SAFE_INTEGER], [formatTime] gives the
    minutes in decimal, a colon and the seconds of the minute on exactly two
    digits (65 is "1:05"), and two different such numbers of seconds are
    never displayed alike. *)
Theorem formatTime_two_digit_seconds_and_injective (a b : Z) :
  0 ≤ a ≤ MAX_SAFE_INTEGER → 0 ≤ b ≤ MAX_SAFE_INTEGER →
  formatTime a =
    pretty (a / 60) +:+ ":" +:+
    String (pretty_N_char (Z.to_N (a `mod` 60) `div` 10))
      (String (pretty_N_char (Z.to_N (a `mod` 60) `mod` 10)) "") ∧
  (formatTime a = formatTime b → a = b).
Proof.
  intros [Ha _] [Hb _].
  assert (Hshape : ∀ s, 0 ≤ s →
            formatTime s =
            pretty (s / 60) +:+ ":" +:+
            String (pretty_N_char (Z.to_N (s `mod` 60) `div` 10))
              (String (pretty_N_char (Z.to_N (s `mod` 60) `mod` 10)) "")).
  { intros s Hs. unfold formatTime. cbv zeta.
    rewrite Z.rem_mod_nonneg by lia.
    rewrite seconds_field; [done|]. apply Z.mod_pos_bound. lia. }
  split; [by apply Hshape|].
  rewrite (Hshape a), (Hshape b) by done. intros Heq.
  apply string_app_inj_suffix in Heq as [Hmin Hsec]; [|done].
  apply (inj pretty) in Hmin.
  injection Hsec as H1 H0.
  pose proof (Z.mod_pos_bound a 60 ltac:(lia)) as Hra.
  pose proof (Z.mod_pos_bound b 60 ltac:(lia)) as Hrb.
  set (ra := Z.to_N (a `mod` 60)) in *. set (rb := Z.to_N (b `mod` 60)) in *.
  assert (Hra' : (ra < 60)%N) by lia. assert (Hrb' : (rb < 60)%N) by lia.
  apply pretty_N_char_inj in H1;
    [|apply N.Div0.div_lt_upper_bound; lia..].
  apply pretty_N_char_inj in H0; [|by apply N.mod_lt..].
  assert (Hr : ra = rb).
  { rewrite (N.div_mod ra 10), (N.div_mod rb 10) by done. lia. }
  assert (Hmod : a `mod` 60 = b `mod` 60) by lia.
  rewrite (Z.div_mod a 60), (Z.div_mod b 60) by lia. lia.
Qed.

Lemma formatTime_two_digit_seconds_and_injective_witness :
  formatTime 65 = "1:05" ∧ (formatTime 65 = formatTime 3605 → 65 = 3605).
Proof.
  assert (Ha : 0 ≤ 65 ≤ MAX_SAFE_INTEGER) by (unfold MAX_SAFE_INTEGER; lia).
  assert (Hb : 0 ≤ 3605 ≤ MAX_SAFE_INTEGER) by (unfold MAX_SAFE_INTEGER; lia).
  pose proof (formatTime_two_digit_seconds_and_injective 65 3605 Ha Hb)
    as [Hshape Hinj].
  split; [exact Hshape | exact Hinj].
Defined.

(** * The history page *)

Section HistoryCounts.

Import HistoryView HistoryPage.

Implicit Types (l sessions : list Session) (key : string).

Lemma js_or_num_default (o : option Z) : js_or_num o 0 = default 0 o.
Proof. destruct o as [n|]; simpl; [|done]. by destruct (Z.eqb_spec n 0). Qed.

(** The [reduce] of [getFilterCounts] counts the sessions of each status. *)
Lemma reduce_counts l (acc : gmap string Z) key :
  default 0
    (foldl (λ (acc : gmap string Z) session,
              <[status_name (status session) :=
                  js_or_num (acc !! status_name (status session)) 0 + 1]> acc)
           acc l !! key) =
  default 0 (acc !! key) + js_length (with_status key l).
Proof.
  revert acc. induction l as [|s l IH]; intros acc; simpl.
  - unfold js_length. simpl. lia.
  - rewrite IH. unfold with_status, js_length. simpl.
    rewrite lookup_insert, js_or_num_default.
    case_decide as Hk; case_bool_decide; try congruence; simpl;
      rewrite ?Hk; lia.
Qed.

Lemma status_name_not_all (s : Status) : status_name s ≠ "all".
Proof. by destruct s. Qed.

Lemma filteredSessions_all sessions : filteredSessions sessions "all" = sessions.
Proof.
  unfold filteredSessions. simpl.
  induction sessions as [|s l IH]; simpl; [done|]. by rewrite IH.
Qed.

Lemma filteredSessions_status sessions key :
  key ≠ "all" → filteredSessions sessions key = with_status key sessions.
Proof.
  intros Hk. unfold filteredSessions, with_status. by case_decide.
Qed.

Lemma shown_count_rows sessions key :
  shown_count sessions key = js_length (filteredSessions sessions key).
Proof.
  unfold shown_count, getFilterCounts. cbv zeta.
  rewrite js_or_num_default, lookup_insert. case_decide as Hk.
  - subst key. by rewrite filteredSessions_all.
  - rewrite reduce_counts, lookup_empty. simpl.
    by rewrite filteredSessions_status.
Qed.

Lemma statuses_partition l :
  js_length l =
  js_length (with_status "completed" l) + js_length (with_status "generating" l)
  + js_length (with_status "failed" l) + js_length (with_status "ready" l)
  + js_length (with_status "loading" l).
Proof.
  unfold js_length. induction l as [|s l IH]; [done|].
  unfold with_status in *. simpl length.
  destruct s as [i sub [] c]; simpl; lia.
Qed.

End HistoryCounts.


(** X12. Every session is counted under exactly one status.  The summary
    shows the total and three of the five counts ("Completed", "In Progress"
    for [generating], "Failed"); they add up to the total minus the sessions
    that are [ready] or ['loading']. *)
Theorem summary_counts_partition_total (sessions : list HistoryView.Session) :
  HistoryPage.shown_count sessions "all" = js_length sessions ∧
  HistoryPage.shown_count sessions "completed"
  + HistoryPage.shown_count sessions "generating"
  + HistoryPage.shown_count sessions "failed"
  = js_length sessions
    - HistoryPage.shown_count sessions "ready"
    - HistoryPage.shown_count sessions "loading".
Proof.
  rewrite !shown_count_rows, filteredSessions_all.
  rewrite !filteredSessions_status by done.
  split; [done|]. pose proof (statuses_partition sessions). lia.
Qed.

(** ** Deleting sessions *)

Section HistoryDelete.

Import HistoryView HistoryPage.

Implicit Types (l : list Session) (p : Page) (sid : string).

Lemma elem_of_without sid l s :
  s ∈ without sid l ↔ s ∈ l ∧ session_id s ≠ sid.
Proof.
  unfold without. rewrite !list_elem_of_In, filter_In, negb_true_iff.
  by rewrite bool_decide_eq_false.
Qed.

Lemma without_sublist sid l : without sid l `sublist_of` l.
Proof.
  unfold without. induction l as [|s l IH]; simpl; [done|].
  destruct (negb _); by constructor.
Qed.

(** A confirmed click on "Delete". *)
Lemma step_delete p sid :
  row_shown p sid = true →
  step p (EvDelete sid true) =
  {| sessions := sessions p; loading := loading p; filter := filter p;
     next_rid := S (next_rid p);
     pending := <[next_rid p := AwaitDelete sid (sessions p)]> (pending p);
     log := CallDeleteSession (next_rid p) sid :: log p |}.
Proof. intros Hrow. simpl. by rewrite Hrow. Qed.

End HistoryDelete.

(** X13. Deleting a session: a click on "Delete" that is not confirmed does
    nothing; a confirmed one sends one delete request and leaves the list as
    it is until the response arrives.  On success the list becomes the list
    of the click without the sessions of that id: no session of that id is
    left, every other session is kept, in the same order.  On failure the
    user is alerted and the list is unchanged. *)
Theorem delete_removes_that_session_only
    (p : HistoryPage.Page) (sessionId : string) :
  HistoryPage.row_shown p sessionId = true →
  let clicked := HistoryPage.step p (HistoryPage.EvDelete sessionId true) in
  let rid := HistoryPage.next_rid p in
  let deleted := HistoryPage.step clicked (HistoryPage.EvDeleteOk rid) in
  let refused := HistoryPage.step clicked (HistoryPage.EvDeleteErr rid) in
  HistoryPage.step p (HistoryPage.EvDelete sessionId false) = p ∧
  HistoryPage.log clicked
    = HistoryPage.CallDeleteSession rid sessionId :: HistoryPage.log p ∧
  HistoryPage.sessions clicked = HistoryPage.sessions p ∧
  (∀ s, s ∈ HistoryPage.sessions deleted ↔
        s ∈ HistoryPage.sessions p ∧ HistoryView.session_id s ≠ sessionId) ∧
  HistoryPage.sessions deleted `sublist_of` HistoryPage.sessions p ∧
  HistoryPage.sessions refused = HistoryPage.sessions p ∧
  head (HistoryPage.log refused)
    = Some (HistoryPage.CallAlert "Failed to delete session. Please try again.").
Proof.
  intros Hrow clicked rid deleted refused.
  assert (Hc : clicked = _) by apply (step_delete p sessionId Hrow).
  assert (Hd : HistoryPage.sessions deleted
               = HistoryPage.without sessionId (HistoryPage.sessions p)).
  { unfold deleted. rewrite Hc. simpl. by rewrite lookup_insert_eq. }
  split; [|split; [|split; [|split; [|split; [|split]]]]].
  - simpl. by rewrite andb_false_r.
  - by rewrite Hc.
  - by rewrite Hc.
  - intros s. rewrite Hd. apply elem_of_without.
  - rewrite Hd. apply without_sublist.
  - unfold refused. rewrite Hc. simpl. by rewrite lookup_insert_eq.
  - unfold refused. rewrite Hc. simpl. by rewrite lookup_insert_eq.
Qed.

(** X14. Overlapping deletes overwrite each other.  When "Delete" is clicked
    on two rows before the first response arrives, both requests hold the
    list of that moment; after both have succeeded the list is the list of
    the clicks without the session whose response came last, so the session
    whose response came first is back in the list. *)
Theorem overlapping_deletes_last_response_wins
    (p : HistoryPage.Page) (sid1 sid2 : string) :
  sid1 ≠ sid2 →
  HistoryPage.row_shown p sid1 = true → HistoryPage.row_shown p sid2 = true →
  let clicked := HistoryPage.run p [HistoryPage.EvDelete sid1 true;
                                    HistoryPage.EvDelete sid2 true] in
  let r1 := HistoryPage.next_rid p in
  let r2 := S (HistoryPage.next_rid p) in
  let done12 := HistoryPage.run clicked [HistoryPage.EvDeleteOk r1;
                                         HistoryPage.EvDeleteOk r2] in
  let done21 := HistoryPage.run clicked [HistoryPage.EvDeleteOk r2;
                                         HistoryPage.EvDeleteOk r1] in
  HistoryPage.sessions done12
    = HistoryPage.without sid2 (HistoryPage.sessions p) ∧
  HistoryPage.sessions done21
    = HistoryPage.without sid1 (HistoryPage.sessions p) ∧
  (∀ s, s ∈ HistoryPage.sessions p → HistoryView.session_id s = sid1 →
        s ∈ HistoryPage.sessions done12).
Proof.
  intros Hne Hrow1 Hrow2 clicked r1 r2 done12 done21.
  assert (Hc : clicked =
    {| HistoryPage.sessions := HistoryPage.sessions p;
       HistoryPage.loading := HistoryPage.loading p;
       HistoryPage.filter := HistoryPage.filter p;
       HistoryPage.next_rid := S r2;
       HistoryPage.pending :=
         <[r2 := HistoryPage.AwaitDelete sid2 (HistoryPage.sessions p)]>
           (<[r1 := HistoryPage.AwaitDelete sid1 (HistoryPage.sessions p)]>
              (HistoryPage.pending p));
       HistoryPage.log :=
         HistoryPage.CallDeleteSession r2 sid2
         :: HistoryPage.CallDeleteSession r1 sid1 :: HistoryPage.log p |}).
  { unfold clicked.
    change (HistoryPage.run p [HistoryPage.EvDelete sid1 true;
                               HistoryPage.EvDelete sid2 true])
      with (HistoryPage.step
              (HistoryPage.step p (HistoryPage.EvDelete sid1 true))
              (HistoryPage.EvDelete sid2 true)).
    rewrite (step_delete p sid1 Hrow1). by rewrite step_delete. }
  assert (Hr : r2 ≠ r1) by (unfold r1, r2; lia).
  assert (H12 : HistoryPage.sessions done12
                = HistoryPage.without sid2 (HistoryPage.sessions p)).
  { unfold done12, HistoryPage.run. rewrite Hc. simpl.
    rewrite lookup_insert_ne, lookup_insert_eq by done. simpl.
    by rewrite lookup_delete_ne, lookup_insert_eq. }
  split; [done|]. split.
  - unfold done21, HistoryPage.run. rewrite Hc. simpl.
    rewrite lookup_insert_eq. simpl.
    by rewrite lookup_delete_ne, lookup_insert_ne, lookup_insert_eq.
  - intros s Hs Hid. rewrite H12. apply elem_of_without. split; [done|].
    congruence.
Qed.

(** ** The dashboard *)

Section DashboardInv.

Import Dashboard.

Lemma inv_mount : inv mount.
Proof.
  unfold inv, mount, request; simpl.
  split_and!; try done.
  - intros rid a [[<- _]|[_ ?]]%lookup_insert_Some; [lia|done].
  - intros r1 r2 a1 a2 H1 H2 _.
    apply lookup_insert_Some in H1 as [[<- _]|[_ H1]]; [|done].
    by apply lookup_insert_Some in H2 as [[<- _]|[_ H2]].
  - intros _ _. exists 0%nat, AwaitSubjects. by rewrite lookup_insert_eq.
  - intros _. split_and!; try done. by intros rid s [?|?%elem_of_nil]%elem_of_cons.
  - by left.
  - by intros rid s [?|?%elem_of_nil]%elem_of_cons.
  - intros _. split; [done|]. intros [rid H].
    by apply lookup_insert_Some in H as [[_ ?]|[_ ?]].
  - lia.
Qed.

Lemma gen_not_load a : loads a = false ↔ a = AwaitGenerate.
Proof. by destruct a. Qed.

Section Pending.

Variable m : gmap nat Await.
Hypothesis uniq : ∀ r1 r2 a1 a2,
  m !! r1 = Some a1 → m !! r2 = Some a2 → loads a1 = loads a2 → r1 = r2.

Lemma other_kind rid a r b :
  m !! rid = Some a → delete rid m !! r = Some b → loads b = negb (loads a).
Proof.
  intros Ha [Hne Hb]%lookup_delete_Some.
  destruct (loads b) eqn:Eb, (loads a) eqn:Ea; try done;
    destruct Hne; apply (uniq _ _ _ _ Ha Hb); congruence.
Qed.

Lemma uniq_delete rid r1 r2 a1 a2 :
  delete rid m !! r1 = Some a1 → delete rid m !! r2 = Some a2 →
  loads a1 = loads a2 → r1 = r2.
Proof.
  intros [_ H1]%lookup_delete_Some [_ H2]%lookup_delete_Some. by apply uniq.
Qed.

Lemma uniq_replace rid a n b r1 r2 a1 a2 :
  m !! rid = Some a → loads b = loads a →
  <[n:=b]> (delete rid m) !! r1 = Some a1 →
  <[n:=b]> (delete rid m) !! r2 = Some a2 →
  loads a1 = loads a2 → r1 = r2.
Proof.
  intros Ha Hb H1 H2 E.
  apply lookup_insert_Some in H1 as [[<- <-]|[_ H1]];
    apply lookup_insert_Some in H2 as [[<- <-]|[_ H2]]; try done.
  - apply (other_kind _ _ _ _ Ha) in H2. rewrite <- E, Hb in H2.
    by destruct (loads a).
  - apply (other_kind _ _ _ _ Ha) in H1. rewrite E, Hb in H1.
    by destruct (loads a).
  - by apply (uniq_delete rid _ _ a1 a2).
Qed.

Lemma uniq_add n b r1 r2 a1 a2 :
  (∀ r a, m !! r = Some a → loads a = negb (loads b)) →
  <[n:=b]> m !! r1 = Some a1 → <[n:=b]> m !! r2 = Some a2 →
  loads a1 = loads a2 → r1 = r2.
Proof.
  intros Hm H1 H2 E.
  apply lookup_insert_Some in H1 as [[<- <-]|[_ H1]];
    apply lookup_insert_Some in H2 as [[<- <-]|[_ H2]]; try done.
  - apply Hm in H2. rewrite <- E in H2. by destruct (loads b).
  - apply Hm in H1. rewrite E in H1. by destruct (loads b).
  - by apply (uniq _ _ a1 a2).
Qed.

(** Settling a request leaves the requests of the other kind in flight. *)
Lemma delete_other_kind rid a r b :
  m !! rid = Some a → loads b = negb (loads a) →
  delete rid m !! r = Some b ↔ m !! r = Some b.
Proof.
  intros Ha Hb. rewrite lookup_delete_Some. split; [by intros [_ ?]|].
  intros Hr. split; [|done]. intros ->. rewrite Ha in Hr.
  injection Hr as ->. by destruct (loads b).
Qed.

End Pending.

Ltac dash :=
  unfold setSubjects, setLoading, setRecentSessions, setIsGenerating,
    setSelectedSubject, request, settle, emit, unmount; simpl.

Ltac in_log :=
  repeat match goal with
  | H : _ ∈ _ :: _ |- _ => apply elem_of_cons in H as [H|H]; [discriminate H|]
  end.

Lemma inv_step p e : inv p → inv (step p e).
Proof.
  intros (Hfresh & Huniq & Hload & Hspin & Hidle & Hsel & Hgen & Hbusy & Hfive).
  destruct e as [rid l|rid|rid l|rid|s| |rid sid|rid err|]; simpl.
  - (* subjects arrive: the history is requested *)
    destruct (pending p !! rid) as [[]|] eqn:Hrid;
      try by (split_and!).
    pose proof (Hload _ _ Hrid eq_refl) as Hl.
    destruct (Hidle Hl) as (Hs & Hg & Hr & Hn).
    assert (∀ r, <[next_rid p:=AwaitHistory]> (delete rid (pending p)) !! r
                 = Some AwaitGenerate ↔ pending p !! r = Some AwaitGenerate)
      as Hpg.
    { intros r. rewrite lookup_insert_Some,
        (delete_other_kind _ _ _ _ _ Hrid) by done.
      split; [by intros [[_ ?]|[_ ?]]|]. intros Hr'. right. split; [|done].
      intros <-. apply Hfresh in Hr'. lia. }
    assert (inv (request AwaitHistory CallGetHistory (settle rid p))) as Hi.
    { unfold inv; dash. split_and!; try done.
      - intros r a [[<- _]|[_ [_ H]%lookup_delete_Some]]%lookup_insert_Some;
          [lia|]. apply Hfresh in H. lia.
      - intros r1 r2 a1 a2. by apply (uniq_replace _ Huniq _ _ _ _ _ _ _ _ Hrid).
      - intros _ _. exists (next_rid p), AwaitHistory.
        by rewrite lookup_insert_eq.
      - intros _. split_and!; try done. intros r s H. in_log. by apply Hn in H.
      - intros r s H. in_log. by apply Hn in H.
      - intros Hm. setoid_rewrite Hpg. by apply Hbusy. }
    destruct (mounted p) eqn:Hm; dash; rewrite ?Hm; simpl;
      [|revert Hi; dash; by rewrite Hm].
    unfold inv in Hi |- *; simpl in Hi |- *; rewrite ?Hm in Hi.
    destruct Hi as (Hi1 & Hi2 & Hi3 & Hi4 & Hi5 & Hi6 & Hi7 & Hi8 & Hi9).
    split_and!; try done.
    + by left.
    + intros r s H. in_log. by apply Hn in H.
  - (* subjects fail: the load ends *)
    destruct (pending p !! rid) as [[]|] eqn:Hrid;
      try by (split_and!).
    pose proof (Hload _ _ Hrid eq_refl) as Hl.
    destruct (Hidle Hl) as (Hs & Hg & Hr & Hn).
    assert (∀ r, delete rid (pending p) !! r = Some AwaitGenerate
                 ↔ pending p !! r = Some AwaitGenerate) as Hpg
      by (intros r; by apply (delete_other_kind _ _ _ _ _ Hrid)).
    destruct (mounted p) eqn:Hm; dash; rewrite ?Hm; unfold inv; simpl;
      (split_and!; try done;
       [ intros r a [_ H]%lookup_delete_Some; by apply Hfresh in H
       | intros r1 r2 a1 a2; by apply (uniq_delete _ Huniq)
       | .. ]).
    + intros r a H Ha. apply (other_kind _ Huniq _ _ _ _ Hrid) in H.
      simpl in H. congruence.
    + intros r s H. in_log. by apply (Hgen r).
    + intros _. setoid_rewrite Hpg. by apply Hbusy.
    + intros _. split_and!; try done. intros r s H. in_log. by apply Hn in H.
    + intros r s H. in_log. by apply (Hgen r).
  - (* the history arrives: the load ends *)
    destruct (pending p !! rid) as [[]|] eqn:Hrid;
      try by (split_and!).
    pose proof (Hload _ _ Hrid eq_refl) as Hl.
    destruct (Hidle Hl) as (Hs & Hg & Hr & Hn).
    assert (∀ r, delete rid (pending p) !! r = Some AwaitGenerate
                 ↔ pending p !! r = Some AwaitGenerate) as Hpg
      by (intros r; by apply (delete_other_kind _ _ _ _ _ Hrid)).
    destruct (mounted p) eqn:Hm; dash; rewrite ?Hm; unfold inv; simpl;
      (split_and!; try done;
       [ intros r a [_ H]%lookup_delete_Some; by apply Hfresh in H
       | intros r1 r2 a1 a2; by apply (uniq_delete _ Huniq)
       | .. ]).
    + intros r a H Ha. apply (other_kind _ Huniq _ _ _ _ Hrid) in H.
      simpl in H. congruence.
    + intros _. setoid_rewrite Hpg. by apply Hbusy.
    + rewrite length_take. lia.
  - (* the history fails: the load ends *)
    destruct (pending p !! rid) as [[]|] eqn:Hrid;
      try by (split_and!).
    pose proof (Hload _ _ Hrid eq_refl) as Hl.
    destruct (Hidle Hl) as (Hs & Hg & Hr & Hn).
    assert (∀ r, delete rid (pending p) !! r = Some AwaitGenerate
                 ↔ pending p !! r = Some AwaitGenerate) as Hpg
      by (intros r; by apply (delete_other_kind _ _ _ _ _ Hrid)).
    destruct (mounted p) eqn:Hm; dash; rewrite ?Hm; unfold inv; simpl;
      (split_and!; try done;
       [ intros r a [_ H]%lookup_delete_Some; by apply Hfresh in H
       | intros r1 r2 a1 a2; by apply (uniq_delete _ Huniq)
       | .. ]).
    + intros r a H Ha. apply (other_kind _ Huniq _ _ _ _ Hrid) in H.
      simpl in H. congruence.
    + intros r s H. in_log. by apply (Hgen r).
    + intros _. setoid_rewrite Hpg. by apply Hbusy.
    + lia.
    + intros _. split_and!; try done. intros r s H. in_log. by apply Hn in H.
    + intros r s H. in_log. by apply (Hgen r).
  - (* a subject is picked *)
    destruct (can_select p s) eqn:Hc; [|by split_and!].
    unfold can_select in Hc.
    apply andb_true_iff in Hc as [[[Hm Hl]%andb_true_iff Hg]%andb_true_iff Hd].
    apply negb_true_iff in Hl, Hg. apply bool_decide_eq_true in Hd.
    dash; rewrite Hm; unfold inv; simpl. split_and!; try done.
    + intros _. by apply Hspin.
    + intros Hl'. by rewrite Hl' in Hl.
    + intros _. by apply Hbusy.
  - (* "Generate Quiz" *)
    destruct (can_generate p) eqn:Hc; [|by split_and!].
    unfold can_generate in Hc.
    apply andb_true_iff in Hc as [[Hm Hl]%andb_true_iff Hg].
    apply negb_true_iff in Hl, Hg. apply orb_false_iff in Hg as [Hd Hg].
    apply bool_decide_eq_false in Hd.
    unfold handleStartQuiz. destruct (decide _) as [|_]; [done|].
    dash; rewrite Hm; unfold inv; simpl. split_and!; try done.
    + intros r a [[<- _]|[_ H]]%lookup_insert_Some; [lia|].
      apply Hfresh in H. lia.
    + intros r1 r2 a1 a2. apply (uniq_add _ Huniq). intros r a Hr.
      destruct a; try done.
      assert (isGenerating p = true) as Hg'
        by (apply (Hbusy Hm); by exists r).
      by rewrite Hg' in Hg.
    + intros r a [[_ <-]|[_ H]]%lookup_insert_Some Ha; [done|].
      by apply (Hload _ _ H).
    + intros _ Hl'. by rewrite Hl' in Hl.
    + intros Hl'. by rewrite Hl' in Hl.
    + intros r s' H. apply elem_of_cons in H as [H|H].
      * injection H as -> ->. split; [done|]. by destruct Hsel.
      * in_log. by apply (Hgen r).
    + intros _. split; [|done]. intros _. exists (next_rid p).
      by rewrite lookup_insert_eq.
  - (* the quiz is started: the router leaves the dashboard *)
    destruct (pending p !! rid) as [[]|] eqn:Hrid;
      try by (split_and!).
    dash; unfold inv; simpl. split_and!; try done.
    + intros r a [_ H]%lookup_delete_Some. by apply Hfresh in H.
    + intros r1 r2 a1 a2. by apply (uniq_delete _ Huniq).
    + intros r a [_ H]%lookup_delete_Some. by apply (Hload r a).
    + intros Hl. destruct (Hidle Hl) as (Hs & Hg & Hr & Hn).
      split_and!; try done. intros r s H. in_log. by apply Hn in H.
    + intros r s H. in_log. by apply (Hgen r).
  - (* the quiz could not be started *)
    destruct (pending p !! rid) as [[]|] eqn:Hrid;
      try by (split_and!).
    destruct (mounted p) eqn:Hm; dash; rewrite ?Hm; unfold inv; simpl;
      (split_and!; try done;
       [ intros r a [_ H]%lookup_delete_Some; by apply Hfresh in H
       | intros r1 r2 a1 a2; by apply (uniq_delete _ Huniq)
       | intros r a [_ H]%lookup_delete_Some; by apply (Hload r a)
       | .. ]).
    + intros _ Hl. destruct (Hspin eq_refl Hl) as (r & a & Hr & Ha).
      exists r, a. split; [|done].
      apply (delete_other_kind _ _ _ _ _ Hrid); [by rewrite Ha|done].
    + intros Hl. destruct (Hidle Hl) as (Hs & Hg & Hr & Hn).
      split_and!; try done. intros r s H. in_log. by apply Hn in H.
    + intros r s H. in_log. by apply (Hgen r).
    + intros _. split; [done|]. intros [r H].
      by apply (other_kind _ Huniq _ _ _ _ Hrid) in H.
    + intros Hl. destruct (Hidle Hl) as (Hs & Hg & Hr & Hn).
      split_and!; try done. intros r s H. in_log. by apply Hn in H.
    + intros r s H. in_log. by apply (Hgen r).
  - (* the user leaves *)
    unfold unmount, inv; simpl. by split_and!.
Qed.

Lemma inv_run p es : inv p → inv (run p es).
Proof.
  revert p. induction es as [|e es IH]; intros p Hp; [done|].
  apply IH. by apply inv_step.
Qed.

Lemma inv_reachable es : inv (run mount es).
Proof. apply inv_run, inv_mount. Qed.

End DashboardInv.

Lemma delete_removes_that_session_only_witness :
  HistoryPage.row_shown history_loaded "b2" = true ∧
  HistoryPage.sessions
    (HistoryPage.run history_loaded
       [HistoryPage.EvDelete "b2" true; HistoryPage.EvDeleteOk 1])
  `sublist_of` sample_history.
Proof.
  split; [reflexivity|].
  exact (proj1 (proj2 (proj2 (proj2 (proj2
    (delete_removes_that_session_only history_loaded "b2" eq_refl)))))).
Defined.

Lemma overlapping_deletes_last_response_wins_witness :
  HistoryPage.row_shown history_loaded "a1" = true ∧
  HistoryPage.row_shown history_loaded "b2" = true ∧
  HistoryPage.sessions
    (HistoryPage.run history_loaded
       [HistoryPage.EvDelete "a1" true; HistoryPage.EvDelete "b2" true;
        HistoryPage.EvDeleteOk 1; HistoryPage.EvDeleteOk 2])
  = HistoryPage.without "b2" sample_history.
Proof.
  split; [reflexivity|]. split; [reflexivity|].
  assert ("a1" ≠ "b2") as Hne by discriminate.
  exact (proj1 (overlapping_deletes_last_response_wins history_loaded
                  "a1" "b2" Hne eq_refl eq_refl)).
Defined.

(** X15. Starting a quiz from the dashboard.  In every state the dashboard
    can reach, every subject that was sent to [generateQuiz] is a non-empty
    subject of the list the server offered, at most one such request is in
    flight, and the mounted dashboard shows "Generating..." exactly while
    that request is in flight. *)
Theorem generate_requests_offered_subject_one_at_a_time
    (es : list Dashboard.Event) :
  let p := Dashboard.run Dashboard.mount es in
  (∀ rid s, Dashboard.CallGenerateQuiz rid s ∈ Dashboard.log p →
            s ≠ "" ∧ s ∈ Dashboard.subjects p) ∧
  (∀ r1 r2, Dashboard.pending p !! r1 = Some Dashboard.AwaitGenerate →
            Dashboard.pending p !! r2 = Some Dashboard.AwaitGenerate →
            r1 = r2) ∧
  (Dashboard.mounted p = true →
     (Dashboard.isGenerating p = true ↔
      ∃ rid, Dashboard.pending p !! rid = Some Dashboard.AwaitGenerate)).
Proof.
  intros p.
  destruct (inv_reachable es)
    as (_ & Huniq & _ & _ & _ & _ & Hgen & Hbusy & _).
  split; [exact Hgen|]. split; [|exact Hbusy].
  intros r1 r2 H1 H2. by apply (Huniq _ _ _ _ H1 H2).
Qed.

(** X16. Loading the dashboard.  In every state the dashboard can reach, the
    mounted dashboard shows its spinner exactly while a request of
    [loadDashboardData] is in flight, of which there is at most one; while it
    loads, no subject is selected, no recent session is listed and no quiz was
    requested; and at most five recent sessions are ever listed. *)
Theorem dashboard_spinner_tracks_the_load (es : list Dashboard.Event) :
  let p := Dashboard.run Dashboard.mount es in
  (Dashboard.mounted p = true →
     (Dashboard.loading p = true ↔
      ∃ rid a, Dashboard.pending p !! rid = Some a ∧
               Dashboard.loads a = true)) ∧
  (∀ r1 r2 a1 a2,
     Dashboard.pending p !! r1 = Some a1 → Dashboard.loads a1 = true →
     Dashboard.pending p !! r2 = Some a2 → Dashboard.loads a2 = true →
     r1 = r2) ∧
  (Dashboard.loading p = true →
     Dashboard.selectedSubject p = "" ∧ Dashboard.recentSessions p = [] ∧
     ∀ rid s, Dashboard.CallGenerateQuiz rid s ∉ Dashboard.log p) ∧
  (length (Dashboard.recentSessions p) ≤ 5)%nat.
Proof.
  intros p.
  destruct (inv_reachable es)
    as (_ & Huniq & Hload & Hspin & Hidle & _ & _ & _ & Hfive).
  split; [|split; [|split; [|exact Hfive]]].
  - intros Hm. split; [by apply Hspin|].
    intros (rid & a & Hr & Ha). by apply (Hload rid a).
  - intros r1 r2 a1 a2 H1 E1 H2 E2. apply (Huniq _ _ _ _ H1 H2). congruence.
  - intros Hl. by destruct (Hidle Hl) as (? & _ & ? & ?).
Qed.

Section SubjectsFailed.

Import Dashboard.

Lemma subjects_failed_step p e :
  p = subjects_failed ∨ p = unmount subjects_failed →
  step p e = subjects_failed ∨ step p e = unmount subjects_failed.
Proof.
  assert (pending subjects_failed = ∅) as Hp by reflexivity.
  assert (∀ rid, pending (unmount subjects_failed) !! rid = None) as Hu
    by (intros rid; exact (eq_ind_r (λ m, m !! rid = None)
                             (lookup_empty rid) Hp)).
  assert (∀ rid, pending subjects_failed !! rid = None) as Hs
    by exact Hu.
  intros [-> | ->]; destruct e; simpl; rewrite ?Hs, ?Hu; auto.
  destruct (decide (s = "")) as [->|Hne]; [by left|].
  unfold can_select. rewrite bool_decide_eq_false_2, andb_false_r; [by left|].
  intros [?|H]; [done|]. by apply elem_of_nil in H.
Qed.

Lemma subjects_failed_run es p :
  p = subjects_failed ∨ p = unmount subjects_failed →
  run p es = subjects_failed ∨ run p es = unmount subjects_failed.
Proof.
  revert p. induction es as [|e es IH]; intros p Hp; [done|].
  apply IH. by apply subjects_failed_step.
Qed.

End SubjectsFailed.

(** X17. A failed subjects request is a dead end.  When [getSubjects] fails,
    the error is logged, the history is not requested and the dashboard ends
    loading with no subject offered.  No later event changes the dashboard,
    except that the user may leave it: "Generate Quiz" stays disabled, no quiz
    is requested and neither the subjects nor the history is requested
    again. *)
Theorem failed_subjects_load_is_a_dead_end (es : list Dashboard.Event) :
  let p := Dashboard.run subjects_failed es in
  (p = subjects_failed ∨ p = Dashboard.unmount subjects_failed) ∧
  Dashboard.subjects p = [] ∧ Dashboard.loading p = false ∧
  Dashboard.can_generate p = false ∧
  Dashboard.log p = [Dashboard.CallConsoleError "Error loading dashboard:";
                     Dashboard.CallGetSubjects 0].
Proof.
  intros p.
  assert (p = subjects_failed ∨ p = Dashboard.unmount subjects_failed) as Hp
    by (apply subjects_failed_run; by left).
  split; [exact Hp|]. by destruct Hp as [-> | ->].
Qed.

(** * The countdown on numbers that are not whole *)

Section FractionalCountdown.

Local Open Scope Q_scope.

Lemma countdown_branch_pos t :
  0 < t → countdown_branch t = ArmTimeout (t - 1).
Proof.
  intros Ht. unfold countdown_branch.
  destruct (Qle_bool t 0) eqn:E; [|done].
  apply Qle_bool_iff in E. lra.
Qed.

Lemma countdown_branch_zero t : t == 0 → countdown_branch t = AutoSubmit.
Proof.
  intros Ht. unfold countdown_branch.
  assert (Qle_bool t 0 = true) as -> by (apply Qle_bool_iff; lra).
  simpl. by assert (Qeq_bool t 0 = true) as -> by by apply Qeq_bool_iff.
Qed.

Lemma countdown_branch_neg t : t < 0 → countdown_branch t = NoBranch.
Proof.
  intros Ht. unfold countdown_branch.
  assert (Qle_bool t 0 = true) as -> by (apply Qle_bool_iff; lra).
  simpl. destruct (Qeq_bool t 0) eqn:E; [|done].
  apply Qeq_bool_iff in E. lra.
Qed.

Lemma countdown_end_whole seconds t (z : Z) :
  t == inject_Z z → (0 < z)%Z → (z ≤ Z.of_nat seconds)%Z →
  countdown_end seconds t = Some AutoSubmit.
Proof.
  revert t z. induction seconds as [|n IH]; intros t z Ht Hz Hn; [lia|].
  assert (0 < t) as Hpos by (rewrite Ht; change 0 with (inject_Z 0);
                              by rewrite <- Zlt_Qlt).
  simpl. rewrite (countdown_branch_pos t Hpos).
  assert (t - 1 == inject_Z (z - 1)) as Ht'.
  { rewrite Ht. unfold Z.sub. rewrite inject_Z_plus. reflexivity. }
  destruct (decide (z = 1%Z)) as [->|Hz1].
  - destruct n; simpl; by rewrite countdown_branch_zero.
  - apply (IH _ (z - 1)%Z); [done|lia..].
Qed.

Lemma countdown_end_fraction seconds t :
  0 < t → t <= inject_Z (Z.of_nat seconds) →
  (∀ z : Z, ¬ t == inject_Z z) →
  countdown_end seconds t = Some NoBranch.
Proof.
  revert t. induction seconds as [|n IH]; intros t Hpos Hn Hfrac.
  { change (inject_Z (Z.of_nat 0)) with 0 in Hn. lra. }
  simpl. rewrite (countdown_branch_pos t Hpos).
  assert (∀ z : Z, ¬ t - 1 == inject_Z z) as Hfrac'.
  { intros z Hz. apply (Hfrac (z + 1)%Z). rewrite inject_Z_plus.
    change (inject_Z 1) with 1. lra. }
  assert (t - 1 <= inject_Z (Z.of_nat n)) as Hn'.
  { rewrite Nat2Z.inj_succ in Hn. unfold Z.succ in Hn.
    rewrite inject_Z_plus in Hn. change (inject_Z 1) with 1 in Hn. lra. }
  destruct (Qlt_le_dec 0 (t - 1)) as [H1|H1].
  - by apply IH.
  - assert (t - 1 < 0) as Hneg.
    { apply Qle_lt_or_eq in H1 as [H1|H1]; [done|].
      destruct (Hfrac' 0%Z). by rewrite H1. }
    destruct n; simpl; by rewrite countdown_branch_neg.
Qed.

End FractionalCountdown.

(** X18. The effect on [timeRemaining] decides on the number itself.  On a
    whole number it takes the branch it takes in the model of the screen.  A
    positive countdown of at most [Number.MAX_SAFE_INTEGER] seconds, followed
    for as many seconds as it holds, ends in the automatic submission if it
    is a whole number; if it is not, it steps over zero to a negative number,
    on which neither branch of the effect runs: no timeout is armed and the
    quiz is never submitted by the countdown. *)
Theorem countdown_submits_only_whole_seconds (t : Q) (seconds : nat) :
  (0 < t)%Q → (t <= inject_Z MAX_SAFE_INTEGER)%Q →
  (t <= inject_Z (Z.of_nat seconds))%Q →
  ((∃ z : Z, (t == inject_Z z)%Q) →
     countdown_end seconds t = Some AutoSubmit) ∧
  ((∀ z : Z, ¬ (t == inject_Z z)%Q) →
     countdown_end seconds t = Some NoBranch) ∧
  (∀ (w : World) (z : Z),
     timeRemaining (st w) = Some z →
     countdown_effect w =
       match countdown_branch (inject_Z z) with
       | ArmTimeout _ => set_timer (Some (now w + COUNTDOWN_MS, z)) w
       | AutoSubmit => handleSubmitQuiz w
       | NoBranch => w
       end).
Proof.
  intros Hpos _ Hn. split; [|split].
  - intros [z Hz]. apply (countdown_end_whole seconds t z Hz).
    + rewrite Hz in Hpos. change 0%Q with (inject_Z 0) in Hpos.
      by rewrite <- Zlt_Qlt in Hpos.
    + rewrite Hz in Hn. by rewrite <- Zle_Qle in Hn.
  - by apply countdown_end_fraction.
  - intros w z Hz. unfold countdown_effect. rewrite Hz.
    destruct (Z.ltb_spec 0 z) as [H0|H0].
    + rewrite countdown_branch_pos; [done|].
      change 0%Q with (inject_Z 0). by rewrite <- Zlt_Qlt.
    + destruct (Z.eqb_spec z 0) as [->|H1].
      * by rewrite countdown_branch_zero.
      * rewrite countdown_branch_neg; [done|].
        change 0%Q with (inject_Z 0). rewrite <- Zlt_Qlt. lia.
Qed.

Lemma countdown_submits_only_whole_seconds_witness :
  countdown_end 1 (3 # 5) = Some NoBranch ∧
  countdown_end 60 (inject_Z 60) = Some AutoSubmit.
Proof.
  assert (H1 : (0 < 3 # 5)%Q) by reflexivity.
  assert (H2 : (3 # 5 <= inject_Z MAX_SAFE_INTEGER)%Q)
    by (vm_compute; discriminate).
  assert (H3 : (3 # 5 <= inject_Z (Z.of_nat 1))%Q) by (vm_compute; discriminate).
  assert (H4 : ∀ z : Z, ¬ (3 # 5 == inject_Z z)%Q).
  { intros z. unfold Qeq. simpl. lia. }
  assert (H5 : (0 < inject_Z 60)%Q) by reflexivity.
  assert (H6 : (inject_Z 60 <= inject_Z MAX_SAFE_INTEGER)%Q)
    by (vm_compute; discriminate).
  assert (H7 : (inject_Z 60 <= inject_Z (Z.of_nat 60))%Q)
    by (vm_compute; discriminate).
  assert (H8 : ∃ z : Z, (inject_Z 60 == inject_Z z)%Q) by (by exists 60).
  split.
  - exact (proj1 (proj2 (countdown_submits_only_whole_seconds (3 # 5) 1
                           H1 H2 H3)) H4).
  - exact (proj1 (countdown_submits_only_whole_seconds (inject_Z 60) 60
                    H5 H6 H7) H8).
Defined.
